(** * 3csim: scenario trigger-and-behaviour state machines

    A shallow embedding of [scripts/scenario_files/checks.py], of the
    scenario classes of eight scenario files ([__init__], [trigger], [tick],
    [destroy]) and of the driver loop every scenario file ends with,
    together with the properties of the natural-language specification
    that are stated about them.

    Numbers.  Python floats are idealised as real numbers ([R]); the one
    float behaviour that is kept is the [ZeroDivisionError] that Python's
    [/] raises on a zero divisor.  Python integers (the tick timers and
    the return codes of [tick]) are [Z].  The fixed time step a scenario
    reads from the world's settings is a float or [None] (the simulator
    runs with a variable time step), an [option R]; multiplying by [None]
    raises a [TypeError].

    Objects.  A scenario object is a record; a method that mutates [self]
    returns the object after the call.  [trigger_points] and
    [trigger_area] start out as one and the same list.  Where the idle
    tick assigns a new list to [trigger_area] ([update_trigger_points]
    builds one) nothing ever writes into the shared list, and the two
    attributes are modelled as two values; where the idle tick writes into
    the list ([CarForwardStoppingDropoff]) the list is one field that both
    attributes read.  A trigger area is a pair of points; the checkpoints
    of a scenario are a list, indexed as in Python.

    The simulator.  An actor is a handle; what a scenario reads from the
    simulator during one tick is a [World], a snapshot of every actor;
    what it sends to the simulator, and what it prints, is a list of
    events. *)

From Stdlib Require Import Reals Lra ZArith Lia List Bool String Permutation.
Import ListNotations.

Local Open Scope R_scope.

(** ** Python primitives *)

Module Py.

Inductive exn : Type :=
| ZeroDivisionError
| IndexError
| TypeError.

(** The result of evaluating a Python expression or call: a value, or a
    raised exception. *)
Inductive res (A : Type) : Type :=
| Ok (a : A)
| Raise (e : exn).
Arguments Ok {A} a.
Arguments Raise {A} e.

Definition bind {A B : Type} (m : res A) (k : A -> res B) : res B :=
  match m with
  | Ok a => k a
  | Raise e => Raise e
  end.

(** Comparisons of floats, as booleans. *)
Definition lt (a b : R) : bool := if Rlt_dec a b then true else false.
Definition gt (a b : R) : bool := if Rgt_dec a b then true else false.
Definition le (a b : R) : bool := if Rle_dec a b then true else false.
Definition ge (a b : R) : bool := if Rge_dec a b then true else false.
Definition eq (a b : R) : bool := if Req_dec_T a b then true else false.
Definition ne (a b : R) : bool := negb (eq a b).

(** [a / b] on floats: raises on a zero divisor. *)
Definition truediv (a b : R) : res R :=
  if Req_dec_T b 0 then Raise ZeroDivisionError else Ok (a / b).

(** [a * b] where [b] is a float or [None]: a float times [None]
    raises. *)
Definition mul (a : R) (b : option R) : res R :=
  match b with
  | Some b => Ok (a * b)
  | None => Raise TypeError
  end.

(** [l[i]] and [l[i] = v] on a list, for an index [i >= 0]. *)
Definition getitem {A : Type} (l : list A) (i : nat) : res A :=
  match nth_error l i with
  | Some a => Ok a
  | None => Raise IndexError
  end.

Fixpoint setitem {A : Type} (l : list A) (i : nat) (v : A) : res (list A) :=
  match l, i with
  | [], _ => Raise IndexError
  | _ :: l', O => Ok (v :: l')
  | a :: l', S i' =>
      match setitem l' i' v with
      | Ok r => Ok (a :: r)
      | Raise e => Raise e
      end
  end.

(** [l.insert(i, v)] for an index [i >= 0] (an index past the end
    appends). *)
Definition insert {A : Type} (l : list A) (i : nat) (v : A) : list A :=
  firstn i l ++ v :: skipn i l.

(** [a ** 2] and [a ** 0.5] (the latter only ever applied to a sum of
    squares). *)
Definition pow2 (a : R) : R := a * a.
Definition pow_half (a : R) : R := sqrt a.

End Py.

Notation "x <- m ;; k" := (Py.bind m (fun x => k))
  (at level 61, m at next level, right associativity).

(** ** The simulator's data, as the scenarios see it *)

Module carla.

Record Vector3D : Type := mkVector3D { x : R; y : R; z : R }.
Definition Location : Type := Vector3D.

Record Rotation : Type := mkRotation { pitch : R; yaw : R; roll : R }.

Record Transform : Type :=
  mkTransform { location : Location; rotation : Rotation }.

Record WalkerControl : Type :=
  mkWalkerControl { direction : Vector3D; speed : R; jump : bool }.

Record VehicleControl : Type :=
  mkVehicleControl
    { throttle : R; steer : R; brake : R; hand_brake : bool; reverse : bool }.

Inductive VehicleLightState : Type :=
| Position | LowBeam | Brake | Reverse | Fog | Interior
| LeftBlinker | RightBlinker | Special1.

Inductive VehicleDoor : Type :=
| FL | FR | RL | RR | All.

(** Actors are handles into the simulator. *)
Definition Actor : Type := nat.

(** What the simulator reports about one actor during one tick. *)
Record ActorState : Type :=
  mkActorState
    { get_transform : Transform;
      get_forward_vector : Vector3D; (* of [get_transform] *)
      get_velocity : Vector3D;
      get_control : WalkerControl }.

(** The world between two simulation steps. *)
Definition World : Type := Actor -> ActorState.

Definition get_location (a : ActorState) : Location :=
  location (get_transform a).

(** Commands a scenario sends to the simulator, and the lines it prints. *)
Inductive Command : Type :=
| DestroyActor (a : Actor).

Inductive Event : Type :=
| print (msg : string)
| print_d (before : string) (n : nat) (after : string)
| spawn_actor (blueprint : string) (t : Transform) (attach_to : option Actor)
              (spawned : Actor)
| apply_walker_control (a : Actor) (c : WalkerControl)
| apply_vehicle_control (a : Actor) (c : VehicleControl)
| set_transform (a : Actor) (t : Transform)
| set_simulate_physics (a : Actor) (enabled : bool)
| set_light_state (a : Actor) (lights : list VehicleLightState)
| add_impulse (a : Actor) (v : Vector3D)
| open_door (a : Actor) (door : VehicleDoor)
| close_door (a : Actor) (door : VehicleDoor)
| set_autopilot (a : Actor) (enabled : bool)
| sensor_listen (a : Actor)
| sensor_stop (a : Actor)
| apply_batch (commands : list Command).

Definition Loc (x y z : R) : Location := mkVector3D x y z.
Definition Rot (roll pitch yaw : R) : Rotation :=
  {| pitch := pitch; yaw := yaw; roll := roll |}.

End carla.

Import carla.

(** ** checks.py *)

Module checks.

(** A trigger area: two corner points [(x, y)]. *)
Definition Point : Type := (R * R)%type.
Definition TriggerPoints : Type := (Point * Point)%type.

Definition is_inside_bounding_box
    (vehicle_location : Location) (bbox_min bbox_max : Point) : bool :=
  (Py.le (Rmin (fst bbox_min) (fst bbox_max)) (x vehicle_location)
   && Py.le (x vehicle_location) (Rmax (fst bbox_min) (fst bbox_max)))
  && (Py.le (Rmin (snd bbox_min) (snd bbox_max)) (y vehicle_location)
      && Py.le (y vehicle_location) (Rmax (snd bbox_min) (snd bbox_max))).

Definition norm (v : Vector3D) : R :=
  Py.pow_half (Py.pow2 (x v) + Py.pow2 (y v) + Py.pow2 (z v)).

Definition get_vehicle_speed (vehicle : ActorState) : R :=
  norm (get_velocity vehicle).

Definition update_trigger_points
    (trigger_points : TriggerPoints) (actor_speed : R)
    (add_speed add_to_x : bool) : TriggerPoints :=
  let p0 := fst trigger_points in
  let p1 := snd trigger_points in
  if add_speed then
    if add_to_x then
      ((fst p0 + actor_speed, snd p0), (fst p1 + actor_speed, snd p1))
    else
      ((fst p0, snd p0 + actor_speed), (fst p1, snd p1 + actor_speed))
  else
    if add_to_x then
      ((fst p0 - actor_speed, snd p0), (fst p1 - actor_speed, snd p1))
    else
      ((fst p0, snd p0 - actor_speed), (fst p1, snd p1 - actor_speed)).

Definition update_beginning_area
    (array : Point) (actor_speed : R) (add_speed add_to_x : bool) : Point :=
  if add_speed then
    if add_to_x then (fst array + actor_speed, snd array)
    else (fst array, snd array + actor_speed)
  else
    if add_to_x then (fst array - actor_speed, snd array)
    else (fst array, snd array - actor_speed).

(** [adjust_car_location] adds to the [Location] it is given and returns
    it; its one caller passes the location of a transform just read from
    the simulator, a copy nobody else holds.  [forward_vector] is
    [car_transform.get_forward_vector()]. *)
Definition adjust_car_location
    (car_location : Location) (forward_vector : Vector3D)
    (bumper_offset : R) : Location :=
  mkVector3D (x car_location + x forward_vector * bumper_offset)
             (y car_location + y forward_vector * bumper_offset)
             (z car_location + z forward_vector * bumper_offset).

Definition calculate_required_speed
    (car_location : Location) (car_velocity : Vector3D)
    (pedestrian_location : Location) (pedestrian_direction : Vector3D)
  : Py.res R :=
  let car_speed := norm car_velocity in
  if Py.lt car_speed 0.1 then Py.Ok 0
  else if Py.ne (x pedestrian_direction) 0 then
    let distance_to_pedestrian_path :=
      Rabs (y car_location - y pedestrian_location) in
    time_to_intersect <- Py.truediv distance_to_pedestrian_path car_speed ;;
    let distance_to_intersect :=
      Rabs (x car_location - x pedestrian_location) in
    Py.truediv distance_to_intersect time_to_intersect
  else
    let distance_to_pedestrian_path :=
      Rabs (x car_location - x pedestrian_location) in
    time_to_intersect <- Py.truediv distance_to_pedestrian_path car_speed ;;
    let distance_to_intersect :=
      Rabs (y car_location - y pedestrian_location) in
    Py.truediv distance_to_intersect time_to_intersect.

(** [adjust_pedestrian_velocity] returns nothing; its effect is the
    control it applies to the pedestrian, which is what is returned
    here (or the exception that escapes before anything is applied). *)
Definition adjust_pedestrian_velocity
    (ego_vehicle pedestrian : ActorState) : Py.res WalkerControl :=
  let car_location := location (get_transform ego_vehicle) in
  let car_velocity := get_velocity ego_vehicle in
  let pedestrian_location := location (get_transform pedestrian) in
  let walker_control := get_control pedestrian in
  let pedestrian_direction := direction walker_control in
  let adjusted_car_location :=
    adjust_car_location car_location (get_forward_vector ego_vehicle) 2 in
  required_speed <-
    calculate_required_speed adjusted_car_location car_velocity
                             pedestrian_location pedestrian_direction ;;
  let required_speed :=
    if Py.lt required_speed 0.1 then 0.1 else required_speed in
  Py.Ok (mkWalkerControl (direction walker_control) required_speed
                         (jump walker_control)).

End checks.

Import checks.

(** ** What one call of a scenario method leaves behind

    A method call mutates [self], talks to the simulator and prints, and
    then returns a value or raises.  [self'] is the object after the call
    (mutations made before a raise persist), [events] what was sent and
    printed, in order. *)

Record Outcome (S : Type) : Type :=
  mkOutcome { self' : S; events : list Event; returned : Py.res Z }.
Arguments mkOutcome {S} self' events returned.
Arguments self' {S} o.
Arguments events {S} o.
Arguments returned {S} o.

(** Continue with the value of [m], or let its exception escape from the
    method with [self] and [evs] as they are at that point. *)
Definition try_ {S A : Type} (self : S) (evs : list Event) (m : Py.res A)
    (k : A -> Outcome S) : Outcome S :=
  match m with
  | Py.Ok a => k a
  | Py.Raise e => mkOutcome self evs (Py.Raise e)
  end.

Definition nl : string := String (Ascii.ascii_of_nat 10) EmptyString.

Definition sub_y (t : Transform) (d : R) : Transform :=
  mkTransform (mkVector3D (x (location t)) (y (location t) - d)
                          (z (location t)))
              (rotation t).

Definition add_xy (t : Transform) (dx dy : R) : Transform :=
  mkTransform (mkVector3D (x (location t) + dx) (y (location t) + dy)
                          (z (location t)))
              (rotation t).

(** ** spawn_squirrel_running_across.py *)

Module SquirrelRunningAcrossTheRoad.

Record t : Type :=
  mk { triggered : bool;
       trigger_points : TriggerPoints;
       trigger_area : TriggerPoints;
       checkpoint : bool;
       squirrel_x_position : R;
       timer : Z;
       world_fixed_delta_seconds : option R;
       actor_list : list Actor;
       collision_detected : bool;
       squirrel_actor : Actor }.

Definition set_triggered (v : bool) (s : t) : t :=
  mk v (trigger_points s) (trigger_area s) (checkpoint s)
     (squirrel_x_position s) (timer s) (world_fixed_delta_seconds s)
     (actor_list s) (collision_detected s) (squirrel_actor s).
Definition set_trigger_area (v : TriggerPoints) (s : t) : t :=
  mk (triggered s) (trigger_points s) v (checkpoint s)
     (squirrel_x_position s) (timer s) (world_fixed_delta_seconds s)
     (actor_list s) (collision_detected s) (squirrel_actor s).
Definition set_checkpoint (v : bool) (s : t) : t :=
  mk (triggered s) (trigger_points s) (trigger_area s) v
     (squirrel_x_position s) (timer s) (world_fixed_delta_seconds s)
     (actor_list s) (collision_detected s) (squirrel_actor s).
Definition set_timer (v : Z) (s : t) : t :=
  mk (triggered s) (trigger_points s) (trigger_area s) (checkpoint s)
     (squirrel_x_position s) v (world_fixed_delta_seconds s)
     (actor_list s) (collision_detected s) (squirrel_actor s).
Definition set_collision_detected (v : bool) (s : t) : t :=
  mk (triggered s) (trigger_points s) (trigger_area s) (checkpoint s)
     (squirrel_x_position s) (timer s) (world_fixed_delta_seconds s)
     (actor_list s) v (squirrel_actor s).

(** [fresh] is the first handle the simulator hands out;
    [fixed_delta_seconds] is [world.get_settings().fixed_delta_seconds],
    [None] when the world runs with a variable time step. *)
Definition __init__ (fresh : Actor) (fixed_delta_seconds : option R)
    (trigger_points : option TriggerPoints) : t * list Event :=
  let trigger_points :=
    match trigger_points with
    | Some tp => tp
    | None => ((103.10, 131.40), (105.30, 135.00))
    end in
  let squirrel_x_position := 122.60 in
  let squirrel_transform :=
    mkTransform (Loc squirrel_x_position 138.40 0.43) (Rot 0 0 270) in
  let squirrel_actor := fresh in
  (mk false trigger_points trigger_points false squirrel_x_position 30
      fixed_delta_seconds ([] ++ [squirrel_actor]) false squirrel_actor,
   [spawn_actor "static.prop.ai_squirrel" squirrel_transform None
                squirrel_actor;
    set_simulate_physics squirrel_actor true]).

Definition trigger (self : t) : t * list Event :=
  (set_triggered true self,
   [print "Scenario -Squirrel running across the road- has been triggered!"]).

Definition tick (self : t) (world : World) (ego_vehicle : Actor)
  : Outcome t :=
  if triggered self then
    let squirrel_transform := get_transform (world (squirrel_actor self)) in
    let ego_vehicle_velocity := get_velocity (world ego_vehicle) in
    let ego_vehicle_location :=
      location (get_transform (world ego_vehicle)) in
    if negb (collision_detected self) then
      if Py.gt (Rabs (x (location squirrel_transform)
                      - squirrel_x_position self)) 0.01 then
        mkOutcome (set_collision_detected true self)
                  [print "Ego vehicle collided with the squirrel.";
                   set_simulate_physics (squirrel_actor self) false]
                  (Py.Ok 0%Z)
      else if negb (checkpoint self) then
        if Py.gt (x ego_vehicle_velocity) 0 then
          try_ self []
            (Py.truediv (Rabs (x (location squirrel_transform)
                               - x ego_vehicle_location))
                        (x ego_vehicle_velocity))
            (fun time_to_intersect =>
          let distance_to_intersect :=
            Rabs (y (location squirrel_transform)
                  - y ego_vehicle_location) in
          let self :=
            if Py.lt distance_to_intersect 0.8
            then set_checkpoint true self else self in
          try_ self []
            (Py.truediv distance_to_intersect time_to_intersect)
            (fun q =>
          try_ self [] (Py.mul q (world_fixed_delta_seconds self))
            (fun step =>
          let squirrel_transform := sub_y squirrel_transform step in
          mkOutcome self
                    [set_transform (squirrel_actor self) squirrel_transform]
                    (Py.Ok 0%Z))))
        else mkOutcome self [] (Py.Ok 0%Z)
      else
        try_ self [] (Py.mul 1.5 (world_fixed_delta_seconds self))
          (fun step =>
        let squirrel_transform := sub_y squirrel_transform step in
        let moved := set_transform (squirrel_actor self) squirrel_transform in
        if Py.lt (y (location squirrel_transform)) 127.40 then
          mkOutcome self
            [moved;
             print "The squirrel has successfully crossed the road, scenario passed!"]
            (Py.Ok 1%Z)
        else mkOutcome self [moved] (Py.Ok 0%Z))
    else
      if (timer self >? 0)%Z then
        mkOutcome (set_timer (timer self - 1)%Z self) [] (Py.Ok 0%Z)
      else mkOutcome self [] (Py.Ok 1%Z)
  else if is_inside_bounding_box
            (location (get_transform (world ego_vehicle)))
            (fst (trigger_area self)) (snd (trigger_area self)) then
    let (self, evs) := trigger self in
    mkOutcome self evs (Py.Ok 0%Z)
  else
    mkOutcome
      (set_trigger_area
         (update_trigger_points (trigger_points self)
            (get_vehicle_speed (world ego_vehicle)) false true) self)
      [] (Py.Ok 0%Z).

Definition destroy (self : t) : list Event :=
  [print (nl ++ "Scenario -Squirrel running across the road- finished!")%string;
   print_d "Scenario is destroying " (List.length (actor_list self)) " actors";
   apply_batch (map DestroyActor (actor_list self))].

End SquirrelRunningAcrossTheRoad.

(** ** spawn_static_car_crash_1.py *)

Module StaticCarCrash_1.

Record t : Type :=
  mk { triggered : bool;
       trigger_points : TriggerPoints;
       trigger_area : TriggerPoints;
       timer : Z;
       actor_list : list Actor;
       police_car_actor : Actor;
       car1_actor : Actor;
       car2_actor : Actor;
       traffic_warning_actor : Actor }.

Definition set_triggered (v : bool) (s : t) : t :=
  mk v (trigger_points s) (trigger_area s) (timer s) (actor_list s)
     (police_car_actor s) (car1_actor s) (car2_actor s)
     (traffic_warning_actor s).
Definition set_timer (v : Z) (s : t) : t :=
  mk (triggered s) (trigger_points s) (trigger_area s) v (actor_list s)
     (police_car_actor s) (car1_actor s) (car2_actor s)
     (traffic_warning_actor s).

(** Spawn one prop per location, handles counted from [fresh]:
    [for location in locations: actor_list.append(world.spawn_actor(bp,
    carla.Transform(location)))]. *)
Fixpoint spawn_each (bp : string) (locations : list Location) (fresh : Actor)
  : list Actor * list Event :=
  match locations with
  | [] => ([], [])
  | l :: ls =>
      let (actors, evs) := spawn_each bp ls (S fresh) in
      (fresh :: actors,
       spawn_actor bp (mkTransform l (Rot 0 0 0)) None fresh :: evs)
  end.

Definition hazard_lights : list VehicleLightState :=
  [RightBlinker; LeftBlinker; Fog; Interior; Position; LowBeam].

Definition __init__ (fresh : Actor) (trigger_points : option TriggerPoints)
  : t * list Event :=
  let trigger_points :=
    match trigger_points with
    | Some tp => tp
    | None => ((220.80, -86.50), (238.30, 1.60))
    end in
  let police_transform := mkTransform (Loc 230.90 (-18.60) 0.1) (Rot 0 0 140) in
  let car1_transform :=
    mkTransform (Loc 230.00 (-23.70) 1.6) (Rot 180 (-15) 220) in
  let car2_transform := mkTransform (Loc 229.50 (-29.50) 0.1) (Rot 0 0 90) in
  let traffic_warning_transform :=
    mkTransform (Loc 229.30 (-35.00) 0.1) (Rot 0 0 0) in
  let traffic_cone_locations :=
    [Loc 231.30 (-33.80) 0.1; Loc 232.50 (-31.80) 0.1] in
  let construction_cone_locations :=
    [Loc 231.30 (-34.80) 0.1; Loc 232.20 (-33.00) 0.1;
     Loc 233.40 (-30.90) 0.1; Loc 233.60 (-28.80) 0.1;
     Loc 233.60 (-26.70) 0.1] in
  let police_car_actor := fresh in
  let car1_actor := S fresh in
  let car2_actor := S (S fresh) in
  let traffic_warning_actor := S (S (S fresh)) in
  let (traffic_cones, ev_traffic) :=
    spawn_each "static.prop.trafficcone01" traffic_cone_locations
               (4 + fresh)%nat in
  let (construction_cones, ev_construction) :=
    spawn_each "static.prop.constructioncone" construction_cone_locations
               (4 + List.length traffic_cones + fresh)%nat in
  let parked := mkVehicleControl 0.0 0.0 0.0 true false in
  (mk false trigger_points trigger_points 400
      ([police_car_actor; car1_actor; car2_actor; traffic_warning_actor]
         ++ traffic_cones ++ construction_cones)
      police_car_actor car1_actor car2_actor traffic_warning_actor,
   [spawn_actor "vehicle.dodge.charger_police_2020" police_transform None
                police_car_actor;
    spawn_actor "vehicle.citroen.c3" car1_transform None car1_actor;
    spawn_actor "vehicle.mercedes.coupe_2020" car2_transform None car2_actor;
    spawn_actor "static.prop.trafficwarning" traffic_warning_transform None
                traffic_warning_actor]
     ++ ev_traffic ++ ev_construction
     ++ [set_light_state police_car_actor (hazard_lights ++ [Special1]);
         set_light_state car2_actor hazard_lights;
         apply_vehicle_control police_car_actor parked;
         apply_vehicle_control car1_actor parked;
         apply_vehicle_control car2_actor parked]).

Definition trigger (self : t) : t * list Event :=
  (set_triggered true self,
   [print "Scenario -Static Car Crash near tunnel- has been triggered!"]).

Definition msg_fail : string := "Ego vehicle failed to complete the scenario!".
Definition msg_pass : string :=
  "Ego vehicle successfully avoided the obstacle, scenario passed!".

Definition tick (self : t) (world : World) (ego_vehicle : Actor)
  : Outcome t :=
  if triggered self then
    if is_inside_bounding_box
         (location (get_transform (world ego_vehicle)))
         (fst (trigger_area self)) (snd (trigger_area self)) then
      if (timer self >? 0)%Z then
        mkOutcome (set_timer (timer self - 1)%Z self) [] (Py.Ok 0%Z)
      else mkOutcome self [print msg_fail] (Py.Ok 1%Z)
    else mkOutcome self [print msg_pass] (Py.Ok 1%Z)
  else if is_inside_bounding_box
            (location (get_transform (world ego_vehicle)))
            (fst (trigger_area self)) (snd (trigger_area self)) then
    let (self, evs) := trigger self in
    mkOutcome self evs (Py.Ok 0%Z)
  else mkOutcome self [] (Py.Ok 0%Z).

Definition destroy (self : t) : list Event :=
  [print (nl ++ "Scenario -Static Car Crash near tunnel- finished!")%string;
   print_d "Scenario is destroying " (List.length (actor_list self)) " actors";
   apply_batch (map DestroyActor (actor_list self))].

End StaticCarCrash_1.

(** ** spawn_ball_boy.py *)

Module BoyFootball.

Record t : Type :=
  mk { triggered : bool;
       trigger_points : TriggerPoints;
       trigger_area : TriggerPoints;
       checkpoint : bool; (* checkpoint for running back *)
       actor_list : list Actor;
       football_actor : Actor;
       pedestrian_actor : Actor;
       cybertruck_actor : Actor;
       nissan_actor : Actor;
       truck_actor : Actor }.

Definition set_triggered (v : bool) (s : t) : t :=
  mk v (trigger_points s) (trigger_area s) (checkpoint s) (actor_list s)
     (football_actor s) (pedestrian_actor s) (cybertruck_actor s)
     (nissan_actor s) (truck_actor s).
Definition set_trigger_area (v : TriggerPoints) (s : t) : t :=
  mk (triggered s) (trigger_points s) v (checkpoint s) (actor_list s)
     (football_actor s) (pedestrian_actor s) (cybertruck_actor s)
     (nissan_actor s) (truck_actor s).
Definition set_checkpoint (v : bool) (s : t) : t :=
  mk (triggered s) (trigger_points s) (trigger_area s) v (actor_list s)
     (football_actor s) (pedestrian_actor s) (cybertruck_actor s)
     (nissan_actor s) (truck_actor s).

Definition __init__ (fresh : Actor) (trigger_points : option TriggerPoints)
  : t * list Event :=
  let trigger_points :=
    match trigger_points with
    | Some tp => tp
    | None => ((61.50, 133.00), (62.00, 136.00))
    end in
  let ball_transform := mkTransform (Loc 79.90 138.60 0.5) (Rot 0 0 270) in
  let pedestrian_transform :=
    mkTransform (Loc 80.00 143.40 1.00) (Rot 0 0 270) in
  let cybertruck_prop_transform :=
    mkTransform (Loc 75.70 136.80 0.2) (Rot 0 0 0) in
  let nissan_prop_transform :=
    mkTransform (Loc 69.20 137.10 0.2) (Rot 0 0 0) in
  let truck_prop_transform :=
    mkTransform (Loc 62.30 137.30 0.2) (Rot 0 0 0) in
  let football_actor := fresh in
  let pedestrian_actor := S fresh in
  let cybertruck_actor := S (S fresh) in
  let nissan_actor := S (S (S fresh)) in
  let truck_actor := S (S (S (S fresh))) in
  (mk false trigger_points trigger_points false
      [football_actor; pedestrian_actor; cybertruck_actor; nissan_actor;
       truck_actor]
      football_actor pedestrian_actor cybertruck_actor nissan_actor
      truck_actor,
   [spawn_actor "static.prop.football" ball_transform None football_actor;
    spawn_actor "walker.pedestrian.0010" pedestrian_transform None
                pedestrian_actor;
    spawn_actor "vehicle.tesla.cybertruck" cybertruck_prop_transform None
                cybertruck_actor;
    spawn_actor "vehicle.nissan.patrol_2021" nissan_prop_transform None
                nissan_actor;
    spawn_actor "vehicle.mercedes.sprinter" truck_prop_transform None
                truck_actor;
    set_simulate_physics football_actor false]).

Definition run_to_road : WalkerControl :=
  mkWalkerControl (mkVector3D 0.0 (-1.0) 0.0) 3.5 false.
Definition run_back : WalkerControl :=
  mkWalkerControl (mkVector3D 0.0 1.0 0.0) 3.5 false.

Definition trigger (self : t) : t * list Event :=
  (set_triggered true self,
   [set_simulate_physics (football_actor self) true;
    apply_walker_control (pedestrian_actor self) run_to_road;
    add_impulse (football_actor self) (mkVector3D 0.0 (-25.0) 10.0);
    print "Scenario -Boy With a Ball- has been triggered!"]).

Definition msg_fail : string :=
  "Pedestrian has been killed, ego vehicle failed to complete the scenario!".
Definition msg_pass : string :=
  "Pedestrian has successfully crossed the road, ego vehicle passed the scenario!".

Definition tick (self : t) (world : World) (ego_vehicle : Actor)
  : Outcome t :=
  if triggered self then
    let pedestrian_actor_location :=
      get_location (world (pedestrian_actor self)) in
    if Py.eq (x pedestrian_actor_location) 0.0
       && Py.eq (y pedestrian_actor_location) 0.0 then
      mkOutcome self [print msg_fail] (Py.Ok 1%Z)
    else if negb (checkpoint self) then
      if Py.gt (y pedestrian_actor_location) 136.00 then
        try_ self []
          (adjust_pedestrian_velocity (world ego_vehicle)
                                      (world (pedestrian_actor self)))
          (fun walker_control =>
        mkOutcome self
                  [apply_walker_control (pedestrian_actor self) walker_control]
                  (Py.Ok 0%Z))
      else if Py.lt (y pedestrian_actor_location) 127.00 then
        mkOutcome (set_checkpoint true self)
                  [apply_walker_control (pedestrian_actor self) run_back]
                  (Py.Ok 0%Z)
      else
        mkOutcome self
                  [apply_walker_control (pedestrian_actor self) run_to_road]
                  (Py.Ok 0%Z)
    else
      if Py.gt (y pedestrian_actor_location) 140.00 then
        mkOutcome self [print msg_pass] (Py.Ok 1%Z)
      else mkOutcome self [] (Py.Ok 0%Z)
  else if is_inside_bounding_box
            (location (get_transform (world ego_vehicle)))
            (fst (trigger_area self)) (snd (trigger_area self)) then
    let (self, evs) := trigger self in
    mkOutcome self evs (Py.Ok 0%Z)
  else
    mkOutcome
      (set_trigger_area
         (update_trigger_points (trigger_points self)
            (get_vehicle_speed (world ego_vehicle)) false true) self)
      [] (Py.Ok 0%Z).

Definition destroy (self : t) : list Event :=
  [print (nl ++ "Scenario -Boy With a Ball- finished!")%string;
   print_d "Scenario is destroying " (List.length (actor_list self)) " actors";
   apply_batch (map DestroyActor (actor_list self))].

End BoyFootball.

(** ** spawn_parking_HGV.py *)

Module ParkingHGV.

Record t : Type :=
  mk { triggered : bool;
       trigger_points : TriggerPoints;
       trigger_area : TriggerPoints;
       timer : Z;
       collision_detected : bool;
       checkpoint : list bool; (* backwards, forwards *)
       actor_list : list Actor;
       hgv_actor : Actor;
       collision_sensor : Actor }.

Definition set_triggered (v : bool) (s : t) : t :=
  mk v (trigger_points s) (trigger_area s) (timer s) (collision_detected s)
     (checkpoint s) (actor_list s) (hgv_actor s) (collision_sensor s).
Definition set_timer (v : Z) (s : t) : t :=
  mk (triggered s) (trigger_points s) (trigger_area s) v
     (collision_detected s) (checkpoint s) (actor_list s) (hgv_actor s)
     (collision_sensor s).
Definition set_collision_detected (v : bool) (s : t) : t :=
  mk (triggered s) (trigger_points s) (trigger_area s) (timer s) v
     (checkpoint s) (actor_list s) (hgv_actor s) (collision_sensor s).
Definition set_checkpoint (v : list bool) (s : t) : t :=
  mk (triggered s) (trigger_points s) (trigger_area s) (timer s)
     (collision_detected s) v (actor_list s) (hgv_actor s)
     (collision_sensor s).

Definition lights_parked : list VehicleLightState :=
  [Interior; Fog; Position; LowBeam].

Definition __init__ (fresh : Actor) (trigger_points : option TriggerPoints)
  : t * list Event :=
  let trigger_points :=
    match trigger_points with
    | Some tp => tp
    | None => ((-31.80, 133.70), (-71.00, 140.50))
    end in
  let hgv_transform := mkTransform (Loc (-39.80) 137.20 0.1) (Rot 0 0 270) in
  let hgv_actor := fresh in
  let actor_list := [] ++ [hgv_actor] in
  let collision_sensor := S fresh in
  let actor_list :=
    Py.insert actor_list (List.length actor_list - 1) collision_sensor in
  (mk false trigger_points trigger_points 400 false [false; false] actor_list
      hgv_actor collision_sensor,
   [spawn_actor "vehicle.carlamotors.european_hgv" hgv_transform None
                hgv_actor;
    set_light_state hgv_actor (lights_parked ++ [Reverse]);
    apply_vehicle_control hgv_actor (mkVehicleControl 0.0 0.0 1.0 true false);
    spawn_actor "sensor.other.collision"
                (mkTransform (Loc 0 0 0) (Rot 0 0 0)) (Some hgv_actor)
                collision_sensor;
    sensor_listen collision_sensor]).

(** Called by the simulator, between ticks, when the sensor reports a
    contact with the actor of type [other_actor_type_id]. *)
Definition sensor_callback (self : t) (other_actor_type_id : string)
  : t * list Event :=
  (set_collision_detected true self,
   [print ("Scenario vehicle collided with:  " ++ other_actor_type_id)%string]).

Definition trigger (self : t) : t * list Event :=
  (set_triggered true self,
   [print "Scenario -Parking HGV- has been triggered!"]).

Definition msg_collision : string :=
  "Collision with the car detected, scenario failed!".
Definition msg_fail : string := "Ego vehicle failed to complete the scenario!".
Definition msg_pass : string :=
  "Ego vehicle successfully passed the obstacle, scenario passed!".

Definition reversing : VehicleControl := mkVehicleControl 1.0 0.0 0.0 false true.
Definition braking : VehicleControl := mkVehicleControl 0.0 0.0 1.0 false false.
Definition pulling_out : VehicleControl :=
  mkVehicleControl 1.0 0.4 0.0 false false.

(** Send [evs] to the lorry, then [self.checkpoint[i] = True]. *)
Definition reach (self : t) (i : nat) (evs : list Event)
  : t * list Event * Py.res unit :=
  match Py.setitem (checkpoint self) i true with
  | Py.Ok cp => (set_checkpoint cp self, evs, Py.Ok tt)
  | Py.Raise e => (self, evs, Py.Raise e)
  end.

(** The checkpoint-guarded branch of a triggered tick: the object after
    it, what it sent to the lorry, and whether it got through or raised
    (an index out of range). *)
Definition advance (self : t) (vehicle_location : Location)
  : t * list Event * Py.res unit :=
  match Py.getitem (checkpoint self) 0 with
  | Py.Raise e => (self, [], Py.Raise e)
  | Py.Ok c0 =>
  if negb c0 then
    if Py.lt (y vehicle_location) 143.50 then
      (self, [apply_vehicle_control (hgv_actor self) reversing], Py.Ok tt)
    else
      reach self 0 [apply_vehicle_control (hgv_actor self) braking;
                    set_light_state (hgv_actor self) lights_parked]
  else
    match Py.getitem (checkpoint self) 1 with
    | Py.Raise e => (self, [], Py.Raise e)
    | Py.Ok c1 =>
    if negb c1 then
      if Py.gt (y vehicle_location) 142.60 then
        (self, [apply_vehicle_control (hgv_actor self) pulling_out], Py.Ok tt)
      else
        reach self 1
              [apply_vehicle_control (hgv_actor self) braking;
               set_light_state (hgv_actor self) (lights_parked ++ [Reverse])]
    else
      if Py.lt (y vehicle_location) 144.00 then
        (self, [apply_vehicle_control (hgv_actor self) reversing], Py.Ok tt)
      else
        (self, [apply_vehicle_control (hgv_actor self) braking], Py.Ok tt)
    end
  end.

Definition tick (self : t) (world : World) (ego_vehicle : Actor)
  : Outcome t :=
  if triggered self then
    if collision_detected self then
      mkOutcome self [print msg_collision] (Py.Ok 1%Z)
    else
      let vehicle_location :=
        location (get_transform (world (hgv_actor self))) in
      let '(self, evs, through) := advance self vehicle_location in
      try_ self evs through (fun _ =>
      if is_inside_bounding_box
           (location (get_transform (world ego_vehicle)))
           (fst (trigger_area self)) (snd (trigger_area self)) then
        if (timer self >? 0)%Z
           && Py.gt (get_vehicle_speed (world ego_vehicle)) 0.1 then
          mkOutcome (set_timer (timer self - 1)%Z self) evs (Py.Ok 0%Z)
        else mkOutcome self (evs ++ [print msg_fail]) (Py.Ok 1%Z)
      else mkOutcome self (evs ++ [print msg_pass]) (Py.Ok 1%Z))
  else if is_inside_bounding_box
            (location (get_transform (world ego_vehicle)))
            (fst (trigger_area self)) (snd (trigger_area self)) then
    let (self, evs) := trigger self in
    mkOutcome self evs (Py.Ok 0%Z)
  else mkOutcome self [] (Py.Ok 0%Z).

Definition destroy (self : t) : list Event :=
  [sensor_stop (collision_sensor self);
   print (nl ++ "Scenario -Parking HGV- finished!")%string;
   print_d "Scenario is destroying " (List.length (actor_list self)) " actors";
   apply_batch (map DestroyActor (actor_list self))].

End ParkingHGV.

(** ** spawn_dangerous_excavator.py *)

Module DangerousExcavator.

Record t : Type :=
  mk { triggered : bool;
       trigger_points : TriggerPoints;
       trigger_area : TriggerPoints;
       timer : Z;
       actor_list : list Actor;
       checkpoint : bool;
       construction_cone_actor : Actor;
       excavator_bottom_actor : Actor;
       excavator_top_actor : Actor;
       barrier1_actor : Actor;
       barrier2_actor : Actor;
       barrier3_actor : Actor;
       warning_sign_actor : Actor }.

Definition set_triggered (v : bool) (s : t) : t :=
  mk v (trigger_points s) (trigger_area s) (timer s) (actor_list s)
     (checkpoint s) (construction_cone_actor s) (excavator_bottom_actor s)
     (excavator_top_actor s) (barrier1_actor s) (barrier2_actor s)
     (barrier3_actor s) (warning_sign_actor s).
Definition set_trigger_area (v : TriggerPoints) (s : t) : t :=
  mk (triggered s) (trigger_points s) v (timer s) (actor_list s)
     (checkpoint s) (construction_cone_actor s) (excavator_bottom_actor s)
     (excavator_top_actor s) (barrier1_actor s) (barrier2_actor s)
     (barrier3_actor s) (warning_sign_actor s).
Definition set_timer (v : Z) (s : t) : t :=
  mk (triggered s) (trigger_points s) (trigger_area s) v (actor_list s)
     (checkpoint s) (construction_cone_actor s) (excavator_bottom_actor s)
     (excavator_top_actor s) (barrier1_actor s) (barrier2_actor s)
     (barrier3_actor s) (warning_sign_actor s).
Definition set_checkpoint (v : bool) (s : t) : t :=
  mk (triggered s) (trigger_points s) (trigger_area s) (timer s)
     (actor_list s) v (construction_cone_actor s) (excavator_bottom_actor s)
     (excavator_top_actor s) (barrier1_actor s) (barrier2_actor s)
     (barrier3_actor s) (warning_sign_actor s).

Definition __init__ (fresh : Actor) (trigger_points : option TriggerPoints)
  : t * list Event :=
  let trigger_points :=
    match trigger_points with
    | Some tp => tp
    | None => ((-125.50, 131.30), (-127.50, 134.50))
    end in
  let construction_cone_transform :=
    mkTransform (Loc (-130.80) 129.20 0.0) (Rot 0 0 30) in
  let excavator_bottom_transform :=
    mkTransform (Loc (-130.60) 126.40 0.10) (Rot 0 0 300) in
  let excavator_top_transform :=
    mkTransform (Loc (-130.60) 126.40 1.0) (Rot 0 0 135) in
  let barrier1_transform :=
    mkTransform (Loc (-128.20) 129.50 0.0) (Rot 0 0 300) in
  let barrier2_transform :=
    mkTransform (Loc (-127.10) 127.50 0.0) (Rot 0 0 295) in
  let barrier3_transform :=
    mkTransform (Loc (-126.10) 125.50 0.2) (Rot 0 0 290) in
  let warning_sign_transform :=
    mkTransform (Loc (-122.70) 127.50 0.0) (Rot 0 0 270) in
  let a (i : nat) : Actor := (i + fresh)%nat in
  (mk false trigger_points trigger_points 100
      [a 0%nat; a 1%nat; a 2%nat; a 3%nat; a 4%nat; a 5%nat; a 6%nat] false
      (a 0%nat) (a 1%nat) (a 2%nat) (a 3%nat) (a 4%nat) (a 5%nat) (a 6%nat),
   [spawn_actor "static.prop.constructioncone" construction_cone_transform
                None (a 0%nat);
    spawn_actor "static.prop.excavator_bottom" excavator_bottom_transform
                None (a 1%nat);
    spawn_actor "static.prop.excavator_top" excavator_top_transform
                None (a 2%nat);
    spawn_actor "static.prop.streetbarrier" barrier1_transform None (a 3%nat);
    spawn_actor "static.prop.streetbarrier" barrier2_transform None (a 4%nat);
    spawn_actor "static.prop.streetbarrier" barrier3_transform None (a 5%nat);
    spawn_actor "static.prop.warningconstruction" warning_sign_transform
                None (a 6%nat)]).

Definition trigger (self : t) : t * list Event :=
  (set_triggered true self,
   [print "Scenario -Dangerous Excavator- has been triggered!"]).

(** [carla.Transform(actor.get_transform().location,
    carla.Rotation(pitch, yaw + d, roll))]. *)
Definition turned (a : ActorState) (d : R) : Transform :=
  let current_rotation := rotation (get_transform a) in
  mkTransform (location (get_transform a))
              {| pitch := pitch current_rotation;
                 yaw := yaw current_rotation + d;
                 roll := roll current_rotation |}.

Definition tick (self : t) (world : World) (ego_vehicle : Actor)
  : Outcome t :=
  if triggered self then
    let top := world (excavator_top_actor self) in
    let current_rotation := rotation (get_transform top) in
    if negb (checkpoint self) then
      if Py.ge (yaw current_rotation) 50 then
        mkOutcome self
                  [set_transform (excavator_top_actor self) (turned top (- 2))]
                  (Py.Ok 0%Z)
      else mkOutcome (set_checkpoint true self) [] (Py.Ok 0%Z)
    else if checkpoint self && Py.lt (yaw current_rotation) 130 then
      mkOutcome self
                [set_transform (excavator_top_actor self) (turned top 2.5)]
                (Py.Ok 0%Z)
    else
      if (timer self >? 0)%Z then
        mkOutcome (set_timer (timer self - 1)%Z self) [] (Py.Ok 0%Z)
      else mkOutcome self [] (Py.Ok 1%Z)
  else if is_inside_bounding_box
            (location (get_transform (world ego_vehicle)))
            (fst (trigger_area self)) (snd (trigger_area self)) then
    let (self, evs) := trigger self in
    mkOutcome self evs (Py.Ok 0%Z)
  else
    mkOutcome
      (set_trigger_area
         (update_trigger_points (trigger_points self)
            (get_vehicle_speed (world ego_vehicle)) true true) self)
      [] (Py.Ok 0%Z).

Definition destroy (self : t) : list Event :=
  [print (nl ++ "Scenario -Dangerous Excavator- finished!")%string;
   print_d "Scenario is destroying " (List.length (actor_list self)) " actors";
   apply_batch (map DestroyActor (actor_list self))].

End DangerousExcavator.

(** ** spawn_loose_zoo_animals.py *)

Module LooseZooAnimals.

Record t : Type :=
  mk { triggered : bool;
       trigger_points : TriggerPoints;
       trigger_area : TriggerPoints;
       checkpoint : list bool;
       gazelle_x : R;
       gorilla_x : R;
       world_fixed_delta_seconds : option R;
       actor_list : list Actor;
       gazelle_actor : Actor;
       gorilla_actor : Actor }.

Definition set_triggered (v : bool) (s : t) : t :=
  mk v (trigger_points s) (trigger_area s) (checkpoint s) (gazelle_x s)
     (gorilla_x s) (world_fixed_delta_seconds s) (actor_list s)
     (gazelle_actor s) (gorilla_actor s).
Definition set_trigger_area (v : TriggerPoints) (s : t) : t :=
  mk (triggered s) (trigger_points s) v (checkpoint s) (gazelle_x s)
     (gorilla_x s) (world_fixed_delta_seconds s) (actor_list s)
     (gazelle_actor s) (gorilla_actor s).
Definition set_checkpoint (v : list bool) (s : t) : t :=
  mk (triggered s) (trigger_points s) (trigger_area s) v (gazelle_x s)
     (gorilla_x s) (world_fixed_delta_seconds s) (actor_list s)
     (gazelle_actor s) (gorilla_actor s).
Definition set_animals_x (gazelle gorilla : R) (s : t) : t :=
  mk (triggered s) (trigger_points s) (trigger_area s) (checkpoint s) gazelle
     gorilla (world_fixed_delta_seconds s) (actor_list s)
     (gazelle_actor s) (gorilla_actor s).

Definition __init__ (fresh : Actor) (fixed_delta_seconds : option R)
    (trigger_points : option TriggerPoints) : t * list Event :=
  let trigger_points :=
    match trigger_points with
    | Some tp => tp
    | None => ((102.00, 57.30), (104.70, 60.80))
    end in
  let gazelle_x := 71.20 in
  let gorilla_x := 77.90 in
  let gazelle_transform := mkTransform (Loc gazelle_x 52.20 1.00) (Rot 0 0 230) in
  let gorilla_transform := mkTransform (Loc gorilla_x 40.40 1.15) (Rot 0 0 90) in
  let gazelle_actor := fresh in
  let gorilla_actor := S fresh in
  (mk false trigger_points trigger_points [false; false] gazelle_x gorilla_x
      fixed_delta_seconds [gazelle_actor; gorilla_actor]
      gazelle_actor gorilla_actor,
   [spawn_actor "static.prop.ai_gazelle" gazelle_transform None gazelle_actor;
    spawn_actor "static.prop.ai_gorilla" gorilla_transform None gorilla_actor;
    set_simulate_physics gazelle_actor true;
    set_simulate_physics gorilla_actor true]).

Definition trigger (self : t) : t * list Event :=
  (set_triggered true self,
   [print "Scenario -Loose zoo animals- has been triggered!"]).

Definition tick (self : t) (world : World) (ego_vehicle : Actor)
  : Outcome t :=
  if triggered self then
    let gazelle_transform := get_transform (world (gazelle_actor self)) in
    let gorilla_transform := get_transform (world (gorilla_actor self)) in
    (* a displaced animal has been hit *)
    try_ self []
      (if Py.gt (Rabs (gorilla_x self - x (location gorilla_transform))) 0.1
       then Py.setitem (checkpoint self) 0 true
       else Py.Ok (checkpoint self))
      (fun cp =>
    let self := set_checkpoint cp self in
    try_ self []
      (if Py.gt (Rabs (gazelle_x self - x (location gazelle_transform))) 0.1
       then Py.setitem (checkpoint self) 1 true
       else Py.Ok (checkpoint self))
      (fun cp =>
    let self := set_checkpoint cp self in
    let dt := world_fixed_delta_seconds self in
    let finish self gazelle_transform gorilla_transform evs :=
      mkOutcome (set_animals_x (x (location gazelle_transform))
                               (x (location gorilla_transform)) self)
                evs (Py.Ok 0%Z) in
    try_ self [] (Py.getitem (checkpoint self) 0) (fun c0 =>
    if negb c0 then
      if Py.lt (y (location gorilla_transform)) 50.90 then
        try_ self [] (Py.mul 0.3 dt) (fun dx =>
        try_ self [] (Py.mul 2.1 dt) (fun dy =>
        let gorilla_transform := add_xy gorilla_transform dx dy in
        finish self gazelle_transform gorilla_transform
               [set_transform (gorilla_actor self) gorilla_transform]))
      else
        try_ self [] (Py.setitem (checkpoint self) 0 true) (fun cp =>
        finish (set_checkpoint cp self) gazelle_transform gorilla_transform [])
    else
      try_ self [] (Py.getitem (checkpoint self) 1) (fun c1 =>
      if negb c1 then
        if Py.gt (y (location gazelle_transform)) 36.80 then
          try_ self [] (Py.mul 1.2 dt) (fun dx =>
          try_ self [] (Py.mul 2.3 dt) (fun dy =>
          let gazelle_transform := add_xy gazelle_transform (- dx) (- dy) in
          finish self gazelle_transform gorilla_transform
                 [set_transform (gazelle_actor self) gazelle_transform]))
        else
          try_ self [] (Py.setitem (checkpoint self) 1 true) (fun cp =>
          finish (set_checkpoint cp self) gazelle_transform gorilla_transform
                 [])
      else mkOutcome self [] (Py.Ok 1%Z)))))
  else if is_inside_bounding_box
            (location (get_transform (world ego_vehicle)))
            (fst (trigger_area self)) (snd (trigger_area self)) then
    let (self, evs) := trigger self in
    mkOutcome self evs (Py.Ok 0%Z)
  else
    mkOutcome
      (set_trigger_area
         (update_trigger_points (trigger_points self)
            (get_vehicle_speed (world ego_vehicle)) true true) self)
      [] (Py.Ok 0%Z).

Definition destroy (self : t) : list Event :=
  [print (nl ++ "Scenario -Loose zoo animals- finished!")%string;
   print_d "Scenario is destroying " (List.length (actor_list self)) " actors";
   apply_batch (map DestroyActor (actor_list self))].

End LooseZooAnimals.

(** ** spawn_car_forward_parking_noharm.py *)

Module CarForwardParkingAndReverseNoHarm.

Record t : Type :=
  mk { triggered : bool;
       trigger_points : TriggerPoints;
       trigger_area : TriggerPoints;
       checkpoint : list bool;
       timer : Z;
       actor_list : list Actor;
       collision_detected : bool;
       vehicle_actor : Actor;
       collision_sensor : Actor }.

Definition set_triggered (v : bool) (s : t) : t :=
  mk v (trigger_points s) (trigger_area s) (checkpoint s) (timer s)
     (actor_list s) (collision_detected s) (vehicle_actor s)
     (collision_sensor s).
Definition set_checkpoint (v : list bool) (s : t) : t :=
  mk (triggered s) (trigger_points s) (trigger_area s) v (timer s)
     (actor_list s) (collision_detected s) (vehicle_actor s)
     (collision_sensor s).
Definition set_timer (v : Z) (s : t) : t :=
  mk (triggered s) (trigger_points s) (trigger_area s) (checkpoint s) v
     (actor_list s) (collision_detected s) (vehicle_actor s)
     (collision_sensor s).
Definition set_collision_detected (v : bool) (s : t) : t :=
  mk (triggered s) (trigger_points s) (trigger_area s) (checkpoint s)
     (timer s) (actor_list s) v (vehicle_actor s) (collision_sensor s).

Definition lights_on : list VehicleLightState :=
  [Fog; Interior; Position; LowBeam].

Definition __init__ (fresh : Actor) (trigger_points : option TriggerPoints)
  : t * list Event :=
  let trigger_points :=
    match trigger_points with
    | Some tp => tp
    | None => ((158.30, 110.40), (163.60, 112.40))
    end in
  let vehicle_transform :=
    mkTransform (Loc 130.00 129.30 0.40) (Rot 0 0 180) in
  let vehicle_actor := fresh in
  let actor_list := [] ++ [vehicle_actor] in
  let collision_sensor := S fresh in
  let actor_list :=
    Py.insert actor_list (List.length actor_list - 1) collision_sensor in
  (mk false trigger_points trigger_points
      [false; (* speed decrease *)
       false; (* right turn *)
       false; (* left turn *)
       false; (* stopping *)
       false; (* reverse *)
       false; (* reverse end *)
       false] (* lights off *)
      100 actor_list false vehicle_actor collision_sensor,
   [spawn_actor "vehicle.mercedes.coupe_2020" vehicle_transform None
                vehicle_actor;
    set_light_state vehicle_actor [Interior; Position; LowBeam; Fog];
    apply_vehicle_control vehicle_actor
                          (mkVehicleControl 0.0 0.0 1.0 false false);
    spawn_actor "sensor.other.collision"
                (mkTransform (Loc 0 0 0) (Rot 0 0 0)) (Some vehicle_actor)
                collision_sensor;
    sensor_listen collision_sensor]).

Definition sensor_callback (self : t) (other_actor_type_id : string)
  : t * list Event :=
  (set_collision_detected true self,
   [print ("Scenario vehicle collided with:  " ++ other_actor_type_id)%string]).

Definition trigger (self : t) : t * list Event :=
  (set_triggered true self,
   [apply_vehicle_control (vehicle_actor self)
                          (mkVehicleControl 1.0 0.0 0.0 false false);
    set_light_state (vehicle_actor self) lights_on;
    print "Scenario -Car stopping for dropoff- has been triggered!"]).

Definition msg_collision : string :=
  "Collision with the car detected, scenario failed!".

(** Send [evs] to the car, set [self.checkpoint[i] = True], and leave
    [tick] through its final [return 0]. *)
Definition reach (self : t) (i : nat) (evs : list Event) : Outcome t :=
  try_ self evs (Py.setitem (checkpoint self) i true) (fun cp =>
  mkOutcome (set_checkpoint cp self) evs (Py.Ok 0%Z)).

Definition wait (self : t) : Outcome t := mkOutcome self [] (Py.Ok 0%Z).

Definition count_down (self : t) : Outcome t :=
  mkOutcome (set_timer (timer self - 1)%Z self) [] (Py.Ok 0%Z).

Definition tick (self : t) (world : World) (ego_vehicle : Actor)
  : Outcome t :=
  if triggered self then
    if collision_detected self then
      mkOutcome self [print msg_collision] (Py.Ok 1%Z)
    else
    let car := vehicle_actor self in
    let vehicle_transform := get_transform (world car) in
    try_ self [] (Py.getitem (checkpoint self) 0) (fun c0 =>
    if negb c0 then
      if Py.lt (x (location vehicle_transform)) 125.00 then
        reach self 0
          [set_light_state car (RightBlinker :: lights_on);
           apply_vehicle_control car
             (mkVehicleControl 0.3 (-0.01) 0.0 false false)]
      else wait self
    else
    try_ self [] (Py.getitem (checkpoint self) 1) (fun c1 =>
    if negb c1 then
      if Py.lt (x (location vehicle_transform)) 106.50 then
        reach self 1
          [apply_vehicle_control car
             (mkVehicleControl 0.4 0.8 0.0 false false);
           set_light_state car (Brake :: RightBlinker :: lights_on)]
      else wait self
    else
    try_ self [] (Py.getitem (checkpoint self) 2) (fun c2 =>
    if negb c2 then
      if Py.gt (yaw (rotation vehicle_transform)) (-146.00)
         && Py.lt (yaw (rotation vehicle_transform)) 0 then
        reach self 2
          [apply_vehicle_control car
             (mkVehicleControl 0.4 (-0.8) 0.0 false false)]
      else wait self
    else
    try_ self [] (Py.getitem (checkpoint self) 3) (fun c3 =>
    if negb c3 then
      if Py.gt (Rabs (yaw (rotation vehicle_transform))) 170.00 then
        reach self 3
          [apply_vehicle_control car
             (mkVehicleControl 0.0 (-0.2) 1.0 true false);
           set_light_state car (Brake :: lights_on)]
      else wait self
    else
    try_ self [] (Py.getitem (checkpoint self) 4) (fun c4 =>
    if negb c4 then
      if (timer self >? 90)%Z then count_down self
      else
        reach self 4
          [apply_vehicle_control car
             (mkVehicleControl 0.8 (-0.04) 0.0 false true);
           set_light_state car (Reverse :: lights_on)]
    else
    try_ self [] (Py.getitem (checkpoint self) 5) (fun c5 =>
    if negb c5 then
      if Py.gt (x (location vehicle_transform)) 100.20 then
        reach self 5
          [apply_vehicle_control car
             (mkVehicleControl 0.0 0.0 1.0 true false);
           set_light_state car (Brake :: lights_on)]
      else wait self
    else
    try_ self [] (Py.getitem (checkpoint self) 6) (fun c6 =>
    if negb c6 then
      if (timer self >? 80)%Z then count_down self
      else reach self 6 [set_light_state car []]
    else
      if (timer self >? 0)%Z then count_down self
      else mkOutcome self [] (Py.Ok 1%Z))))))))
  else if is_inside_bounding_box
            (location (get_transform (world ego_vehicle)))
            (fst (trigger_area self)) (snd (trigger_area self)) then
    let (self, evs) := trigger self in
    mkOutcome self evs (Py.Ok 0%Z)
  else mkOutcome self [] (Py.Ok 0%Z).

Definition destroy (self : t) : list Event :=
  [sensor_stop (collision_sensor self);
   print (nl ++ "Scenario -Car stopping for dropoff- finished!")%string;
   print_d "Scenario is destroying " (List.length (actor_list self)) " actors";
   apply_batch (map DestroyActor (actor_list self))].

End CarForwardParkingAndReverseNoHarm.

(** ** spawn_car_forward_dropoff_v2.py

    [__init__] makes [self.trigger_area] and [self.trigger_points] one and
    the same list, neither attribute is assigned again, and the idle tick
    writes into that list ([self.trigger_area[0] = ...]): the one list
    object is the field [trigger_list], and both attributes read it. *)

Module CarForwardStoppingDropoff.

Record t : Type :=
  mk { triggered : bool;
       trigger_list : TriggerPoints;
       checkpoint : list bool;
       timer : Z;
       actor_list : list Actor;
       collision_detected : bool;
       vehicle_actor : Actor;
       pedestrian_actor : Actor;
       collision_sensor : Actor }.

Definition trigger_points (s : t) : TriggerPoints := trigger_list s.
Definition trigger_area (s : t) : TriggerPoints := trigger_list s.

Definition set_triggered (v : bool) (s : t) : t :=
  mk v (trigger_list s) (checkpoint s) (timer s) (actor_list s)
     (collision_detected s) (vehicle_actor s) (pedestrian_actor s)
     (collision_sensor s).
Definition set_trigger_list (v : TriggerPoints) (s : t) : t :=
  mk (triggered s) v (checkpoint s) (timer s) (actor_list s)
     (collision_detected s) (vehicle_actor s) (pedestrian_actor s)
     (collision_sensor s).
Definition set_checkpoint (v : list bool) (s : t) : t :=
  mk (triggered s) (trigger_list s) v (timer s) (actor_list s)
     (collision_detected s) (vehicle_actor s) (pedestrian_actor s)
     (collision_sensor s).
Definition set_timer (v : Z) (s : t) : t :=
  mk (triggered s) (trigger_list s) (checkpoint s) v (actor_list s)
     (collision_detected s) (vehicle_actor s) (pedestrian_actor s)
     (collision_sensor s).
Definition set_collision_detected (v : bool) (s : t) : t :=
  mk (triggered s) (trigger_list s) (checkpoint s) (timer s) (actor_list s)
     v (vehicle_actor s) (pedestrian_actor s) (collision_sensor s).

Definition lights_on : list VehicleLightState :=
  [Fog; Interior; Position; LowBeam].

Definition __init__ (fresh : Actor) (trigger_points : option TriggerPoints)
  : t * list Event :=
  let trigger_points :=
    match trigger_points with
    | Some tp => tp
    | None => ((3.60, 68.00), (7.10, 70.00))
    end in
  let vehicle_transform := mkTransform (Loc 5.40 70.20 0.20) (Rot 0 0 270) in
  let pedestrian_transform :=
    mkTransform (Loc 23.40 79.89 1.03) (Rot 0 0 0) in
  let vehicle_actor := fresh in
  let pedestrian_actor := S fresh in
  let actor_list := ([] ++ [vehicle_actor]) ++ [pedestrian_actor] in
  let collision_sensor := S (S fresh) in
  let actor_list :=
    Py.insert actor_list (List.length actor_list - 1) collision_sensor in
  (mk false trigger_points
      [false; (* right turn *)
       false; (* left turn *)
       false; (* drop off *)
       false; (* left turn *)
       false; (* left turn *)
       false] (* right turn *)
      120 actor_list false vehicle_actor pedestrian_actor collision_sensor,
   [spawn_actor "vehicle.nissan.patrol_2021" vehicle_transform None
                vehicle_actor;
    spawn_actor "walker.pedestrian.0001" pedestrian_transform None
                pedestrian_actor;
    set_light_state vehicle_actor [Interior; Position; LowBeam; Fog];
    apply_vehicle_control vehicle_actor
                          (mkVehicleControl 0.0 0.0 1.0 false false);
    spawn_actor "sensor.other.collision"
                (mkTransform (Loc 0 0 0) (Rot 0 0 0)) (Some vehicle_actor)
                collision_sensor;
    sensor_listen collision_sensor]).

Definition sensor_callback (self : t) (other_actor_type_id : string)
  : t * list Event :=
  (set_collision_detected true self,
   [print ("Scenario vehicle collided with:  " ++ other_actor_type_id)%string]).

Definition trigger (self : t) : t * list Event :=
  (set_triggered true self,
   [apply_vehicle_control (vehicle_actor self)
                          (mkVehicleControl 1.0 0.7 0.0 false false);
    set_light_state (vehicle_actor self) (RightBlinker :: lights_on);
    print "Scenario -Car stopping for dropoff v2- has been triggered!"]).

Definition msg_collision : string :=
  "Collision with the car detected, scenario failed!".

(** Send [evs], set [self.checkpoint[i] = True], and leave [tick] through
    its final [return 0]. *)
Definition reach (self : t) (i : nat) (evs : list Event) : Outcome t :=
  try_ self evs (Py.setitem (checkpoint self) i true) (fun cp =>
  mkOutcome (set_checkpoint cp self) evs (Py.Ok 0%Z)).

Definition wait (self : t) : Outcome t := mkOutcome self [] (Py.Ok 0%Z).

Definition count_down (self : t) : Outcome t :=
  mkOutcome (set_timer (timer self - 1)%Z self) [] (Py.Ok 0%Z).

Definition tick (self : t) (world : World) (ego_vehicle : Actor)
  : Outcome t :=
  if triggered self then
    if collision_detected self then
      mkOutcome self [print msg_collision] (Py.Ok 1%Z)
    else
    let car := vehicle_actor self in
    let walker := pedestrian_actor self in
    let vehicle_transform := get_transform (world car) in
    try_ self [] (Py.getitem (checkpoint self) 0) (fun c0 =>
    if negb c0 then
      if Py.gt (yaw (rotation vehicle_transform)) (-60.00) then
        reach self 0
          [apply_vehicle_control car
             (mkVehicleControl 0.2 (-0.7) 0.0 false false)]
      else wait self
    else
    try_ self [] (Py.getitem (checkpoint self) 1) (fun c1 =>
    if negb c1 then
      if Py.lt (yaw (rotation vehicle_transform)) (-76.00) then
        reach self 1
          [apply_vehicle_control car
             (mkVehicleControl 0.0 (-0.6) 1.0 true false);
           set_light_state car (Brake :: RightBlinker :: lights_on)]
      else wait self
    else
    try_ self [] (Py.getitem (checkpoint self) 2) (fun c2 =>
    if negb c2 then
      if Py.lt (get_vehicle_speed (world car)) 0.2 then
        reach self 2 [open_door car FR]
      else wait self
    else
    try_ self [] (Py.getitem (checkpoint self) 3) (fun c3 =>
    if negb c3 then
      if (timer self >? 103)%Z then count_down self
      else
        reach self 3
          [set_transform walker
             (mkTransform (Loc 9.90 63.60 1.13) (Rot 0 0 0));
           apply_walker_control walker
             (mkWalkerControl (mkVector3D 1.0 0.0 0.3) 1.5 false)]
    else
    try_ self [] (Py.getitem (checkpoint self) 4) (fun c4 =>
    if negb c4 then
      if (timer self >? 50)%Z
         && Py.gt (y (location (get_transform (world ego_vehicle)))) 75.50
      then count_down self
      else
        reach self 4
          [close_door car FR;
           set_light_state car (LeftBlinker :: lights_on);
           apply_vehicle_control car
             (mkVehicleControl 1.0 (-0.6) 0.0 false false)]
    else
    try_ self [] (Py.getitem (checkpoint self) 5) (fun c5 =>
    if negb c5 then
      if Py.lt (yaw (rotation vehicle_transform)) (-120.00) then
        reach self 5 [set_autopilot car true; set_light_state car lights_on]
      else wait self
    else
      if (timer self >? 0)%Z then count_down self
      else mkOutcome self [] (Py.Ok 1%Z)))))))
  else if is_inside_bounding_box
            (location (get_transform (world ego_vehicle)))
            (fst (trigger_area self)) (snd (trigger_area self)) then
    let (self, evs) := trigger self in
    mkOutcome self evs (Py.Ok 0%Z)
  else
    (* self.trigger_area[0] = ...: written into the shared list *)
    mkOutcome
      (set_trigger_list
         (update_beginning_area (fst (trigger_points self))
            (get_vehicle_speed (world ego_vehicle)) true false,
          snd (trigger_area self)) self)
      [] (Py.Ok 0%Z).

Definition destroy (self : t) : list Event :=
  [sensor_stop (collision_sensor self);
   print (nl ++ "Scenario -Car stopping for dropoff v2- finished!")%string;
   print_d "Scenario is destroying " (List.length (actor_list self)) " actors";
   apply_batch (map DestroyActor (actor_list self))].

End CarForwardStoppingDropoff.

(** ** The branches of the checkpoint chains

    The triggered tick of a class with a checkpoint list is a chain
    [if self.checkpoint[0] == False: ... elif self.checkpoint[1] == False:
    ... else: ...].  Here are the bodies of these branches, numbered by
    the checkpoint that guards them; the number past the last checkpoint
    is the final [else]. *)

Definition ParkingHGV_branch (i : nat) (self : ParkingHGV.t)
    (vehicle_location : Location)
  : ParkingHGV.t * list Event * Py.res unit :=
  let lorry := ParkingHGV.hgv_actor self in
  match i with
  | 0%nat => (* backwards *)
      if Py.lt (y vehicle_location) 143.50 then
        (self, [apply_vehicle_control lorry ParkingHGV.reversing], Py.Ok tt)
      else
        ParkingHGV.reach self 0
          [apply_vehicle_control lorry ParkingHGV.braking;
           set_light_state lorry ParkingHGV.lights_parked]
  | 1%nat => (* forwards *)
      if Py.gt (y vehicle_location) 142.60 then
        (self, [apply_vehicle_control lorry ParkingHGV.pulling_out], Py.Ok tt)
      else
        ParkingHGV.reach self 1
          [apply_vehicle_control lorry ParkingHGV.braking;
           set_light_state lorry (ParkingHGV.lights_parked ++ [Reverse])]
  | _ =>
      if Py.lt (y vehicle_location) 144.00 then
        (self, [apply_vehicle_control lorry ParkingHGV.reversing], Py.Ok tt)
      else
        (self, [apply_vehicle_control lorry ParkingHGV.braking], Py.Ok tt)
  end.

Definition CarForwardParkingAndReverseNoHarm_branch (i : nat)
    (self : CarForwardParkingAndReverseNoHarm.t) (world : World)
  : Outcome CarForwardParkingAndReverseNoHarm.t :=
  let car := CarForwardParkingAndReverseNoHarm.vehicle_actor self in
  let vehicle_transform := get_transform (world car) in
  let timer := CarForwardParkingAndReverseNoHarm.timer self in
  let lights_on := CarForwardParkingAndReverseNoHarm.lights_on in
  let reach := CarForwardParkingAndReverseNoHarm.reach self in
  let wait := CarForwardParkingAndReverseNoHarm.wait self in
  let count_down := CarForwardParkingAndReverseNoHarm.count_down self in
  match i with
  | 0%nat => (* speed decrease *)
      if Py.lt (x (location vehicle_transform)) 125.00 then
        reach 0%nat
          [set_light_state car (RightBlinker :: lights_on);
           apply_vehicle_control car
             (mkVehicleControl 0.3 (-0.01) 0.0 false false)]
      else wait
  | 1%nat => (* right turn *)
      if Py.lt (x (location vehicle_transform)) 106.50 then
        reach 1%nat
          [apply_vehicle_control car
             (mkVehicleControl 0.4 0.8 0.0 false false);
           set_light_state car (Brake :: RightBlinker :: lights_on)]
      else wait
  | 2%nat => (* left turn *)
      if Py.gt (yaw (rotation vehicle_transform)) (-146.00)
         && Py.lt (yaw (rotation vehicle_transform)) 0 then
        reach 2%nat
          [apply_vehicle_control car
             (mkVehicleControl 0.4 (-0.8) 0.0 false false)]
      else wait
  | 3%nat => (* stopping *)
      if Py.gt (Rabs (yaw (rotation vehicle_transform))) 170.00 then
        reach 3%nat
          [apply_vehicle_control car
             (mkVehicleControl 0.0 (-0.2) 1.0 true false);
           set_light_state car (Brake :: lights_on)]
      else wait
  | 4%nat => (* reverse *)
      if (timer >? 90)%Z then count_down
      else
        reach 4%nat
          [apply_vehicle_control car
             (mkVehicleControl 0.8 (-0.04) 0.0 false true);
           set_light_state car (Reverse :: lights_on)]
  | 5%nat => (* reverse end *)
      if Py.gt (x (location vehicle_transform)) 100.20 then
        reach 5%nat
          [apply_vehicle_control car
             (mkVehicleControl 0.0 0.0 1.0 true false);
           set_light_state car (Brake :: lights_on)]
      else wait
  | 6%nat => (* lights off *)
      if (timer >? 80)%Z then count_down
      else reach 6%nat [set_light_state car []]
  | _ =>
      if (timer >? 0)%Z then count_down
      else mkOutcome self [] (Py.Ok 1%Z)
  end.

Definition CarForwardStoppingDropoff_branch (i : nat)
    (self : CarForwardStoppingDropoff.t) (world : World)
    (ego_vehicle : Actor) : Outcome CarForwardStoppingDropoff.t :=
  let car := CarForwardStoppingDropoff.vehicle_actor self in
  let walker := CarForwardStoppingDropoff.pedestrian_actor self in
  let vehicle_transform := get_transform (world car) in
  let timer := CarForwardStoppingDropoff.timer self in
  let lights_on := CarForwardStoppingDropoff.lights_on in
  let reach := CarForwardStoppingDropoff.reach self in
  let wait := CarForwardStoppingDropoff.wait self in
  let count_down := CarForwardStoppingDropoff.count_down self in
  match i with
  | 0%nat => (* right turn *)
      if Py.gt (yaw (rotation vehicle_transform)) (-60.00) then
        reach 0%nat
          [apply_vehicle_control car
             (mkVehicleControl 0.2 (-0.7) 0.0 false false)]
      else wait
  | 1%nat => (* left turn *)
      if Py.lt (yaw (rotation vehicle_transform)) (-76.00) then
        reach 1%nat
          [apply_vehicle_control car
             (mkVehicleControl 0.0 (-0.6) 1.0 true false);
           set_light_state car (Brake :: RightBlinker :: lights_on)]
      else wait
  | 2%nat => (* drop off *)
      if Py.lt (get_vehicle_speed (world car)) 0.2 then
        reach 2%nat [open_door car FR]
      else wait
  | 3%nat =>
      if (timer >? 103)%Z then count_down
      else
        reach 3%nat
          [set_transform walker
             (mkTransform (Loc 9.90 63.60 1.13) (Rot 0 0 0));
           apply_walker_control walker
             (mkWalkerControl (mkVector3D 1.0 0.0 0.3) 1.5 false)]
  | 4%nat =>
      if (timer >? 50)%Z
         && Py.gt (y (location (get_transform (world ego_vehicle)))) 75.50
      then count_down
      else
        reach 4%nat
          [close_door car FR;
           set_light_state car (LeftBlinker :: lights_on);
           apply_vehicle_control car
             (mkVehicleControl 1.0 (-0.6) 0.0 false false)]
  | 5%nat =>
      if Py.lt (yaw (rotation vehicle_transform)) (-120.00) then
        reach 5%nat [set_autopilot car true; set_light_state car lights_on]
      else wait
  | _ =>
      if (timer >? 0)%Z then count_down
      else mkOutcome self [] (Py.Ok 1%Z)
  end.

(** [LooseZooAnimals] tests each animal for a hit before the chain, and
    sets the animal's checkpoint there: the checkpoints the chain
    reads. *)
Definition LooseZooAnimals_hits (self : LooseZooAnimals.t) (world : World)
  : list bool :=
  let gazelle_transform :=
    get_transform (world (LooseZooAnimals.gazelle_actor self)) in
  let gorilla_transform :=
    get_transform (world (LooseZooAnimals.gorilla_actor self)) in
  let hit_gorilla :=
    Py.gt (Rabs (LooseZooAnimals.gorilla_x self
                 - x (location gorilla_transform))) 0.1 in
  let hit_gazelle :=
    Py.gt (Rabs (LooseZooAnimals.gazelle_x self
                 - x (location gazelle_transform))) 0.1 in
  match LooseZooAnimals.checkpoint self with
  | [c0; c1] => [c0 || hit_gorilla; c1 || hit_gazelle]
  | cp => cp
  end.

Definition LooseZooAnimals_branch (i : nat) (self : LooseZooAnimals.t)
    (world : World) : Outcome LooseZooAnimals.t :=
  let gazelle_transform :=
    get_transform (world (LooseZooAnimals.gazelle_actor self)) in
  let gorilla_transform :=
    get_transform (world (LooseZooAnimals.gorilla_actor self)) in
  let dt := LooseZooAnimals.world_fixed_delta_seconds self in
  let finish self gazelle_transform gorilla_transform evs :=
    mkOutcome (LooseZooAnimals.set_animals_x
                 (x (location gazelle_transform))
                 (x (location gorilla_transform)) self)
              evs (Py.Ok 0%Z) in
  match i with
  | 0%nat => (* the gorilla walks *)
      if Py.lt (y (location gorilla_transform)) 50.90 then
        try_ self [] (Py.mul 0.3 dt) (fun dx =>
        try_ self [] (Py.mul 2.1 dt) (fun dy =>
        let gorilla_transform := add_xy gorilla_transform dx dy in
        finish self gazelle_transform gorilla_transform
               [set_transform (LooseZooAnimals.gorilla_actor self)
                              gorilla_transform]))
      else
        try_ self [] (Py.setitem (LooseZooAnimals.checkpoint self) 0 true)
          (fun cp =>
        finish (LooseZooAnimals.set_checkpoint cp self) gazelle_transform
               gorilla_transform [])
  | 1%nat => (* the gazelle walks *)
      if Py.gt (y (location gazelle_transform)) 36.80 then
        try_ self [] (Py.mul 1.2 dt) (fun dx =>
        try_ self [] (Py.mul 2.3 dt) (fun dy =>
        let gazelle_transform := add_xy gazelle_transform (- dx) (- dy) in
        finish self gazelle_transform gorilla_transform
               [set_transform (LooseZooAnimals.gazelle_actor self)
                              gazelle_transform]))
      else
        try_ self [] (Py.setitem (LooseZooAnimals.checkpoint self) 1 true)
          (fun cp =>
        finish (LooseZooAnimals.set_checkpoint cp self) gazelle_transform
               gorilla_transform [])
  | _ => mkOutcome self [] (Py.Ok 1%Z)
  end.

(** ** The scenario interface

    The drivers use a scenario object only through [tick], [destroy] and
    the attribute [triggered]; every scenario class also carries
    [trigger_area] and [actor_list]. *)

Class Scenario (S : Type) : Type :=
  { tick : S -> World -> Actor -> Outcome S;
    destroy : S -> list Event;
    triggered : S -> bool;
    trigger_points : S -> TriggerPoints;
    trigger_area : S -> TriggerPoints;
    actor_list : S -> list Actor }.

#[export] Instance SquirrelRunningAcrossTheRoad_Scenario
  : Scenario SquirrelRunningAcrossTheRoad.t :=
  { tick := SquirrelRunningAcrossTheRoad.tick;
    destroy := SquirrelRunningAcrossTheRoad.destroy;
    triggered := SquirrelRunningAcrossTheRoad.triggered;
    trigger_points := SquirrelRunningAcrossTheRoad.trigger_points;
    trigger_area := SquirrelRunningAcrossTheRoad.trigger_area;
    actor_list := SquirrelRunningAcrossTheRoad.actor_list }.

#[export] Instance StaticCarCrash_1_Scenario : Scenario StaticCarCrash_1.t :=
  { tick := StaticCarCrash_1.tick;
    destroy := StaticCarCrash_1.destroy;
    triggered := StaticCarCrash_1.triggered;
    trigger_points := StaticCarCrash_1.trigger_points;
    trigger_area := StaticCarCrash_1.trigger_area;
    actor_list := StaticCarCrash_1.actor_list }.

#[export] Instance BoyFootball_Scenario : Scenario BoyFootball.t :=
  { tick := BoyFootball.tick;
    destroy := BoyFootball.destroy;
    triggered := BoyFootball.triggered;
    trigger_points := BoyFootball.trigger_points;
    trigger_area := BoyFootball.trigger_area;
    actor_list := BoyFootball.actor_list }.

#[export] Instance ParkingHGV_Scenario : Scenario ParkingHGV.t :=
  { tick := ParkingHGV.tick;
    destroy := ParkingHGV.destroy;
    triggered := ParkingHGV.triggered;
    trigger_points := ParkingHGV.trigger_points;
    trigger_area := ParkingHGV.trigger_area;
    actor_list := ParkingHGV.actor_list }.

#[export] Instance DangerousExcavator_Scenario
  : Scenario DangerousExcavator.t :=
  { tick := DangerousExcavator.tick;
    destroy := DangerousExcavator.destroy;
    triggered := DangerousExcavator.triggered;
    trigger_points := DangerousExcavator.trigger_points;
    trigger_area := DangerousExcavator.trigger_area;
    actor_list := DangerousExcavator.actor_list }.

#[export] Instance LooseZooAnimals_Scenario : Scenario LooseZooAnimals.t :=
  { tick := LooseZooAnimals.tick;
    destroy := LooseZooAnimals.destroy;
    triggered := LooseZooAnimals.triggered;
    trigger_points := LooseZooAnimals.trigger_points;
    trigger_area := LooseZooAnimals.trigger_area;
    actor_list := LooseZooAnimals.actor_list }.

#[export] Instance CarForwardParkingAndReverseNoHarm_Scenario
  : Scenario CarForwardParkingAndReverseNoHarm.t :=
  { tick := CarForwardParkingAndReverseNoHarm.tick;
    destroy := CarForwardParkingAndReverseNoHarm.destroy;
    triggered := CarForwardParkingAndReverseNoHarm.triggered;
    trigger_points := CarForwardParkingAndReverseNoHarm.trigger_points;
    trigger_area := CarForwardParkingAndReverseNoHarm.trigger_area;
    actor_list := CarForwardParkingAndReverseNoHarm.actor_list }.

#[export] Instance CarForwardStoppingDropoff_Scenario
  : Scenario CarForwardStoppingDropoff.t :=
  { tick := CarForwardStoppingDropoff.tick;
    destroy := CarForwardStoppingDropoff.destroy;
    triggered := CarForwardStoppingDropoff.triggered;
    trigger_points := CarForwardStoppingDropoff.trigger_points;
    trigger_area := CarForwardStoppingDropoff.trigger_area;
    actor_list := CarForwardStoppingDropoff.actor_list }.

(** The scenario files that are modelled, and the class each defines. *)
Inductive scenario_file : Type :=
| spawn_squirrel_running_across
| spawn_static_car_crash_1
| spawn_ball_boy
| spawn_parking_HGV
| spawn_dangerous_excavator
| spawn_loose_zoo_animals
| spawn_car_forward_parking_noharm
| spawn_car_forward_dropoff_v2.

Definition class_of (f : scenario_file) : Type :=
  match f with
  | spawn_squirrel_running_across => SquirrelRunningAcrossTheRoad.t
  | spawn_static_car_crash_1 => StaticCarCrash_1.t
  | spawn_ball_boy => BoyFootball.t
  | spawn_parking_HGV => ParkingHGV.t
  | spawn_dangerous_excavator => DangerousExcavator.t
  | spawn_loose_zoo_animals => LooseZooAnimals.t
  | spawn_car_forward_parking_noharm => CarForwardParkingAndReverseNoHarm.t
  | spawn_car_forward_dropoff_v2 => CarForwardStoppingDropoff.t
  end.

#[export] Instance class_of_Scenario (f : scenario_file)
  : Scenario (class_of f) :=
  match f with
  | spawn_squirrel_running_across => SquirrelRunningAcrossTheRoad_Scenario
  | spawn_static_car_crash_1 => StaticCarCrash_1_Scenario
  | spawn_ball_boy => BoyFootball_Scenario
  | spawn_parking_HGV => ParkingHGV_Scenario
  | spawn_dangerous_excavator => DangerousExcavator_Scenario
  | spawn_loose_zoo_animals => LooseZooAnimals_Scenario
  | spawn_car_forward_parking_noharm =>
      CarForwardParkingAndReverseNoHarm_Scenario
  | spawn_car_forward_dropoff_v2 => CarForwardStoppingDropoff_Scenario
  end.

(** [Cls(world, ego_vehicle)], as the drivers construct a scenario: default
    trigger points, handles from [fresh] on.  [fixed_delta_seconds] is
    what the world's settings hold at that moment: the drivers set it to
    0.05 unless the world is in synchronous mode already, and then leave
    it as it is, [None] included. *)
Definition construct (f : scenario_file) (fresh : Actor)
    (fixed_delta_seconds : option R) : class_of f * list Event :=
  match f with
  | spawn_squirrel_running_across =>
      SquirrelRunningAcrossTheRoad.__init__ fresh fixed_delta_seconds None
  | spawn_static_car_crash_1 => StaticCarCrash_1.__init__ fresh None
  | spawn_ball_boy => BoyFootball.__init__ fresh None
  | spawn_parking_HGV => ParkingHGV.__init__ fresh None
  | spawn_dangerous_excavator => DangerousExcavator.__init__ fresh None
  | spawn_loose_zoo_animals =>
      LooseZooAnimals.__init__ fresh fixed_delta_seconds None
  | spawn_car_forward_parking_noharm =>
      CarForwardParkingAndReverseNoHarm.__init__ fresh None
  | spawn_car_forward_dropoff_v2 =>
      CarForwardStoppingDropoff.__init__ fresh None
  end.

(** The classes that index a checkpoint list do so up to a fixed index:
    the list has to be as long as [__init__] makes it. *)
Definition well_formed (f : scenario_file) : class_of f -> Prop :=
  match f with
  | spawn_parking_HGV =>
      fun self => List.length (ParkingHGV.checkpoint self) = 2%nat
  | spawn_loose_zoo_animals =>
      fun self => List.length (LooseZooAnimals.checkpoint self) = 2%nat
  | spawn_car_forward_parking_noharm =>
      fun self =>
        List.length (CarForwardParkingAndReverseNoHarm.checkpoint self)
        = 7%nat
  | spawn_car_forward_dropoff_v2 =>
      fun self =>
        List.length (CarForwardStoppingDropoff.checkpoint self) = 6%nat
  | _ => fun _ => True
  end.

(** A call that leaves the checkpoint list well-formed. *)
Definition keeps_well_formed (f : scenario_file) (o : Outcome (class_of f))
  : Prop :=
  well_formed f (self' o).
Arguments keeps_well_formed : simpl never.

(** ** Terminal conditions

    What a triggered tick tests before it returns 1, class by class: the
    conditions under which the scenario is completed on this tick, passed
    or failed.  Checkpoint lists are read as [__init__] makes them
    ([well_formed]). *)

Definition inside {S : Type} `{Scenario S} (self : S) (world : World)
    (ego_vehicle : Actor) : bool :=
  is_inside_bounding_box (location (get_transform (world ego_vehicle)))
                         (fst (trigger_area self)) (snd (trigger_area self)).

Definition terminal (f : scenario_file)
  : class_of f -> World -> Actor -> bool :=
  match f with
  | spawn_squirrel_running_across => fun self world ego_vehicle =>
      let squirrel :=
        location (get_transform
                    (world (SquirrelRunningAcrossTheRoad.squirrel_actor self)))
      in
      if SquirrelRunningAcrossTheRoad.collision_detected self then
        (* hit before: the timer has run out *)
        negb (SquirrelRunningAcrossTheRoad.timer self >? 0)%Z
      else
        (* not hit on this tick, on its run across, and across the road
           after this tick's step *)
        negb (Py.gt (Rabs (x squirrel
                           - SquirrelRunningAcrossTheRoad.squirrel_x_position
                               self)) 0.01)
        && SquirrelRunningAcrossTheRoad.checkpoint self
        && match SquirrelRunningAcrossTheRoad.world_fixed_delta_seconds self
           with
           | Some dt => Py.lt (y squirrel - 1.5 * dt) 127.40
           | None => false
           end
  | spawn_static_car_crash_1 => fun self world ego_vehicle =>
      (* passed: the ego vehicle is outside; failed: the timer has run
         out *)
      negb (inside self world ego_vehicle)
      || negb (StaticCarCrash_1.timer self >? 0)%Z
  | spawn_ball_boy => fun self world ego_vehicle =>
      let boy := get_location (world (BoyFootball.pedestrian_actor self)) in
      (* failed: the boy is at the origin; passed: he is back *)
      (Py.eq (x boy) 0.0 && Py.eq (y boy) 0.0)
      || (BoyFootball.checkpoint self && Py.gt (y boy) 140.00)
  | spawn_parking_HGV => fun self world ego_vehicle =>
      (* failed: a collision, or the ego vehicle inside with the timer
         run out or standing; passed: the ego vehicle is outside *)
      ParkingHGV.collision_detected self
      || negb (inside self world ego_vehicle)
      || negb ((ParkingHGV.timer self >? 0)%Z
               && Py.gt (get_vehicle_speed (world ego_vehicle)) 0.1)
  | spawn_dangerous_excavator => fun self world ego_vehicle =>
      let current_rotation :=
        rotation (get_transform
                    (world (DangerousExcavator.excavator_top_actor self))) in
      (* the arm has swung out and back, and the timer has run out *)
      DangerousExcavator.checkpoint self
      && negb (Py.lt (yaw current_rotation) 130)
      && negb (DangerousExcavator.timer self >? 0)%Z
  | spawn_loose_zoo_animals => fun self world ego_vehicle =>
      let gazelle :=
        location (get_transform (world (LooseZooAnimals.gazelle_actor self)))
      in
      let gorilla :=
        location (get_transform (world (LooseZooAnimals.gorilla_actor self)))
      in
      (* each animal has crossed or has been hit, on this tick or before *)
      (nth 0 (LooseZooAnimals.checkpoint self) false
       || Py.gt (Rabs (LooseZooAnimals.gorilla_x self - x gorilla)) 0.1)
      && (nth 1 (LooseZooAnimals.checkpoint self) false
          || Py.gt (Rabs (LooseZooAnimals.gazelle_x self - x gazelle)) 0.1)
  | spawn_car_forward_parking_noharm => fun self world ego_vehicle =>
      (* failed: a collision; else every checkpoint is set and the timer
         has run out *)
      CarForwardParkingAndReverseNoHarm.collision_detected self
      || (forallb (fun c => c)
                  (CarForwardParkingAndReverseNoHarm.checkpoint self)
          && negb (CarForwardParkingAndReverseNoHarm.timer self >? 0)%Z)
  | spawn_car_forward_dropoff_v2 => fun self world ego_vehicle =>
      CarForwardStoppingDropoff.collision_detected self
      || (forallb (fun c => c) (CarForwardStoppingDropoff.checkpoint self)
          && negb (CarForwardStoppingDropoff.timer self >? 0)%Z)
  end.

(** ** Sequences of calls *)

(** What the idle tick of a scenario does to the trigger area while the
    ego vehicle is outside of it: [whole_area add_speed add_to_x] is a
    call of [update_trigger_points] on the original trigger points,
    [first_corner add_speed add_to_x] a call of [update_beginning_area]
    written into the list itself, [static] nothing. *)
Inductive Translation : Type :=
| whole_area (add_speed add_to_x : bool)
| first_corner (add_speed add_to_x : bool)
| static.

Definition configured_translation (f : scenario_file) : Translation :=
  match f with
  | spawn_squirrel_running_across => whole_area false true
  | spawn_static_car_crash_1 => static
  | spawn_ball_boy => whole_area false true
  | spawn_parking_HGV => static
  | spawn_dangerous_excavator => whole_area true true
  | spawn_loose_zoo_animals => whole_area true true
  | spawn_car_forward_parking_noharm => static
  | spawn_car_forward_dropoff_v2 => first_corner true false
  end.

(** [tick] called once per world state, whatever it returns or raises. *)
Fixpoint ticks {S : Type} `{Scenario S} (self : S) (ego_vehicle : Actor)
    (worlds : list World) : list (Outcome S) :=
  match worlds with
  | [] => []
  | world :: worlds =>
      let o := tick self world ego_vehicle in
      o :: ticks (self' o) ego_vehicle worlds
  end.

(** The objects a sequence of ticks goes through, the first one
    included. *)
Definition states {S : Type} `{Scenario S} (self : S) (ego_vehicle : Actor)
    (worlds : list World) : list S :=
  self :: map self' (ticks self ego_vehicle worlds).

(** The object a sequence of ticks ends with. *)
Definition after {S : Type} `{Scenario S} (self : S) (ego_vehicle : Actor)
    (worlds : list World) : S :=
  fold_left (fun s world => self' (tick s world ego_vehicle)) worlds self.

(** How often a flag goes from false to true along a sequence. *)
Fixpoint rising_edges (flags : list bool) : nat :=
  match flags with
  | a :: ((b :: _) as rest) =>
      ((if negb a && b then 1 else 0) + rising_edges rest)%nat
  | _ => 0%nat
  end.

(** ** The driver loop ([main] of every scenario file)

    One iteration per world state.  An iteration makes one call on the
    scenario (the constructor, [tick] or [destroy]) and ends with
    [world.tick()].  The loop is left by [break] after [destroy], by an
    exception that escapes from [tick], or where the driver is
    interrupted ([KeyboardInterrupt], which the loop's [except] catches);
    then the [finally] block destroys the scenario object that the
    variable [Scenario] still holds.

    The result is the codes [tick] returned to the driver, in order, and
    everything the scenario object sent or printed. *)

Record Run : Type := mkRun { codes : list (Py.res Z); log : list Event }.

Definition before (c : list (Py.res Z)) (evs : list Event) (r : Run) : Run :=
  mkRun (c ++ codes r) (evs ++ log r).

(** Where the interrupt falls, after the iterations that ran to their
    end: between two calls on the scenario (in [time.sleep] or
    [world.tick]), or inside the call that the next iteration makes, in
    the world [world], when that call has sent and printed [sent] of its
    events and has not returned.  The latter is also how a constructor
    ends in which [world.spawn_actor] fails: its exception leaves the
    loop like the interrupt does. *)
Inductive Interrupt : Type :=
| between_calls
| within_call (world : World) (sent : nat).

(** [if Scenario is not None: Scenario.destroy(client)] in the [finally]
    block.  The block is not protected itself: [cut] is [Some n] when a
    further interrupt ends it after [n] events of that call ([Some 0] if
    before the call), [None] when it runs to its end. *)
Definition finally_ {S : Type} `{Scenario S} (Scenario : option S)
    (cut : option nat) : list Event :=
  match Scenario with
  | None => []
  | Some sc =>
      match cut with
      | None => destroy sc
      | Some n => firstn n (destroy sc)
      end
  end.

(** The loop from the state ([Scenario], [scenario_timer]).  A call that
    is interrupted binds nothing: an interrupted constructor leaves
    [Scenario] at [None], an interrupted [destroy] leaves it bound, also
    when the interrupt falls after the call and before
    [Scenario = None].  An interrupted [tick] leaves [Scenario] bound to
    the object as the tick has changed it so far; [destroy] reads the
    actor list and the sensor handle only, which no [tick] assigns, so
    what the [finally] block then sends is what [destroy] sends for the
    object before the tick. *)
Fixpoint main_loop {S : Type} `{Scenario S} (new : S * list Event)
    (ego_vehicle_actor : Actor) (Scenario : option S) (scenario_timer : Z)
    (worlds : list World) (interrupt : Interrupt) (cut : option nat) : Run :=
  match worlds with
  | [] =>
      match interrupt with
      | between_calls => mkRun [] (finally_ Scenario cut)
      | within_call world sent =>
          match Scenario with
          | None => mkRun [] (firstn sent (snd new))
          | Some sc =>
              let call :=
                if (scenario_timer >? 0)%Z
                then events (tick sc world ego_vehicle_actor)
                else destroy sc in
              mkRun [] (firstn sent call ++ finally_ (Some sc) cut)
          end
      end
  | world :: worlds =>
      match Scenario with
      | None =>
          before [] (snd new)
            (main_loop new ego_vehicle_actor (Some (fst new)) scenario_timer
                       worlds interrupt cut)
      | Some sc =>
          if (scenario_timer >? 0)%Z then
            let o := tick sc world ego_vehicle_actor in
            match returned o with
            | Py.Ok sucess =>
                before [Py.Ok sucess] (events o)
                  (main_loop new ego_vehicle_actor (Some (self' o))
                     (if (sucess =? 1)%Z then 0%Z else (scenario_timer - 1)%Z)
                     worlds interrupt cut)
            | Py.Raise e =>
                mkRun [Py.Raise e]
                      (events o ++ finally_ (Some (self' o)) cut)
            end
          else mkRun [] (destroy sc)
      end
  end.

Definition main (f : scenario_file) (fresh : Actor)
    (fixed_delta_seconds : option R) (ego_vehicle_actor : Actor)
    (worlds : list World) (interrupt : Interrupt) (cut : option nat) : Run :=
  main_loop (construct f fresh fixed_delta_seconds) ego_vehicle_actor None 600
            worlds interrupt cut.

(** The [DestroyActor] commands in a log, batch by batch. *)
Fixpoint released (log : list Event) : list Actor :=
  match log with
  | [] => []
  | apply_batch commands :: log =>
      map (fun c => match c with DestroyActor a => a end) commands
        ++ released log
  | _ :: log => released log
  end.

(** ** What every tick leaves alone

    A tick releases no actor and keeps the actor list, returns 0 or 1
    unless it raises, returns 0 if the scenario is idle, and if the
    scenario is triggered it stays triggered, with its trigger area and
    trigger points as they are. *)

Inductive tick_frame {S : Type} `{Scenario S} (self : S) (o : Outcome S)
  : Prop :=
| frame :
    released (events o) = [] ->
    actor_list (self' o) = actor_list self ->
    (returned o = Py.Ok 0%Z \/ returned o = Py.Ok 1%Z
     \/ exists e, returned o = Py.Raise e) ->
    (triggered self = true ->
     triggered (self' o) = true
     /\ trigger_area (self' o) = trigger_area self
     /\ trigger_points (self' o) = trigger_points self) ->
    (triggered self = false -> returned o = Py.Ok 0%Z) ->
    tick_frame self o.

(** ** The specification's vocabulary *)



Definition spec_path_offset (car ped : Location) (dir : Vector3D) : R :=
  if Py.ne (x dir) 0 then Rabs (y car - y ped) else Rabs (x car - x ped).

(** From the specification's words: a trigger area shifted by [d] along
    the x axis ([along_x]) or the y axis, added or subtracted. *)
Definition spec_translate (area : TriggerPoints) (d : R)
    (add along_x : bool) : TriggerPoints :=
  let d := if add then d else - d in
  let dx := if along_x then d else 0 in
  let dy := if along_x then 0 else d in
  ((fst (fst area) + dx, snd (fst area) + dy),
   (fst (snd area) + dx, snd (snd area) + dy)).

(** From the specification's words: an ordered checkpoint sequence, in
    which a later checkpoint is set only if every earlier one is. *)
Fixpoint in_order (checkpoint : list bool) : Prop :=
  match checkpoint with
  | [] => True
  | c :: rest => (c = false -> Forall (fun later => later = false) rest)
                 /\ in_order rest
  end.

(** From the specification's words: checkpoints are inspected strictly in
    order.  The index of the first checkpoint that is not set, the
    length of the list if all are set: the one branch that is reachable. *)
Fixpoint first_unset (checkpoint : list bool) : nat :=
  match checkpoint with
  | true :: rest => S (first_unset rest)
  | _ => 0%nat
  end.

(** From the specification's words: no checkpoint that is set in [old]
    is reset in [new]. *)
Definition none_reset (old new : list bool) : Prop :=
  List.length old = List.length new
  /\ forall i : nat, nth i old false = true -> nth i new false = true.

(** From the specification's words: checkpoints are inspected and flipped
    strictly in order.  One tick leaves the checkpoints [cp] as they are,
    or sets the one at an index before which all are set. *)
Definition next_checkpoint (cp cp' : list bool) : Prop :=
  cp' = cp
  \/ exists i : nat,
       Py.setitem cp i true = Py.Ok cp'
       /\ forall j : nat, (j < i)%nat -> Py.getitem cp j = Py.Ok true.

Definition flips_in_order {S : Type} (checkpoint : S -> list bool)
    (self : S) (o : Outcome S) : Prop :=
  next_checkpoint (checkpoint self) (checkpoint (self' o)).

(** From the specification's words: completion is signalled.  The call
    returns 1 exactly if the condition [t] holds. *)
Definition signals {S : Type} (t : bool) (o : Outcome S) : Prop :=
  returned o = Py.Ok 1%Z <-> t = true.

(** The outcome of a scenario is the line [tick] prints when it
    completes: whether a tick printed [msg]. *)
Definition printed (msg : string) (evs : list Event) : Prop :=
  In (print msg) evs.

(** ** Concrete worlds and scenario objects, for the examples *)

Definition boy_control : WalkerControl :=
  mkWalkerControl (mkVector3D 0 (-1) 0) 3.5 false.

(** An actor at [l], heading along x, moving with velocity [v]; if it is a
    walker, its last control is [boy_control]. *)
Definition actor_at (l : Location) (v : Vector3D) : ActorState :=
  mkActorState (mkTransform l (Rot 0 0 0)) (mkVector3D 1 0 0) v boy_control.

(** The world in which actor [a] is in state [s] and every other actor is
    as in [w]. *)
Definition with_actor (a : Actor) (s : ActorState) (w : World) : World :=
  fun b => if Nat.eqb b a then s else w b.

(** Every actor at the origin, standing still. *)
Definition at_rest : World :=
  fun _ => actor_at (Loc 0 0 0) (mkVector3D 0 0 0).

(** The ego vehicle of the examples is actor 100; the scenarios' own
    actors are counted from 0. *)
Definition ego : Actor := 100%nat.

(** The ego vehicle inside the default trigger area of
    [StaticCarCrash_1]; in [at_rest] it is outside of it. *)
Definition in_tunnel_exit : World :=
  with_actor ego (actor_at (Loc 230 (-50) 0) (mkVector3D 3 0 0)) at_rest.

Definition crash_triggered : StaticCarCrash_1.t :=
  fst (StaticCarCrash_1.trigger (fst (StaticCarCrash_1.__init__ 0%nat None))).

(** [BoyFootball], triggered; the ego vehicle drives along x at 5 m/s with
    its bumper (2 m ahead of x = 78) level with the boy (actor 1), who
    waits at x = 80 to run across. *)
Definition boy_triggered : BoyFootball.t :=
  fst (BoyFootball.trigger (fst (BoyFootball.__init__ 0%nat None))).

Definition bumper_level_with_boy : World :=
  with_actor ego (actor_at (Loc 78 134.5 0) (mkVector3D 5 0 0))
    (with_actor 1%nat (actor_at (Loc 80 143.4 1) (mkVector3D 0 0 0))
       at_rest).

(** [ParkingHGV], triggered, with the lorry (actor 0) at its spawn point
    and the ego vehicle standing inside the trigger area. *)
Definition hgv_triggered : ParkingHGV.t :=
  fst (ParkingHGV.trigger (fst (ParkingHGV.__init__ 0%nat None))).

Definition ego_stopped_beside_hgv : World :=
  with_actor ego (actor_at (Loc (-50) 137 0) (mkVector3D 0 0 0))
    (with_actor 0%nat (actor_at (Loc (-39.80) 137.20 0.1) (mkVector3D 0 0 0))
       at_rest).

(** [LooseZooAnimals], triggered; the gorilla (actor 1) still at its spawn
    point, the gazelle (actor 0) pushed 0.8 m along x. *)
Definition zoo_triggered : LooseZooAnimals.t :=
  fst (LooseZooAnimals.trigger
         (fst (LooseZooAnimals.__init__ 0%nat (Some 0.05) None))).

Definition gazelle_hit : World :=
  with_actor 0%nat (actor_at (Loc 72 52.20 1.00) (mkVector3D 0 0 0))
    (with_actor 1%nat (actor_at (Loc 77.90 40.40 1.15) (mkVector3D 0 0 0))
       at_rest).

(** [CarForwardParkingAndReverseNoHarm], triggered; the car (actor 0)
    first in its turn (x = 100, yaw = -100), then straightened out in the
    parking lane (x = 101, yaw = 180). *)
Definition parking_triggered : CarForwardParkingAndReverseNoHarm.t :=
  fst (CarForwardParkingAndReverseNoHarm.trigger
         (fst (CarForwardParkingAndReverseNoHarm.__init__ 0%nat None))).

Definition car_at (l : Location) (yaw : R) : ActorState :=
  mkActorState (mkTransform l (Rot 0 0 yaw)) (mkVector3D 1 0 0)
               (mkVector3D 0 0 0) boy_control.


Definition car_parked : World :=
  with_actor 0%nat (car_at (Loc 101 129.30 0.40) 180) at_rest.


(** The triggered scenario with its checkpoints at [cp] and its timer at
    [t]. *)
Definition parking_state (cp : list bool) (t : Z)
  : CarForwardParkingAndReverseNoHarm.t :=
  CarForwardParkingAndReverseNoHarm.set_timer t
    (CarForwardParkingAndReverseNoHarm.set_checkpoint cp parking_triggered).

(** ** Who a scenario talks to *)

(** The actors a log spawns, in order. *)
Fixpoint spawned (log : list Event) : list Actor :=
  match log with
  | [] => []
  | spawn_actor _ _ _ a :: log => a :: spawned log
  | _ :: log => spawned log
  end.

(** An event that creates or destroys no actor and, if it is sent to an
    actor, is sent to one of [own]. *)
Definition addressed_to (own : list Actor) (e : Event) : Prop :=
  match e with
  | print _ | print_d _ _ _ => True
  | spawn_actor _ _ _ _ | apply_batch _ => False
  | apply_walker_control a _ | apply_vehicle_control a _
  | set_transform a _ | set_simulate_physics a _ | set_light_state a _
  | add_impulse a _ | open_door a _ | close_door a _ | set_autopilot a _
  | sensor_listen a | sensor_stop a => In a own
  end.

(** The actors a scenario object holds in attributes of its own
    ([self.squirrel_actor] and the like). *)
Definition own_actors (f : scenario_file) : class_of f -> list Actor :=
  match f with
  | spawn_squirrel_running_across =>
      fun self => [SquirrelRunningAcrossTheRoad.squirrel_actor self]
  | spawn_static_car_crash_1 =>
      fun self =>
        [StaticCarCrash_1.police_car_actor self;
         StaticCarCrash_1.car1_actor self;
         StaticCarCrash_1.car2_actor self;
         StaticCarCrash_1.traffic_warning_actor self]
  | spawn_ball_boy =>
      fun self =>
        [BoyFootball.football_actor self; BoyFootball.pedestrian_actor self;
         BoyFootball.cybertruck_actor self; BoyFootball.nissan_actor self;
         BoyFootball.truck_actor self]
  | spawn_parking_HGV =>
      fun self => [ParkingHGV.hgv_actor self; ParkingHGV.collision_sensor self]
  | spawn_dangerous_excavator =>
      fun self =>
        [DangerousExcavator.construction_cone_actor self;
         DangerousExcavator.excavator_bottom_actor self;
         DangerousExcavator.excavator_top_actor self;
         DangerousExcavator.barrier1_actor self;
         DangerousExcavator.barrier2_actor self;
         DangerousExcavator.barrier3_actor self;
         DangerousExcavator.warning_sign_actor self]
  | spawn_loose_zoo_animals =>
      fun self =>
        [LooseZooAnimals.gazelle_actor self; LooseZooAnimals.gorilla_actor self]
  | spawn_car_forward_parking_noharm =>
      fun self =>
        [CarForwardParkingAndReverseNoHarm.vehicle_actor self;
         CarForwardParkingAndReverseNoHarm.collision_sensor self]
  | spawn_car_forward_dropoff_v2 =>
      fun self =>
        [CarForwardStoppingDropoff.vehicle_actor self;
         CarForwardStoppingDropoff.pedestrian_actor self;
         CarForwardStoppingDropoff.collision_sensor self]
  end.

(** A call that sends events to [own self] only and leaves [own] as it
    is. *)
Definition commands_only {S : Type} (own : S -> list Actor) (self : S)
    (o : Outcome S) : Prop :=
  Forall (addressed_to (own self)) (events o) /\ own (self' o) = own self.

(** ** Checkpoint lists and timers *)

(** A call after which the object satisfies [P] and which raises only
    exceptions that satisfy [Q]. *)
Definition keeps_form {S : Type} (P : S -> Prop) (Q : Py.exn -> Prop)
    (o : Outcome S) : Prop :=
  P (self' o) /\ forall e : Py.exn, returned o = Py.Raise e -> Q e.

(** The attribute [world_fixed_delta_seconds] of the classes that keep
    the time step they were constructed with. *)
Definition time_step_of (f : scenario_file)
  : option (class_of f -> option R) :=
  match f with
  | spawn_squirrel_running_across =>
      Some SquirrelRunningAcrossTheRoad.world_fixed_delta_seconds
  | spawn_loose_zoo_animals => Some LooseZooAnimals.world_fixed_delta_seconds
  | _ => None
  end.

(** An object whose time step, if its class keeps one, is
    [fixed_delta_seconds]. *)
Definition holds_time_step (f : scenario_file)
    (fixed_delta_seconds : option R) (self : class_of f) : Prop :=
  match time_step_of f with
  | Some world_fixed_delta_seconds =>
      world_fixed_delta_seconds self = fixed_delta_seconds
  | None => True
  end.

(** The attribute [timer] of the classes that have one. *)
Definition timer_of (f : scenario_file) : option (class_of f -> Z) :=
  match f with
  | spawn_squirrel_running_across => Some SquirrelRunningAcrossTheRoad.timer
  | spawn_static_car_crash_1 => Some StaticCarCrash_1.timer
  | spawn_ball_boy => None
  | spawn_parking_HGV => Some ParkingHGV.timer
  | spawn_dangerous_excavator => Some DangerousExcavator.timer
  | spawn_loose_zoo_animals => None
  | spawn_car_forward_parking_noharm =>
      Some CarForwardParkingAndReverseNoHarm.timer
  | spawn_car_forward_dropoff_v2 => Some CarForwardStoppingDropoff.timer
  end.

(** A call that leaves the timer as it is or, the timer being positive,
    takes one off. *)
Definition counts_down {S : Type} (timer : S -> Z) (self : S)
    (o : Outcome S) : Prop :=
  timer (self' o) = timer self
  \/ ((0 < timer self)%Z /\ timer (self' o) = (timer self - 1)%Z).

(** ** Collision sensors *)

(** The callback of the collision sensor, in the classes that attach one
    to their vehicle. *)
Definition sensor_callback_of (f : scenario_file)
  : option (class_of f -> string -> class_of f * list Event) :=
  match f with
  | spawn_parking_HGV => Some ParkingHGV.sensor_callback
  | spawn_car_forward_parking_noharm =>
      Some CarForwardParkingAndReverseNoHarm.sensor_callback
  | spawn_car_forward_dropoff_v2 =>
      Some CarForwardStoppingDropoff.sensor_callback
  | _ => None
  end.

(** Each tick of a sequence, with the object it is called on. *)
Definition steps {S : Type} `{Scenario S} (self : S) (ego_vehicle : Actor)
    (worlds : list World) : list (S * Outcome S) :=
  combine (states self ego_vehicle worlds) (ticks self ego_vehicle worlds).

(** [a] comes before [b] in [l]. *)
Definition comes_before {A : Type} (a b : A) (l : list A) : Prop :=
  exists l1 l2 l3 : list A, l = l1 ++ a :: l2 ++ b :: l3.

(** The sensors a log attaches, each with the actor it is attached to. *)
Fixpoint attached (log : list Event) : list (Actor * Actor) :=
  match log with
  | [] => []
  | spawn_actor _ _ (Some parent) a :: log => (a, parent) :: attached log
  | _ :: log => attached log
  end.

(** The sum of a list of speeds. *)
Definition total (speeds : list R) : R := fold_right Rplus 0 speeds.

(** The ego vehicle inside the default trigger area of
    [LooseZooAnimals], the animals as in [gazelle_hit]. *)
Definition at_zoo_gate : World :=
  with_actor ego (actor_at (Loc 103 59 0) (mkVector3D 3 0 0)) gazelle_hit.

(** ** start_car.py

    The driver that runs several scenarios in one drive.  It builds a
    list of scenario objects and a list with one timer per object, then
    loops: one pass over the list per world step.  The scenario classes
    it lists are a parameter here (eight of the eleven are not among the
    modelled files); an object of a modelled class is a class together
    with an object of it. *)

Module start_car.

Definition scenario_object : Type := {f : scenario_file & class_of f}.

Definition object_of (f : scenario_file) (self : class_of f)
  : scenario_object := existT class_of f self.

(** [l.pop(i)] for an index [i >= 0], the popped item dropped. *)
Definition pop {A : Type} (l : list A) (i : nat) : Py.res (list A) :=
  if (i <? List.length l)%nat then Py.Ok (firstn i l ++ skipn (S i) l)
  else Py.Raise Py.IndexError.

(** The two lists the loop works on. *)
Record Lists : Type :=
  mkLists { scenarios : list scenario_object; scenario_timers : list Z }.

(** The objects are mutable and the list holds references to them: the
    object [tick] was called on is, afterwards, the object at the same
    place in the list. *)
Definition ticked (l : list scenario_object) (index : nat)
    (f : scenario_file) (self : class_of f) : list scenario_object :=
  firstn index l ++ object_of f self :: skipn (S index) l.

(** [for index, scenario in enumerate(scenarios): ...], from the item at
    [index] on.  The list iterator reads [scenarios[index]] anew in every
    round and stops when [index] is past the end, so that an item popped
    during the loop moves every later item one place down.  Each round
    steps [index] by one; [fuel] bounds the rounds, and the length of the
    list is enough of it.  The result is the lists after the loop, what
    was sent and printed, and the exception that escaped, if any. *)
Fixpoint for_enumerate (fuel index : nat) (l : Lists) (world : World)
    (ego_vehicle_actor : Actor) : Lists * list Event * Py.res unit :=
  match fuel with
  | O => (l, [], Py.Ok tt)
  | S fuel =>
      match nth_error (scenarios l) index with
      | None => (l, [], Py.Ok tt)
      | Some (existT _ f scenario) =>
          match Py.getitem (scenario_timers l) index with
          | Py.Raise e => (l, [], Py.Raise e)
          | Py.Ok timer =>
              if (timer >? 0)%Z then
                let o := tick scenario world ego_vehicle_actor in
                let l :=
                  mkLists (ticked (scenarios l) index f (self' o))
                          (scenario_timers l) in
                match returned o with
                | Py.Raise e => (l, events o, Py.Raise e)
                | Py.Ok sucess =>
                    let timers :=
                      if triggered (self' o) then
                        Py.setitem (scenario_timers l) index
                          (if (sucess =? 1)%Z then 0%Z else (timer - 1)%Z)
                      else Py.Ok (scenario_timers l) in
                    match timers with
                    | Py.Raise e => (l, events o, Py.Raise e)
                    | Py.Ok timers =>
                        let '(l, evs, r) :=
                          for_enumerate fuel (S index)
                            (mkLists (scenarios l) timers) world
                            ego_vehicle_actor in
                        (l, events o ++ evs, r)
                    end
                end
              else
                let destroyed := destroy scenario in
                match pop (scenarios l) index with
                | Py.Raise e => (l, destroyed, Py.Raise e)
                | Py.Ok remaining =>
                    match pop (scenario_timers l) index with
                    | Py.Raise e =>
                        (mkLists remaining (scenario_timers l), destroyed,
                         Py.Raise e)
                    | Py.Ok timers =>
                        let '(l, evs, r) :=
                          for_enumerate fuel (S index)
                            (mkLists remaining timers) world
                            ego_vehicle_actor in
                        (l, destroyed ++ evs, r)
                    end
                end
          end
      end
  end.

(** One pass of the [for] loop over the whole list. *)
Definition pass (l : Lists) (world : World) (ego_vehicle_actor : Actor)
  : Lists * list Event * Py.res unit :=
  for_enumerate (List.length (scenarios l)) 0 l world ego_vehicle_actor.

(** [for scenario in scenarios: scenario.destroy(client)]. *)
Definition destroy_all (l : list scenario_object) : list Event :=
  flat_map (fun sc => destroy (projT2 sc)) l.

(** The [finally] block, as far as the scenarios are concerned.  Before
    it comes to them it reads [rgb_camera] and [semantic_camera], which
    are assigned only if the flag [--rgbcamera], respectively
    [--semanticcamera], is true (it is by default; an empty string on the
    command line makes it false): with a flag false the name is unbound,
    the block ends there with an [UnboundLocalError] and no scenario is
    destroyed.  The block is not protected itself: [cut] is [Some n] when
    a further interrupt ends it after [n] of the scenarios' events
    ([Some 0] if before the first), [None] when it runs to its end. *)
Definition finally_ (rgbcamera semanticcamera : bool)
    (scenarios : list scenario_object) (cut : option nat) : list Event :=
  if rgbcamera && semanticcamera then
    match cut with
    | None => destroy_all scenarios
    | Some n => firstn n (destroy_all scenarios)
    end
  else [].

(** Where a [KeyboardInterrupt] reaches the loop, after the passes that
    ran to their end: between two passes (in [time.sleep] or
    [world.tick]), or inside the next pass, in the world [world], in its
    round number [rounds] (from 0).  There the call the round makes
    ([tick] or [destroy]) has sent and printed [sent] of its events; for
    a round that destroys, [popped] says that the call has returned and
    [scenarios.pop(index)] is done as well. *)
Inductive Interrupt : Type :=
| between_passes
| within_pass (world : World) (rounds sent : nat) (popped : bool).

(** The pass that is interrupted: what was sent and printed until then,
    and the list [scenarios] as the [finally] block finds it.  [rounds]
    rounds of the [for] loop run to their end; if the loop is over by
    then, or an exception escapes from it, the interrupt comes too late
    to matter.  An interrupted [tick] leaves its object in the list as
    the tick has changed it so far; [destroy] reads the actor list and
    the sensor handle only, which no [tick] assigns, so what the
    [finally] block then sends is what [destroy] sends for the object
    before the tick. *)
Definition interrupted_pass (l : Lists) (world : World)
    (ego_vehicle_actor : Actor) (rounds sent : nat) (popped : bool)
  : list Event * list scenario_object :=
  let '(l, evs, r) := for_enumerate rounds 0 l world ego_vehicle_actor in
  match r with
  | Py.Raise _ => (evs, scenarios l)
  | Py.Ok _ =>
      match nth_error (scenarios l) rounds with
      | None => (evs, scenarios l)
      | Some (existT _ f scenario) =>
          match Py.getitem (scenario_timers l) rounds with
          | Py.Raise _ => (evs, scenarios l)
          | Py.Ok timer =>
              if (timer >? 0)%Z then
                (evs ++ firstn sent
                          (events (tick scenario world ego_vehicle_actor)),
                 scenarios l)
              else if popped then
                (evs ++ destroy scenario,
                 firstn rounds (scenarios l) ++ skipn (S rounds) (scenarios l))
              else (evs ++ firstn sent (destroy scenario), scenarios l)
          end
      end
  end.

(** The main loop and the [finally] block: one pass per world step, until
    the driver is interrupted or an exception escapes; [scenarios] is
    never [None], so the loop does not end by itself.  The result is
    everything the scenarios sent and printed. *)
Fixpoint main_loop (rgbcamera semanticcamera : bool) (l : Lists)
    (ego_vehicle_actor : Actor) (worlds : list World)
    (interrupt : Interrupt) (cut : option nat) : list Event :=
  match worlds with
  | [] =>
      match interrupt with
      | between_passes => finally_ rgbcamera semanticcamera (scenarios l) cut
      | within_pass world rounds sent popped =>
          let '(evs, remaining) :=
            interrupted_pass l world ego_vehicle_actor rounds sent popped in
          evs ++ finally_ rgbcamera semanticcamera remaining cut
      end
  | world :: worlds =>
      let '(l, evs, r) := pass l world ego_vehicle_actor in
      match r with
      | Py.Ok _ =>
          evs ++ main_loop rgbcamera semanticcamera l ego_vehicle_actor
                           worlds interrupt cut
      | Py.Raise _ =>
          evs ++ finally_ rgbcamera semanticcamera (scenarios l) cut
      end
  end.

(** [main] from the main loop on, the list of scenarios built:
    [scenario_timers] is filled with [args.timer] for every scenario. *)
Definition main (rgbcamera semanticcamera : bool)
    (scenarios : list scenario_object) (timer : Z)
    (ego_vehicle_actor : Actor) (worlds : list World)
    (interrupt : Interrupt) (cut : option nat) : list Event :=
  main_loop rgbcamera semanticcamera
            (mkLists scenarios (repeat timer (List.length scenarios)))
            ego_vehicle_actor worlds interrupt cut.

End start_car.

(** The actors the scenario objects of a list own. *)
Definition owned (l : list start_car.scenario_object) : list Actor :=
  flat_map (fun sc => actor_list (projT2 sc)) l.

(** The actor lists of the scenario objects of a list, one by one. *)
Definition actors_of (l : list start_car.scenario_object)
  : list (list Actor) :=
  map (fun sc => actor_list (projT2 sc)) l.

(** [StaticCarCrash_1] as [start_car.py] constructs it. *)
Definition crash_scenario : start_car.scenario_object :=
  start_car.object_of spawn_static_car_crash_1
    (fst (construct spawn_static_car_crash_1 0%nat (Some 0.05))).

(** ** spawn_static_EMS_obstacle.py *)

Module StaticEMSObstacle.

Record t : Type :=
  mk { triggered : bool;
       trigger_points : TriggerPoints;
       trigger_area : TriggerPoints;
       timer : Z;
       actor_list : list Actor;
       collision_detected : bool;
       ambulance_actor : Actor;
       police_actor : Actor;
       firetruck1_actor : Actor;
       firetruck2_actor : Actor;
       firetruck3_actor : Actor;
       collision_sensor : option Actor (* not set before the first sensor *) }.

Definition set_triggered (v : bool) (s : t) : t :=
  mk v (trigger_points s) (trigger_area s) (timer s) (actor_list s)
     (collision_detected s) (ambulance_actor s) (police_actor s)
     (firetruck1_actor s) (firetruck2_actor s) (firetruck3_actor s)
     (collision_sensor s).
Definition set_timer (v : Z) (s : t) : t :=
  mk (triggered s) (trigger_points s) (trigger_area s) v (actor_list s)
     (collision_detected s) (ambulance_actor s) (police_actor s)
     (firetruck1_actor s) (firetruck2_actor s) (firetruck3_actor s)
     (collision_sensor s).
Definition set_collision_detected (v : bool) (s : t) : t :=
  mk (triggered s) (trigger_points s) (trigger_area s) (timer s)
     (actor_list s) v (ambulance_actor s) (police_actor s)
     (firetruck1_actor s) (firetruck2_actor s) (firetruck3_actor s)
     (collision_sensor s).

(** What [__init__] sends: the events of the other classes, and
    [vehicle.set_light_state(carla.VehicleLightState.All)], a light state
    that is not a combination of single lights. *)
Inductive Sent : Type :=
| event (e : Event)
| set_light_state_All (a : Actor).

Fixpoint plain (log : list Sent) : list Event :=
  match log with
  | [] => []
  | event e :: log => e :: plain log
  | set_light_state_All _ :: log => plain log
  end.

(** [for vehicle in self.actor_list[:]: ...]: one collision sensor per
    vehicle, each put at the front of the actor list, each assigned to the
    one attribute [self.collision_sensor]; handles are counted from
    [fresh]. *)
Fixpoint attach_sensors (vehicles : list Actor) (fresh : Actor)
    (actor_list : list Actor) (collision_sensor : option Actor)
  : list Actor * option Actor * list Sent :=
  match vehicles with
  | [] => (actor_list, collision_sensor, [])
  | vehicle :: vehicles =>
      let sensor := fresh in
      let '(actor_list, collision_sensor, evs) :=
        attach_sensors vehicles (S fresh) (Py.insert actor_list 0 sensor)
                       (Some sensor) in
      (actor_list, collision_sensor,
       event (spawn_actor "sensor.other.collision"
                (mkTransform (Loc 0 0 0) (Rot 0 0 0)) (Some vehicle) sensor)
         :: event (sensor_listen sensor)
         :: set_light_state_All vehicle
         :: evs)
  end.

Definition __init__ (fresh : Actor) (trigger_points : option TriggerPoints)
  : t * list Sent :=
  let trigger_points :=
    match trigger_points with
    | Some tp => tp
    | None => ((-43.50, -45.00), (43.50, 42.50))
    end in
  let ambulance_transform :=
    mkTransform (Loc (-29.00) (-8.60) 0.25) (Rot 0 (-2) 60) in
  let police_transform :=
    mkTransform (Loc (-33.20) (-3.40) 0.2) (Rot 0 0 (-110)) in
  let firetruck1_transform :=
    mkTransform (Loc (-22.00) (-12.60) 0.2) (Rot (-2) (-0.5) 110) in
  let firetruck2_transform :=
    mkTransform (Loc (-15.00) (-21.50) 0.2) (Rot 0 (-2) 50) in
  let firetruck3_transform :=
    mkTransform (Loc (-10.20) (-31.10) 0.2) (Rot (-1) 1 120) in
  let ambulance_actor := fresh in
  let police_actor := S fresh in
  let firetruck1_actor := S (S fresh) in
  let firetruck2_actor := S (S (S fresh)) in
  let firetruck3_actor := S (S (S (S fresh))) in
  let actor_list :=
    [ambulance_actor; police_actor; firetruck1_actor; firetruck2_actor;
     firetruck3_actor] in
  let '(actor_list, collision_sensor, sensors) :=
    attach_sensors actor_list (5 + fresh)%nat actor_list None in
  (mk false trigger_points trigger_points 400 actor_list false
      ambulance_actor police_actor firetruck1_actor firetruck2_actor
      firetruck3_actor collision_sensor,
   [event (spawn_actor "vehicle.ford.ambulance" ambulance_transform None
                       ambulance_actor);
    event (spawn_actor "vehicle.dodge.charger_police_2020" police_transform
                       None police_actor);
    event (spawn_actor "vehicle.carlamotors.firetruck" firetruck1_transform
                       None firetruck1_actor);
    event (spawn_actor "vehicle.carlamotors.firetruck" firetruck2_transform
                       None firetruck2_actor);
    event (spawn_actor "vehicle.carlamotors.firetruck" firetruck3_transform
                       None firetruck3_actor)]
     ++ sensors).

(** Called by the simulator when one of the sensors reports a contact;
    [role_name] is [event.other_actor.attributes['role_name']] and
    [location] the text the other actor's location prints as. *)
Definition sensor_callback (self : t) (role_name location : string)
  : t * list Event :=
  if String.eqb role_name "ego" then
    (set_collision_detected true self,
     [print ("Scenario vehicle collided with " ++ role_name
             ++ " vehicle at " ++ location)%string])
  else (self, []).

Definition trigger (self : t) : t * list Event :=
  (set_triggered true self,
   [print "Scenario -EMS Blocking Roundabout and Exit- has been triggered!"]).

Definition msg_collision : string :=
  "Collision with the scenario vehicle detected, scenario failed!".
Definition msg_fail : string := "Ego vehicle failed to complete the scenario!".
Definition msg_pass : string :=
  "Ego vehicle successfully avoided the obstacle, scenario passed!".

Definition tick (self : t) (world : World) (ego_vehicle : Actor)
  : Outcome t :=
  if triggered self then
    if collision_detected self then
      mkOutcome self [print msg_collision] (Py.Ok 1%Z)
    else if is_inside_bounding_box
              (location (get_transform (world ego_vehicle)))
              (fst (trigger_area self)) (snd (trigger_area self)) then
      if (timer self >? 0)%Z then
        mkOutcome (set_timer (timer self - 1)%Z self) [] (Py.Ok 0%Z)
      else mkOutcome self [print msg_fail] (Py.Ok 1%Z)
    else mkOutcome self [print msg_pass] (Py.Ok 1%Z)
  else if is_inside_bounding_box
            (location (get_transform (world ego_vehicle)))
            (fst (trigger_area self)) (snd (trigger_area self)) then
    let (self, evs) := trigger self in
    mkOutcome self evs (Py.Ok 0%Z)
  else mkOutcome self [] (Py.Ok 0%Z).

(** [for sensor in self.actor_list[0:4]: sensor.stop()], then the batch. *)
Definition destroy (self : t) : list Event :=
  map sensor_stop (firstn 4 (actor_list self))
    ++ [print (nl ++ "Scenario -EMS Blocking Roundabout and Exit- finished!")%string;
        print_d "Scenario is destroying " (List.length (actor_list self))
                " actors";
        apply_batch (map DestroyActor (actor_list self))].

End StaticEMSObstacle.

#[export] Instance StaticEMSObstacle_Scenario : Scenario StaticEMSObstacle.t :=
  { tick := StaticEMSObstacle.tick;
    destroy := StaticEMSObstacle.destroy;
    triggered := StaticEMSObstacle.triggered;
    trigger_points := StaticEMSObstacle.trigger_points;
    trigger_area := StaticEMSObstacle.trigger_area;
    actor_list := StaticEMSObstacle.actor_list }.

(** The sensors a log stops, in order. *)
Fixpoint stopped (log : list Event) : list Actor :=
  match log with
  | [] => []
  | sensor_stop a :: log => a :: stopped log
  | _ :: log => stopped log
  end.

(** The plain events of what [StaticEMSObstacle.__init__] sends, and
    whether an item of it starts a sensor listening. *)
Definition plain_events (new : StaticEMSObstacle.t * list StaticEMSObstacle.Sent)
  : list Event :=
  StaticEMSObstacle.plain (snd new).

Definition is_listen (e : StaticEMSObstacle.Sent) : bool :=
  match e with
  | StaticEMSObstacle.event (sensor_listen _) => true
  | _ => false
  end.

(** ** spawn_unpredicatable_pedestrian-Fix.py (class [EmergencyPlane]) *)

Module EmergencyPlane.

Record t : Type :=
  mk { triggered : bool;
       trigger_points : TriggerPoints;
       trigger_area : TriggerPoints;
       timer : Z;
       actor_list : list Actor;
       checkpoint : bool;
       cirrus_body_actor : Actor;
       cirrus_prop_actor : Actor }.

Definition set_triggered (v : bool) (s : t) : t :=
  mk v (trigger_points s) (trigger_area s) (timer s) (actor_list s)
     (checkpoint s) (cirrus_body_actor s) (cirrus_prop_actor s).
Definition set_trigger_area (v : TriggerPoints) (s : t) : t :=
  mk (triggered s) (trigger_points s) v (timer s) (actor_list s)
     (checkpoint s) (cirrus_body_actor s) (cirrus_prop_actor s).
Definition set_timer (v : Z) (s : t) : t :=
  mk (triggered s) (trigger_points s) (trigger_area s) v (actor_list s)
     (checkpoint s) (cirrus_body_actor s) (cirrus_prop_actor s).

Definition __init__ (fresh : Actor) : t * list Event :=
  let trigger_points := ((-42.50, 201.00), (-43.50, 209.50)) in
  let cirrus_body_transform :=
    mkTransform (Loc 209.50 205.30 25.00) (Rot 0 0 180) in
  let cirrus_prop_transform := mkTransform (Loc 4.11 0.00 0.29) (Rot 10 0 0) in
  let cirrus_body_actor := fresh in
  let cirrus_prop_actor := S fresh in
  (mk false trigger_points trigger_points 100
      [cirrus_body_actor; cirrus_prop_actor] false
      cirrus_body_actor cirrus_prop_actor,
   [spawn_actor "static.prop.cirrus_body" cirrus_body_transform None
                cirrus_body_actor;
    spawn_actor "static.prop.cirrus_prop" cirrus_prop_transform
                (Some cirrus_body_actor) cirrus_prop_actor;
    set_simulate_physics cirrus_body_actor false;
    set_simulate_physics cirrus_prop_actor false]).

Definition trigger (self : t) : t * list Event :=
  (set_triggered true self,
   [print "Scenario -Emergency Plane Landing- has been triggered!"]).

Definition msg_pass : string :=
  "The plane has landed safely, scenario passed!".

(** The propeller, turned on by 18 degrees; its transform is relative to
    the body it is attached to. *)
Definition spin (current_rotation : R) : Transform :=
  mkTransform (Loc 4.11 0.00 0.29) (Rot (current_rotation + 18) 0 0).

Definition tick (self : t) (world : World) (ego_vehicle : Actor)
  : Outcome t :=
  if triggered self then
    let current_rotation :=
      roll (rotation (get_transform (world (cirrus_prop_actor self)))) in
    let spun := set_transform (cirrus_prop_actor self) (spin current_rotation) in
    let current_location :=
      location (get_transform (world (cirrus_body_actor self))) in
    if Py.gt (z current_location) 2.80 then
      mkOutcome self
        [spun;
         set_transform (cirrus_body_actor self)
           (mkTransform (Loc (x current_location - 1.00) (y current_location)
                             (z current_location - 0.30))
                        (Rot 0 0 180))]
        (Py.Ok 0%Z)
    else if (timer self >? 0)%Z then
      let self := set_timer (timer self - 1)%Z self in
      mkOutcome self
        [spun;
         set_transform (cirrus_body_actor self)
           (mkTransform (Loc (x current_location - IZR (timer self) / 100)
                             (y current_location) (z current_location))
                        (Rot 0 0 180))]
        (Py.Ok 0%Z)
    else mkOutcome self [spun; print msg_pass] (Py.Ok 1%Z)
  else if is_inside_bounding_box
            (location (get_transform (world ego_vehicle)))
            (fst (trigger_points self)) (snd (trigger_points self)) then
    let (self, evs) := trigger self in
    mkOutcome self evs (Py.Ok 0%Z)
  else
    mkOutcome
      (set_trigger_area
         (update_trigger_points (trigger_points self)
            (get_vehicle_speed (world ego_vehicle)) false true) self)
      [] (Py.Ok 0%Z).

Definition destroy (self : t) : list Event :=
  [print (nl ++ "Scenario -Emergency Plane Landing- finished!")%string;
   print_d "Scenario is destroying " (List.length (actor_list self)) " actors";
   apply_batch (map DestroyActor (actor_list self))].

End EmergencyPlane.

#[export] Instance EmergencyPlane_Scenario : Scenario EmergencyPlane.t :=
  { tick := EmergencyPlane.tick;
    destroy := EmergencyPlane.destroy;
    triggered := EmergencyPlane.triggered;
    trigger_points := EmergencyPlane.trigger_points;
    trigger_area := EmergencyPlane.trigger_area;
    actor_list := EmergencyPlane.actor_list }.

(** The transform a log leaves actor [a] with, if it sets one (the last
    [set_transform] counts). *)
Fixpoint commanded (a : Actor) (log : list Event) : option Transform :=
  match log with
  | [] => None
  | e :: log =>
      match commanded a log with
      | Some t => Some t
      | None =>
          match e with
          | set_transform b t => if Nat.eqb a b then Some t else None
          | _ => None
          end
      end
  end.

(** How far towards lower x a tick moves actor [a] from where [world]
    has it. *)
Definition rolled (a : Actor) (world : World) (o : Outcome EmergencyPlane.t)
  : R :=
  match commanded a (events o) with
  | Some t => x (location (get_transform (world a))) - x (location t)
  | None => 0
  end.

(** ** weather_control.py *)

Module weather_control.

(** The attributes of [carla.WeatherParameters] the script reads and
    writes. *)
Record WeatherParameters : Type :=
  mkWeatherParameters
    { sun_azimuth_angle : R;
      sun_altitude_angle : R;
      cloudiness : R;
      precipitation : R;
      precipitation_deposits : R;
      wind_intensity : R;
      fog_density : R;
      wetness : R }.

(** A sun state is (altitude, azimuth); a storm state is (clouds, rain,
    puddles, wetness, fog, wind). *)
Definition Sun : Type := (R * R)%type.
Definition Storm : Type := (R * R * R * R * R * R)%type.

Definition sun_states : list Sun :=
  [(45.0, 240.0);   (* Noon *)
   (2.0, 268.0);    (* Sunset *)
   (-88.0, 320.0);  (* Night *)
   (1.05, 28.28);   (* Sunrise *)
   (0.01, 110.0)].  (* Almost night, no streetlights *)

Definition storm_states : list Storm :=
  [(0.0, 0.0, 0.0, 0.0, 0.0, 5.0);              (* Clear *)
   (90.0, 80.0, 85.0, 100.0, 30.0, 90.0);       (* Storm *)
   (80.0, 10.0, 5.0, 50.0, 60.0, 10.0);         (* Foggy *)
   (100.0, 100.0, 100.0, 100.0, 100.0, 100.0)]. (* worst conditions *)

(** [round(v, 2)]: the nearest multiple of 0.01, a tie going to the even
    one. *)
Definition round_half_even (v : R) : Z :=
  let floor := Int_part v in
  let rest := frac_part v in
  if Rlt_dec rest (1 / 2) then floor
  else if Rlt_dec (1 / 2) rest then (floor + 1)%Z
  else if Z.even floor then floor else (floor + 1)%Z.

Definition round2 (v : R) : R := IZR (round_half_even (v * 100)) / 100.

(** *** class Weather *)

Definition set_weather_sun (altitude_angle azimuth_angle : R)
    (weather : WeatherParameters) : WeatherParameters :=
  mkWeatherParameters azimuth_angle altitude_angle (cloudiness weather)
    (precipitation weather) (precipitation_deposits weather)
    (wind_intensity weather) (fog_density weather) (wetness weather).

Definition set_weather_storm (clouds rain puddles wetness fog wind : R)
    (weather : WeatherParameters) : WeatherParameters :=
  mkWeatherParameters (sun_azimuth_angle weather) (sun_altitude_angle weather)
    clouds rain puddles wind fog wetness.

Definition get_weather_sun (weather : WeatherParameters) : Sun :=
  (round2 (sun_altitude_angle weather), round2 (sun_azimuth_angle weather)).

Definition get_weather_storm (weather : WeatherParameters) : Storm :=
  (cloudiness weather, precipitation weather, precipitation_deposits weather,
   wetness weather, fog_density weather, wind_intensity weather).

(** *** world_change_weather *)

(** [==] on tuples of floats, and [in] on lists of them. *)
Definition sun_eq (a b : Sun) : bool :=
  Py.eq (fst a) (fst b) && Py.eq (snd a) (snd b).

Definition storm_eq (a b : Storm) : bool :=
  let '(a0, a1, a2, a3, a4, a5) := a in
  let '(b0, b1, b2, b3, b4, b5) := b in
  Py.eq a0 b0 && Py.eq a1 b1 && Py.eq a2 b2 && Py.eq a3 b3 && Py.eq a4 b4
  && Py.eq a5 b5.

Definition contains {A : Type} (eq : A -> A -> bool) (l : list A) (v : A)
  : bool :=
  existsb (eq v) l.

Definition set_sun (sun : Sun) : WeatherParameters -> WeatherParameters :=
  set_weather_sun (fst sun) (snd sun).

Definition set_storm (storm : Storm)
  : WeatherParameters -> WeatherParameters :=
  let '(clouds, rain, puddles, wetness, fog, wind) := storm in
  set_weather_storm clouds rain puddles wetness fog wind.

Section change.

Variables (weather : WeatherParameters)
          (sun_states : list Sun) (storm_states : list Storm).

(** The inner loop, from the item at [index_storm] on: the weather it
    sets before it returns, [None] if it ends without a match. *)
Fixpoint each_storm (index_sun index_storm : nat) (storms : list Storm)
  : Py.res (option WeatherParameters) :=
  match storms with
  | [] => Py.Ok None
  | storm :: storms =>
      if storm_eq (get_weather_storm weather) storm then
        if (index_storm =? List.length storm_states - 1)%nat then
          next_storm <- Py.getitem storm_states 0 ;;
          next_sun <-
            (if (index_sun =? List.length sun_states - 1)%nat
             then Py.getitem sun_states 0
             else Py.getitem sun_states (index_sun + 1)) ;;
          Py.Ok (Some (set_storm next_storm (set_sun next_sun weather)))
        else
          next_storm <- Py.getitem storm_states (index_storm + 1) ;;
          Py.Ok (Some (set_storm next_storm weather))
      else each_storm index_sun (S index_storm) storms
  end.

(** The outer loop, from the item at [index_sun] on. *)
Fixpoint each_sun (index_sun : nat) (suns : list Sun)
  : Py.res (option WeatherParameters) :=
  match suns with
  | [] => Py.Ok None
  | sun :: suns =>
      if sun_eq (get_weather_sun weather) sun then
        match each_storm index_sun 0 storm_states with
        | Py.Ok None => each_sun (S index_sun) suns
        | done => done
        end
      else each_sun (S index_sun) suns
  end.

(** [world_change_weather(world, sun_states, storm_states)], [weather]
    being [world.get_weather()]: the weather it hands to
    [world.set_weather] and prints, [None] if it returns without setting
    one. *)
Definition world_change_weather : Py.res (option WeatherParameters) :=
  let current_sun := get_weather_sun weather in
  let current_storm := get_weather_storm weather in
  if negb (contains sun_eq sun_states current_sun)
     || negb (contains storm_eq storm_states current_storm) then
    sun <- Py.getitem sun_states 0 ;;
    storm <- Py.getitem storm_states 0 ;;
    Py.Ok (Some (set_storm storm (set_sun sun weather)))
  else each_sun 0 sun_states.

End change.

(** The weather of the world after [main], which calls
    [world_change_weather(world)] once, with the lists above. *)
Definition main (weather : WeatherParameters) : WeatherParameters :=
  match world_change_weather weather sun_states storm_states with
  | Py.Ok (Some next) => next
  | _ => weather
  end.

(** The weather with the sun of [sun_states[i]] and the storm of
    [storm_states[j]]. *)
Definition listed (i j : nat) : WeatherParameters :=
  set_storm (nth j storm_states (0, 0, 0, 0, 0, 0))
    (set_sun (nth i sun_states (0, 0))
             (mkWeatherParameters 0 0 0 0 0 0 0 0)).

End weather_control.

(** The weather [world_change_weather] sets when the current sun is
    first listed at [i] and the current storm first listed at [j]. *)
Definition following (weather : weather_control.WeatherParameters)
    (suns : list weather_control.Sun) (storms : list weather_control.Storm)
    (i j : nat) : weather_control.WeatherParameters :=
  if (j =? List.length storms - 1)%nat
  then weather_control.set_storm (nth 0 storms (0, 0, 0, 0, 0, 0))
         (weather_control.set_sun
            (nth (if (i =? List.length suns - 1)%nat then 0 else i + 1)%nat
                 suns (0, 0))
            weather)
  else weather_control.set_storm (nth (j + 1) storms (0, 0, 0, 0, 0, 0))
         weather.

(** * Properties *)

(** ** Evaluating comparisons *)

Lemma lt_spec (a b : R) : Py.lt a b = true <-> a < b.
Proof. unfold Py.lt; destruct (Rlt_dec a b); split; intros; try easy. Qed.

Lemma gt_spec (a b : R) : Py.gt a b = true <-> a > b.
Proof. unfold Py.gt; destruct (Rgt_dec a b); split; intros; try easy. Qed.

Lemma le_spec (a b : R) : Py.le a b = true <-> a <= b.
Proof. unfold Py.le; destruct (Rle_dec a b); split; intros; try easy. Qed.

Lemma ge_spec (a b : R) : Py.ge a b = true <-> a >= b.
Proof. unfold Py.ge; destruct (Rge_dec a b); split; intros; try easy. Qed.

Lemma eq_spec (a b : R) : Py.eq a b = true <-> a = b.
Proof. unfold Py.eq; destruct (Req_dec_T a b); split; intros; try easy. Qed.


Lemma truediv_ok (a b : R) : b <> 0 -> Py.truediv a b = Py.Ok (a / b).
Proof. intros Hb; unfold Py.truediv; destruct (Req_dec_T b 0); easy. Qed.

Lemma truediv_zero (a : R) : Py.truediv a 0 = Py.Raise Py.ZeroDivisionError.
Proof. unfold Py.truediv; destruct (Req_dec_T 0 0); easy. Qed.

(** Decide every comparison of concrete reals that occurs in the goal. *)
Ltac decide_reals :=
  repeat match goal with
  | |- context [Rmin ?a ?b] =>
      first [rewrite (Rmin_left a b) by lra | rewrite (Rmin_right a b) by lra]
  | |- context [Rmax ?a ?b] =>
      first [rewrite (Rmax_left a b) by lra | rewrite (Rmax_right a b) by lra]
  end;
  repeat match goal with
  | |- context [Rabs ?a] =>
      first [rewrite (Rabs_right a) by lra | rewrite (Rabs_left a) by lra]
  end;
  unfold Py.lt, Py.gt, Py.le, Py.ge, Py.ne, Py.eq, Py.truediv;
  repeat match goal with
  | |- context [Rlt_dec ?a ?b] => destruct (Rlt_dec a b); try lra
  | |- context [Rgt_dec ?a ?b] => destruct (Rgt_dec a b); try lra
  | |- context [Rle_dec ?a ?b] => destruct (Rle_dec a b); try lra
  | |- context [Rge_dec ?a ?b] => destruct (Rge_dec a b); try lra
  | |- context [Req_dec_T ?a ?b] => destruct (Req_dec_T a b); try lra
  end.

Lemma norm_nonneg (v : Vector3D) : 0 <= norm v.
Proof. unfold norm, Py.pow_half; apply sqrt_pos. Qed.

Lemma norm_along_x (v : R) : 0 <= v -> norm (mkVector3D v 0 0) = v.
Proof.
  intros Hv; unfold norm, Py.pow_half, Py.pow2; simpl.
  replace (v * v + 0 * 0 + 0 * 0) with (v * v) by lra.
  now apply sqrt_square.
Qed.

(** ** The intercept velocity solver *)





Lemma calculate_required_speed_zero_path
    (car : Location) (vel : Vector3D) (ped : Location) (dir : Vector3D) :
  ~ norm vel < 0.1 -> spec_path_offset car ped dir = 0 ->
  calculate_required_speed car vel ped dir = Py.Raise Py.ZeroDivisionError.
Proof.
  intros Hs Hp.
  assert (Hspeed : norm vel <> 0) by lra.
  unfold calculate_required_speed, spec_path_offset in *.
  destruct (Py.lt (norm vel) 0.1) eqn:Hlt;
    [apply lt_spec in Hlt; contradiction |].
  destruct (Py.ne (x dir) 0); rewrite Hp, (truediv_ok _ _ Hspeed); simpl;
    unfold Rdiv; rewrite Rmult_0_l; apply truediv_zero.
Qed.

(** C10, on the code.  With the car at (0,0,0) moving at (5,0,0) and the
    pedestrian at (0,5,0) heading (0,-1,0), [calculate_required_speed]
    raises [ZeroDivisionError]; and so does the pursuit tick of
    [BoyFootball] when the ego vehicle's bumper is level with the
    pedestrian. *)
Theorem calculate_required_speed_divides_by_zero :
  calculate_required_speed (Loc 0 0 0) (mkVector3D 5 0 0) (Loc 0 5 0)
                           (mkVector3D 0 (-1) 0)
  = Py.Raise Py.ZeroDivisionError
  /\ returned (BoyFootball.tick boy_triggered bumper_level_with_boy ego)
     = Py.Raise Py.ZeroDivisionError.
Proof.
  split.
  - apply calculate_required_speed_zero_path.
    + rewrite norm_along_x by lra. lra.
    + unfold spec_path_offset; simpl. decide_reals; simpl.
      lra.
  - unfold BoyFootball.tick, get_location, boy_triggered,
      bumper_level_with_boy, with_actor, ego; simpl.
    assert (H1 : Py.eq 80 0.0 = false) by (decide_reals; reflexivity).
    assert (H2 : Py.gt 143.4 136.00 = true) by (decide_reals; reflexivity).
    rewrite H1, H2. simpl.
    unfold adjust_pedestrian_velocity, adjust_car_location; simpl.
    rewrite calculate_required_speed_zero_path.
    + reflexivity.
    + rewrite norm_along_x by lra. lra.
    + unfold spec_path_offset; simpl. decide_reals; simpl.
      lra.
Qed.




(** ** Released actors *)

Lemma released_app (l1 l2 : list Event) :
  released (l1 ++ l2) = released l1 ++ released l2.
Proof.
  induction l1 as [| e l1 IH]; [reflexivity |].
  destruct e; simpl; rewrite ?IH, ?app_assoc; reflexivity.
Qed.

Lemma released_map_DestroyActor (actors : list Actor) :
  map (fun c => match c with DestroyActor a => a end)
      (map DestroyActor actors) = actors.
Proof. induction actors; simpl; congruence. Qed.

(** ** Going through the branches of [tick] *)

Ltac split_branches :=
  repeat (simpl;
          match goal with
          | |- context [if ?b then _ else _] => destruct b eqn:?
          | |- context [match ?m with Py.Ok _ => _ | Py.Raise _ => _ end] =>
              destruct m eqn:?
          | |- context [let (_, _) := ?p in _] => destruct p eqn:?
          end).

(** Case analysis on the outcome of a call, outermost test first. *)
Ltac outcome_branches :=
  repeat (lazy beta iota zeta;
          match goal with
          | |- _ (if ?b then _ else _) => destruct b eqn:?
          | |- _ (match ?m with Py.Ok _ => _ | Py.Raise _ => _ end) =>
              destruct m eqn:?
          | |- _ (let (_, _) := ?p in _) => destruct p eqn:?
          end).

Ltac unfold_tick :=
  unfold tick; simpl;
  unfold SquirrelRunningAcrossTheRoad.tick, StaticCarCrash_1.tick,
    BoyFootball.tick, ParkingHGV.tick, DangerousExcavator.tick,
    LooseZooAnimals.tick, CarForwardParkingAndReverseNoHarm.tick,
    CarForwardStoppingDropoff.tick, try_.

(** ** The trigger area on idle ticks *)

Lemma update_trigger_points_translates
    (tp : TriggerPoints) (s : R) (add along_x : bool) :
  update_trigger_points tp s add along_x = spec_translate tp s add along_x.
Proof.
  destruct tp as [[x0 y0] [x1 y1]].
  unfold update_trigger_points, spec_translate.
  destruct add, along_x; simpl; repeat f_equal; lra.
Qed.

Ltac eval_inside :=
  unfold is_inside_bounding_box; simpl; decide_reals; simpl.

Lemma BoyFootball_tick_idle_outside
    (self : BoyFootball.t) (world : World) (ego_vehicle : Actor) :
  BoyFootball.triggered self = false ->
  is_inside_bounding_box (location (get_transform (world ego_vehicle)))
    (fst (BoyFootball.trigger_area self)) (snd (BoyFootball.trigger_area self))
  = false ->
  BoyFootball.tick self world ego_vehicle
  = mkOutcome
      (BoyFootball.set_trigger_area
         (update_trigger_points (BoyFootball.trigger_points self)
            (get_vehicle_speed (world ego_vehicle)) false true) self)
      [] (Py.Ok 0%Z).
Proof. intros Htr Hout. unfold BoyFootball.tick. now rewrite Htr, Hout. Qed.

(** C5, as stated, fails.  [BoyFootball], just constructed, with the ego
    vehicle outside the trigger area and driving at 10 m/s, tick length
    0.05 s: the next trigger area is not the current one moved by
    10 * 0.05; and a second such tick leaves the area where the first
    put it. *)
Lemma idle_tick_does_not_translate_by_speed_times_dt :
  let w := with_actor ego (actor_at (Loc 0 0 0) (mkVector3D 10 0 0)) at_rest in
  let s0 := fst (BoyFootball.__init__ 0%nat None) in
  let s1 := self' (BoyFootball.tick s0 w ego) in
  let s2 := self' (BoyFootball.tick s1 w ego) in
  BoyFootball.triggered s1 = false
  /\ BoyFootball.trigger_area s1
     <> spec_translate (BoyFootball.trigger_area s0) (10 * 0.05) false true
  /\ BoyFootball.triggered s2 = false
  /\ BoyFootball.trigger_area s2 = BoyFootball.trigger_area s1.
Proof.
  intros w s0 s1 s2.
  assert (Hspeed : get_vehicle_speed (w ego) = 10).
  { unfold get_vehicle_speed; simpl. apply norm_along_x. lra. }
  assert (E1 : BoyFootball.tick s0 w ego
               = mkOutcome
                   (BoyFootball.set_trigger_area
                      (update_trigger_points (BoyFootball.trigger_points s0)
                                             10 false true) s0)
                   [] (Py.Ok 0%Z)).
  { rewrite <- Hspeed. apply BoyFootball_tick_idle_outside.
    - reflexivity.
    - simpl. eval_inside; reflexivity. }
  assert (E2 : BoyFootball.tick s1 w ego
               = mkOutcome
                   (BoyFootball.set_trigger_area
                      (update_trigger_points (BoyFootball.trigger_points s1)
                                             10 false true) s1)
                   [] (Py.Ok 0%Z)).
  { rewrite <- Hspeed. apply BoyFootball_tick_idle_outside.
    - unfold s1. rewrite E1. reflexivity.
    - unfold s1. rewrite E1. simpl. eval_inside; reflexivity. }
  unfold s2. rewrite E2. unfold s1. rewrite E1. simpl.
  repeat split.
  intros H. injection H as Hx _. lra.
Qed.

(** C5, amended.  On an idle tick with the ego vehicle outside the current
    trigger area, the scenario stays idle.  In the scenarios that call
    [update_trigger_points], the area used on the next tick is the
    scenario's original trigger points shifted by exactly the ego speed
    (not the speed times the tick length) along the configured axis and
    sign; it is computed from the original points each time, which stay
    as they are.  [StaticCarCrash_1], [ParkingHGV] and
    [CarForwardParkingAndReverseNoHarm] leave the area alone.  Nothing is
    stated here about the area of [CarForwardStoppingDropoff], whose idle
    tick writes into the list that its trigger points share. *)
Theorem idle_tick_translates_original_points_by_speed
    (f : scenario_file) (self : class_of f) (world : World)
    (ego_vehicle : Actor) :
  triggered self = false ->
  is_inside_bounding_box (location (get_transform (world ego_vehicle)))
                         (fst (trigger_area self)) (snd (trigger_area self))
  = false ->
  let next := self' (tick self world ego_vehicle) in
  let s := get_vehicle_speed (world ego_vehicle) in
  triggered next = false
  /\ 0 <= s
  /\ match configured_translation f with
     | whole_area add along_x =>
         trigger_points next = trigger_points self
         /\ trigger_area next
            = spec_translate (trigger_points self) s add along_x
     | first_corner _ _ => True
     | static =>
         trigger_points next = trigger_points self
         /\ trigger_area next = trigger_area self
     end.
Proof.
  intros Htr Hout next s.
  assert (Hs : 0 <= s) by apply norm_nonneg.
  destruct f; simpl in *; subst next s; unfold_tick;
    rewrite Htr, Hout; simpl;
    rewrite <- ?update_trigger_points_translates; auto.
Qed.

Lemma idle_tick_translates_original_points_by_speed_witness :
  let w := with_actor ego (actor_at (Loc 0 0 0) (mkVector3D 10 0 0)) at_rest in
  let s0 := fst (construct spawn_ball_boy 0%nat (Some 0.05)) in
  trigger_area (self' (tick s0 w ego))
  = spec_translate (trigger_points s0) (get_vehicle_speed (w ego)) false true.
Proof.
  intros w s0.
  apply (idle_tick_translates_original_points_by_speed spawn_ball_boy s0 w ego).
  - reflexivity.
  - simpl. unfold w, with_actor. simpl. eval_inside; reflexivity.
Defined.

(** ** Triggering *)

(** The checkpoint branch of [ParkingHGV.tick] touches nothing but the
    checkpoints, and releases no actor. *)
Lemma advance_changes_checkpoints_only (self : ParkingHGV.t) (l : Location) :
  exists cp,
    fst (fst (ParkingHGV.advance self l)) = ParkingHGV.set_checkpoint cp self
    /\ released (snd (fst (ParkingHGV.advance self l))) = [].
Proof.
  assert (Hsame : self = ParkingHGV.set_checkpoint (ParkingHGV.checkpoint self)
                           self) by now destruct self.
  unfold ParkingHGV.advance, ParkingHGV.reach.
  split_branches;
    first [ eexists; split; reflexivity
          | exists (ParkingHGV.checkpoint self); split;
            [exact Hsame | reflexivity] ].
Qed.

Ltac frame_parts :=
  constructor; simpl;
  [ rewrite ?released_app; simpl; rewrite ?app_nil_r;
    first [reflexivity | assumption]
  | reflexivity
  | first [ left; reflexivity | right; left; reflexivity
          | right; right; eexists; reflexivity ]
  | intros; first [ discriminate | repeat split; congruence ]
  | intros; first [ reflexivity | congruence ] ].

Ltac frame_leaf :=
  lazy beta iota zeta;
  repeat match goal with
         | |- context [if ?b then _ else _] => destruct b
         end;
  try match goal with
      | H : ParkingHGV.advance ?s ?l = _ |- _ =>
          destruct (advance_changes_checkpoints_only s l) as (cp & Hcp & Hrel);
          rewrite H in Hcp, Hrel; simpl in Hcp, Hrel; subst
      end;
  frame_parts.

Ltac frame_branches :=
  repeat (lazy beta iota zeta;
          match goal with
          | |- tick_frame _ (if ?b then _ else _) => destruct b eqn:?
          | |- tick_frame _ (match ?m with Py.Ok _ => _ | Py.Raise _ => _ end)
            => destruct m eqn:?
          | |- tick_frame _ (let (_, _) := ?p in _) => destruct p eqn:?
          end).

Lemma tick_has_frame
    (f : scenario_file) (self : class_of f) (world : World)
    (ego_vehicle : Actor) :
  tick_frame self (tick self world ego_vehicle).
Proof.
  destruct f; simpl in *;
    unfold SquirrelRunningAcrossTheRoad.tick, StaticCarCrash_1.tick,
      BoyFootball.tick, ParkingHGV.tick, DangerousExcavator.tick,
      LooseZooAnimals.tick, CarForwardParkingAndReverseNoHarm.tick,
      CarForwardStoppingDropoff.tick,
      CarForwardParkingAndReverseNoHarm.reach,
      CarForwardParkingAndReverseNoHarm.wait,
      CarForwardParkingAndReverseNoHarm.count_down,
      CarForwardStoppingDropoff.reach, CarForwardStoppingDropoff.wait,
      CarForwardStoppingDropoff.count_down,
      SquirrelRunningAcrossTheRoad.trigger, StaticCarCrash_1.trigger,
      BoyFootball.trigger, ParkingHGV.trigger, DangerousExcavator.trigger,
      LooseZooAnimals.trigger, CarForwardParkingAndReverseNoHarm.trigger,
      CarForwardStoppingDropoff.trigger, try_;
    frame_branches; frame_leaf.
Qed.

(** A triggered scenario stays triggered, and its trigger area and
    trigger points stay as they are. *)
Lemma tick_keeps_triggered
    (f : scenario_file) (self : class_of f) (world : World)
    (ego_vehicle : Actor) :
  triggered self = true ->
  triggered (self' (tick self world ego_vehicle)) = true
  /\ trigger_area (self' (tick self world ego_vehicle)) = trigger_area self
  /\ trigger_points (self' (tick self world ego_vehicle))
     = trigger_points self.
Proof. now destruct (tick_has_frame f self world ego_vehicle). Qed.

Lemma states_cons {S : Type} `{Scenario S}
    (self : S) (ego_vehicle : Actor) (world : World) (worlds : list World) :
  states self ego_vehicle (world :: worlds)
  = self :: states (self' (tick self world ego_vehicle)) ego_vehicle worlds.
Proof. reflexivity. Qed.

Lemma states_keep_triggered
    (f : scenario_file) (ego_vehicle : Actor) (worlds : list World) :
  forall self : class_of f,
    triggered self = true ->
    Forall (fun s => triggered s = true /\ trigger_area s = trigger_area self)
           (states self ego_vehicle worlds).
Proof.
  induction worlds as [| world worlds IH]; intros self Htr.
  - constructor; auto.
  - rewrite states_cons. constructor; [auto |].
    destruct (tick_keeps_triggered f self world ego_vehicle Htr)
      as (Htr' & Harea & _).
    specialize (IH _ Htr').
    eapply Forall_impl; [| exact IH].
    simpl. intros s [Hs Ha]. split; [exact Hs | congruence].
Qed.

Lemma rising_edges_all_true (flags : list bool) :
  Forall (fun b => b = true) flags -> rising_edges flags = 0%nat.
Proof.
  induction 1 as [| b flags Hb Hall IH]; [reflexivity |].
  destruct flags as [| c rest]; [reflexivity |].
  simpl in *. subst b. simpl. exact IH.
Qed.

Lemma rising_edges_cons2 (a b : bool) (rest : list bool) :
  rising_edges (a :: b :: rest)
  = ((if negb a && b then 1 else 0) + rising_edges (b :: rest))%nat.
Proof. reflexivity. Qed.

Lemma states_triggered_no_edge
    (f : scenario_file) (self : class_of f) (ego_vehicle : Actor)
    (worlds : list World) :
  triggered self = true ->
  rising_edges (map triggered (states self ego_vehicle worlds)) = 0%nat.
Proof.
  intros Htr. apply rising_edges_all_true, Forall_map.
  eapply Forall_impl; [| apply states_keep_triggered; exact Htr].
  simpl. now intros s [Hs _].
Qed.

(** C2. Along every sequence of ticks, from any scenario object, the flag
    [triggered] goes from false to true at most once; and from a
    triggered object on, every later object is triggered and has the
    same trigger area. *)
Theorem triggered_at_most_once_and_area_frozen
    (f : scenario_file) (self : class_of f) (ego_vehicle : Actor)
    (worlds : list World) :
  (rising_edges (map triggered (states self ego_vehicle worlds)) <= 1)%nat
  /\ (triggered self = true ->
      Forall (fun s => triggered s = true
                       /\ trigger_area s = trigger_area self)
             (states self ego_vehicle worlds)).
Proof.
  split; [| apply states_keep_triggered].
  revert self.
  induction worlds as [| world worlds IH]; intros self.
  - simpl. lia.
  - destruct (triggered self) eqn:Htr.
    + rewrite states_triggered_no_edge by exact Htr. lia.
    + rewrite states_cons.
      set (s1 := self' (tick self world ego_vehicle)).
      specialize (IH s1).
      pose proof (states_triggered_no_edge f s1 ego_vehicle worlds) as Hno.
      assert (E : map triggered (self :: states s1 ego_vehicle worlds)
                  = triggered self :: triggered s1
                      :: map triggered (map self' (ticks s1 ego_vehicle worlds)))
        by reflexivity.
      assert (E1 : map triggered (states s1 ego_vehicle worlds)
                   = triggered s1
                       :: map triggered (map self' (ticks s1 ego_vehicle worlds)))
        by reflexivity.
      rewrite E, rising_edges_cons2, Htr. rewrite E1 in IH, Hno.
      destruct (triggered s1).
      * rewrite Hno by reflexivity. simpl. lia.
      * cbn [negb andb]. lia.
Qed.

Lemma triggered_at_most_once_and_area_frozen_witness :
  let w := with_actor ego (actor_at (Loc 104 133 0) (mkVector3D 3 0 0)) at_rest in
  let s0 := fst (construct spawn_squirrel_running_across 0%nat (Some 0.05)) in
  let s1 := self' (tick s0 w ego) in
  Forall (fun s => triggered s = true /\ trigger_area s = trigger_area s1)
         (states s1 ego [w; w]).
Proof.
  intros w s0 s1.
  apply (triggered_at_most_once_and_area_frozen
           spawn_squirrel_running_across s1 ego [w; w]).
  unfold s1. simpl. unfold SquirrelRunningAcrossTheRoad.tick. simpl.
  assert (Hin : is_inside_bounding_box (Loc 104 133 0) (103.10, 131.40)
                                       (105.30, 135.00) = true)
    by (eval_inside; reflexivity).
  rewrite Hin. reflexivity.
Defined.

(** ** Return codes *)

Lemma tick_idle_returns_0
    (f : scenario_file) (self : class_of f) (world : World)
    (ego_vehicle : Actor) :
  triggered self = false ->
  returned (tick self world ego_vehicle) = Py.Ok 0%Z.
Proof. now destruct (tick_has_frame f self world ego_vehicle). Qed.

Lemma tick_returns_0_or_1
    (f : scenario_file) (self : class_of f) (world : World)
    (ego_vehicle : Actor) :
  returned (tick self world ego_vehicle) = Py.Ok 0%Z
  \/ returned (tick self world ego_vehicle) = Py.Ok 1%Z
  \/ exists e, returned (tick self world ego_vehicle) = Py.Raise e.
Proof. now destruct (tick_has_frame f self world ego_vehicle). Qed.

Lemma StaticCarCrash_1_inside_tunnel_exit :
  is_inside_bounding_box (Loc 230 (-50) 0) (220.80, -86.50) (238.30, 1.60)
  = true.
Proof. eval_inside; reflexivity. Qed.

Lemma StaticCarCrash_1_outside_at_origin :
  is_inside_bounding_box (Loc 0 0 0) (220.80, -86.50) (238.30, 1.60) = false.
Proof. eval_inside; reflexivity. Qed.

(** C1, as stated, fails.  [StaticCarCrash_1], just constructed: the ego
    vehicle enters the trigger area, then is outside of it on the next two
    ticks; [tick] returns 0, 1 and 1 again. *)
Lemma tick_returns_1_again_after_completion :
  map returned
      (ticks (fst (StaticCarCrash_1.__init__ 0%nat None)) ego
             [in_tunnel_exit; at_rest; at_rest])
  = [Py.Ok 0%Z; Py.Ok 1%Z; Py.Ok 1%Z].
Proof.
  simpl. unfold StaticCarCrash_1.tick. simpl.
  unfold in_tunnel_exit, with_actor, at_rest. simpl.
  repeat (rewrite ?StaticCarCrash_1_inside_tunnel_exit,
                  ?StaticCarCrash_1_outside_at_origin; simpl).
  reflexivity.
Qed.

(** Once [tick] has returned 1 the driver calls it no more. *)
Lemma main_loop_done {S : Type} `{Scenario S}
    (new : S * list Event) (ego_vehicle : Actor) (sc : S)
    (worlds : list World) (interrupt : Interrupt) (cut : option nat) :
  codes (main_loop new ego_vehicle (Some sc) 0 worlds interrupt cut) = [].
Proof. destruct worlds; [destruct interrupt |]; reflexivity. Qed.

Lemma main_loop_codes
    (f : scenario_file) (new : class_of f * list Event) (ego_vehicle : Actor)
    (worlds : list World) (interrupt : Interrupt) (cut : option nat) :
  forall (sc : option (class_of f)) (scenario_timer : Z),
  exists (n : nat) (last : list (Py.res Z)),
    codes (main_loop new ego_vehicle sc scenario_timer worlds interrupt cut)
    = repeat (Py.Ok 0%Z) n ++ last
    /\ (last = [] \/ last = [Py.Ok 1%Z] \/ exists e, last = [Py.Raise e]).
Proof.
  induction worlds as [| world worlds IH]; intros sc scenario_timer.
  - exists 0%nat, []. destruct interrupt, sc; simpl; auto.
  - destruct sc as [sc |]; simpl.
    + destruct (scenario_timer >? 0)%Z.
      * destruct (tick_returns_0_or_1 f sc world ego_vehicle)
          as [H0 | [H1 | [e He]]].
        -- rewrite H0. simpl.
           destruct (IH (Some (self' (tick sc world ego_vehicle)))
                        (scenario_timer - 1)%Z) as (n & last & -> & Hlast).
           exists (Datatypes.S n), last. split; [reflexivity | exact Hlast].
        -- rewrite H1. simpl. rewrite main_loop_done.
           exists 0%nat, [Py.Ok 1%Z]. auto.
        -- rewrite He. simpl. exists 0%nat, [Py.Raise e]. eauto.
      * exists 0%nat, []. auto.
    + destruct (IH (Some (fst new)) scenario_timer) as (n & last & -> & Hlast).
      exists n, last. auto.
Qed.

(** An atom of a boolean expression. *)
Ltac destruct_atom a :=
  lazymatch a with
  | andb _ _ => fail
  | orb _ _ => fail
  | negb _ => fail
  | true => fail
  | false => fail
  | _ => destruct a eqn:?
  end.

Ltac signals_leaf :=
  unfold signals;
  repeat match goal with
         | H : negb _ = true |- _ => apply negb_true_iff in H
         | H : negb _ = false |- _ => apply negb_false_iff in H
         end;
  repeat match goal with
         | H : ?b = true |- context [?b] => rewrite H
         | H : ?b = false |- context [?b] => rewrite H
         end;
  repeat (simpl;
          match goal with
          | |- context [if ?b then _ else _] => destruct_atom b
          | |- context [match ?m with Some _ => _ | None => _ end] =>
              destruct m eqn:?
          | |- context [andb ?a _] => destruct_atom a
          | |- context [andb _ ?a] => destruct_atom a
          | |- context [orb ?a _] => destruct_atom a
          | |- context [orb _ ?a] => destruct_atom a
          | |- context [negb ?a] => destruct_atom a
          end);
  repeat match goal with
         | H : ?b = true, H' : context [?b] |- _ => progress rewrite H in H'
         | H : ?b = false, H' : context [?b] |- _ => progress rewrite H in H'
         end;
  simpl in *; split; intros; congruence.

(** A triggered tick returns 1 exactly if the terminal condition of its
    class holds. *)
Lemma triggered_tick_signals_terminal
    (f : scenario_file) (self : class_of f) (world : World)
    (ego_vehicle : Actor) :
  well_formed f self ->
  triggered self = true ->
  signals (terminal f self world ego_vehicle) (tick self world ego_vehicle).
Proof.
  destruct f; simpl; intros Hform Htr.
  - unfold SquirrelRunningAcrossTheRoad.tick, try_, Py.mul. rewrite Htr.
    outcome_branches; signals_leaf.
  - unfold StaticCarCrash_1.tick, inside. simpl. rewrite Htr.
    outcome_branches; signals_leaf.
  - unfold BoyFootball.tick, try_. rewrite Htr.
    outcome_branches; signals_leaf.
  - unfold ParkingHGV.tick, try_, inside. simpl. rewrite Htr.
    destruct (ParkingHGV.checkpoint self) as [| c0 [| c1 [| ? ?]]] eqn:Hcp;
      try discriminate.
    unfold ParkingHGV.advance, ParkingHGV.reach. rewrite Hcp. simpl.
    repeat match goal with
           | |- context [if ?b then (_, _, _) else _] => destruct b; simpl
           end;
      outcome_branches; signals_leaf.
  - unfold DangerousExcavator.tick. rewrite Htr.
    outcome_branches; signals_leaf.
  - unfold LooseZooAnimals.tick, try_, Py.mul. rewrite Htr.
    destruct (LooseZooAnimals.checkpoint self) as [| c0 [| c1 [| ? ?]]] eqn:Hcp;
      try discriminate. simpl.
    repeat match goal with
           | |- context [match (if ?b then _ else _) with
                         | Py.Ok _ => _
                         | Py.Raise _ => _
                         end] => destruct b eqn:?; simpl
           end;
      destruct c0, c1; simpl; outcome_branches; signals_leaf.
  - unfold CarForwardParkingAndReverseNoHarm.tick, try_,
      CarForwardParkingAndReverseNoHarm.reach,
      CarForwardParkingAndReverseNoHarm.wait,
      CarForwardParkingAndReverseNoHarm.count_down.
    rewrite Htr.
    destruct (CarForwardParkingAndReverseNoHarm.checkpoint self)
      as [| c0 [| c1 [| c2 [| c3 [| c4 [| c5 [| c6 [| ? ?]]]]]]]] eqn:Hcp;
      try discriminate. simpl.
    outcome_branches; signals_leaf.
  - unfold CarForwardStoppingDropoff.tick, try_,
      CarForwardStoppingDropoff.reach, CarForwardStoppingDropoff.wait,
      CarForwardStoppingDropoff.count_down.
    rewrite Htr.
    destruct (CarForwardStoppingDropoff.checkpoint self)
      as [| c0 [| c1 [| c2 [| c3 [| c4 [| c5 [| ? ?]]]]]]] eqn:Hcp;
      try discriminate. simpl.
    outcome_branches; signals_leaf.
Qed.

(** The checkpoint lists keep the length [__init__] gives them. *)
Lemma construct_well_formed
    (f : scenario_file) (fresh : Actor) (fixed_delta_seconds : option R) :
  well_formed f (fst (construct f fresh fixed_delta_seconds)).
Proof. destruct f; simpl; auto. Qed.

Lemma setitem_length {A : Type} (l l' : list A) (i : nat) (v : A) :
  Py.setitem l i v = Py.Ok l' -> List.length l' = List.length l.
Proof.
  revert l' i. induction l as [| a l IH]; intros l' i; [discriminate |].
  destruct i as [| i]; simpl.
  - intros H. injection H as <-. reflexivity.
  - destruct (Py.setitem l i v) as [r |] eqn:Hr; [| discriminate].
    intros H. injection H as <-. simpl. f_equal. exact (IH r i Hr).
Qed.

Lemma tick_keeps_well_formed
    (f : scenario_file) (self : class_of f) (world : World)
    (ego_vehicle : Actor) :
  well_formed f self ->
  well_formed f (self' (tick self world ego_vehicle)).
Proof.
  intros Hform. destruct f; try exact I; simpl in Hform.
  - destruct (ParkingHGV.checkpoint self) as [| c0 [| c1 [| ? ?]]] eqn:Hcp;
      try discriminate.
    change (keeps_well_formed spawn_parking_HGV
              (ParkingHGV.tick self world ego_vehicle)).
    unfold ParkingHGV.tick, try_, ParkingHGV.advance, ParkingHGV.reach.
    rewrite Hcp. simpl.
    repeat match goal with
           | |- context [if ?b then _ else _] => destruct b; simpl
           end;
      unfold keeps_well_formed; simpl; rewrite ?Hcp; reflexivity.
  - destruct (LooseZooAnimals.checkpoint self) as [| c0 [| c1 [| ? ?]]] eqn:Hcp;
      try discriminate.
    change (keeps_well_formed spawn_loose_zoo_animals
              (LooseZooAnimals.tick self world ego_vehicle)).
    unfold LooseZooAnimals.tick, try_, Py.mul. rewrite Hcp. simpl.
    repeat match goal with
           | |- context [if ?b then _ else _] => destruct b; simpl
           | |- context [match ?m with Some _ => _ | None => _ end] =>
               destruct m; simpl
           end;
      unfold keeps_well_formed; simpl; rewrite ?Hcp; reflexivity.
  - destruct (CarForwardParkingAndReverseNoHarm.checkpoint self)
      as [| c0 [| c1 [| c2 [| c3 [| c4 [| c5 [| c6 [| ? ?]]]]]]]] eqn:Hcp;
      try discriminate.
    change (keeps_well_formed spawn_car_forward_parking_noharm
              (CarForwardParkingAndReverseNoHarm.tick self world
                 ego_vehicle)).
    unfold CarForwardParkingAndReverseNoHarm.tick, try_,
      CarForwardParkingAndReverseNoHarm.reach,
      CarForwardParkingAndReverseNoHarm.wait,
      CarForwardParkingAndReverseNoHarm.count_down.
    rewrite Hcp. simpl.
    outcome_branches; unfold keeps_well_formed; simpl; rewrite ?Hcp;
      reflexivity.
  - destruct (CarForwardStoppingDropoff.checkpoint self)
      as [| c0 [| c1 [| c2 [| c3 [| c4 [| c5 [| ? ?]]]]]]] eqn:Hcp;
      try discriminate.
    change (keeps_well_formed spawn_car_forward_dropoff_v2
              (CarForwardStoppingDropoff.tick self world ego_vehicle)).
    unfold CarForwardStoppingDropoff.tick, try_,
      CarForwardStoppingDropoff.reach, CarForwardStoppingDropoff.wait,
      CarForwardStoppingDropoff.count_down.
    rewrite Hcp. simpl.
    outcome_branches; unfold keeps_well_formed; simpl; rewrite ?Hcp;
      reflexivity.
Qed.

(** C1, amended.  A tick returns 1 exactly if the scenario is triggered
    and the terminal condition of its class holds on that tick, passed or
    failed alike; every other tick returns 0 unless it raises, and every
    tick of an idle scenario returns 0, the tick that triggers it
    included.  [tick] keeps no record of completion (the object it leaves
    is one on which these statements hold again, so a further call
    returns 1 again whenever the terminal condition still holds); it is
    the driver that stops calling it after the first 1: the codes the
    driver sees are 0s, followed by nothing, by a single 1, or by an
    exception. *)
Theorem tick_returns_1_iff_terminal
    (f : scenario_file) (self : class_of f) (world : World)
    (ego_vehicle : Actor) :
  well_formed f self ->
  let o := tick self world ego_vehicle in
  (returned o = Py.Ok 1%Z
   <-> triggered self = true /\ terminal f self world ego_vehicle = true)
  /\ (returned o <> Py.Ok 1%Z ->
      returned o = Py.Ok 0%Z \/ exists e, returned o = Py.Raise e)
  /\ (triggered self = false -> returned o = Py.Ok 0%Z)
  /\ well_formed f (self' o)
  /\ (forall (fresh : Actor) (fixed_delta_seconds : option R),
         well_formed f (fst (construct f fresh fixed_delta_seconds)))
  /\ (forall (fresh : Actor) (fixed_delta_seconds : option R)
             (worlds : list World) (interrupt : Interrupt)
             (cut : option nat),
      exists (n : nat) (last : list (Py.res Z)),
        codes (main f fresh fixed_delta_seconds ego_vehicle worlds interrupt
                    cut)
        = repeat (Py.Ok 0%Z) n ++ last
        /\ (last = [] \/ last = [Py.Ok 1%Z]
            \/ exists e, last = [Py.Raise e])).
Proof.
  intros Hform o. subst o.
  split; [| split; [| split; [| split; [| split]]]].
  - destruct (triggered self) eqn:Htr.
    + destruct (triggered_tick_signals_terminal f self world ego_vehicle
                  Hform Htr) as [Hreturn Hterminal].
      split; [intros H1; split; [reflexivity | exact (Hreturn H1)] |].
      intros [_ Ht]. exact (Hterminal Ht).
    + rewrite (tick_idle_returns_0 f self world ego_vehicle Htr).
      split; [discriminate | intros [H _]; discriminate].
  - intros Hnot.
    destruct (tick_returns_0_or_1 f self world ego_vehicle)
      as [H0 | [H1 | He]]; [left; exact H0 | contradiction | right; exact He].
  - apply tick_idle_returns_0.
  - apply tick_keeps_well_formed. exact Hform.
  - apply construct_well_formed.
  - intros. apply main_loop_codes.
Qed.

Lemma tick_returns_1_iff_terminal_witness :
  returned (tick crash_triggered at_rest ego) = Py.Ok 1%Z.
Proof.
  apply (proj2 (proj1 (tick_returns_1_iff_terminal
                         spawn_static_car_crash_1 crash_triggered at_rest ego
                         I))).
  split; [reflexivity |].
  simpl. unfold inside, crash_triggered, at_rest. simpl.
  rewrite StaticCarCrash_1_outside_at_origin. reflexivity.
Defined.

(** ** Countdown timers *)








Lemma ticks_cons {S : Type} `{Scenario S}
    (self : S) (ego_vehicle : Actor) (world : World) (worlds : list World) :
  ticks self ego_vehicle (world :: worlds)
  = tick self world ego_vehicle
      :: ticks (self' (tick self world ego_vehicle)) ego_vehicle worlds.
Proof. reflexivity. Qed.

Lemma after_cons {S : Type} `{Scenario S}
    (self : S) (ego_vehicle : Actor) (world : World) (worlds : list World) :
  after self ego_vehicle (world :: worlds)
  = after (self' (tick self world ego_vehicle)) ego_vehicle worlds.
Proof. reflexivity. Qed.

Lemma after_app {S : Type} `{Scenario S}
    (self : S) (ego_vehicle : Actor) (l1 l2 : list World) :
  after self ego_vehicle (l1 ++ l2)
  = after (after self ego_vehicle l1) ego_vehicle l2.
Proof. apply fold_left_app. Qed.


(** ** A staged timer *)








(** ** Pass and fail in the presence-check scenarios *)

(** With its two checkpoints in place, the checkpoint branch of
    [ParkingHGV.tick] raises nothing, prints nothing, never clears a
    checkpoint, and sets the second one only if the first was set
    before. *)
Lemma advance_in_order
    (self : ParkingHGV.t) (l : Location) (c0 c1 : bool) :
  ParkingHGV.checkpoint self = [c0; c1] ->
  exists (c0' c1' : bool) (evs : list Event),
    ParkingHGV.advance self l
    = (ParkingHGV.set_checkpoint [c0'; c1'] self, evs, Py.Ok tt)
    /\ (c0 = true -> c0' = true)
    /\ (c1 = true -> c1' = true)
    /\ (c1 = false -> c1' = true -> c0 = true)
    /\ (forall msg, ~ printed msg evs).
Proof.
  intros Hcp. unfold ParkingHGV.advance, ParkingHGV.reach. rewrite Hcp.
  assert (Hsame : self = ParkingHGV.set_checkpoint [c0; c1] self)
    by (destruct self; simpl in *; now subst).
  unfold printed.
  assert (Hsilent1 : forall e1 msg,
            (forall m, e1 <> print m) -> ~ In (print msg) [e1]).
  { intros e1 msg H1 [H | []]. exact (H1 msg H). }
  assert (Hsilent2 : forall e1 e2 msg,
            (forall m, e1 <> print m) -> (forall m, e2 <> print m) ->
            ~ In (print msg) [e1; e2]).
  { intros e1 e2 msg H1 H2 [H | [H | []]];
      [exact (H1 msg H) | exact (H2 msg H)]. }
  destruct c0; simpl.
  - destruct c1; simpl.
    + destruct (Py.lt (y l) 144.00);
        exists true, true; eexists; (split; [rewrite Hsame at 1; reflexivity |]);
        repeat split; auto; intros msg; apply Hsilent1; discriminate.
    + destruct (Py.gt (y l) 142.60).
      * exists true, false; eexists;
          (split; [rewrite Hsame at 1; reflexivity |]);
          repeat split; auto; intros msg; apply Hsilent1; discriminate.
      * exists true, true; eexists; (split; [reflexivity |]);
          repeat split; auto; intros msg; apply Hsilent2; discriminate.
  - destruct (Py.lt (y l) 143.50).
    + exists false, c1; eexists;
        (split; [rewrite Hsame at 1; reflexivity |]);
        repeat split; try (intros; congruence);
        intros msg; apply Hsilent1; discriminate.
    + exists true, c1; eexists; (split; [reflexivity |]);
        repeat split; try (intros; congruence);
        intros msg; apply Hsilent2; discriminate.
Qed.

(** C7, as stated, fails.  [ParkingHGV], triggered, timer at 400, the ego
    vehicle standing still inside the trigger area: the tick completes
    the scenario as failed although the timer has not expired. *)
Lemma parking_hgv_fails_before_the_timer_expires :
  let o := ParkingHGV.tick hgv_triggered ego_stopped_beside_hgv ego in
  ParkingHGV.timer hgv_triggered = 400%Z
  /\ is_inside_bounding_box
       (location (get_transform (ego_stopped_beside_hgv ego)))
       (fst (ParkingHGV.trigger_area hgv_triggered))
       (snd (ParkingHGV.trigger_area hgv_triggered)) = true
  /\ returned o = Py.Ok 1%Z
  /\ printed ParkingHGV.msg_fail (events o)
  /\ ParkingHGV.timer (self' o) = 400%Z.
Proof.
  assert (Hin : is_inside_bounding_box (Loc (-50) 137 0) (-31.80, 133.70)
                                       (-71.00, 140.50) = true)
    by (eval_inside; reflexivity).
  assert (Hy : Py.lt 137.20 143.50 = true) by (decide_reals; reflexivity).
  assert (Hv : Py.gt (get_vehicle_speed
                        (actor_at (Loc (-50) 137 0) (mkVector3D 0 0 0))) 0.1
               = false).
  { unfold get_vehicle_speed; simpl. rewrite norm_along_x by lra.
    decide_reals; reflexivity. }
  cbv zeta. unfold ParkingHGV.tick, ParkingHGV.advance, hgv_triggered,
    ego_stopped_beside_hgv, with_actor, ego, printed.
  simpl. rewrite Hy. simpl. rewrite Hin, Hv. simpl.
  repeat split; auto.
Qed.

Ltac settle_verdicts :=
  unfold printed; simpl;
  intuition (try discriminate; try lia; try congruence).

(** C7, amended.  On a triggered tick of [StaticCarCrash_1] the scenario
    completes as passed iff the ego vehicle is outside the trigger area,
    and as failed iff it is inside with the timer no longer positive.
    On a triggered tick of [ParkingHGV] it completes as passed iff no
    collision is flagged and the ego vehicle is outside the trigger area;
    it completes as failed not only when the timer is no longer positive
    with the ego vehicle inside, but also when the ego vehicle is inside
    at a speed not above 0.1, and when a collision is flagged. *)
Theorem presence_check_verdicts (world : World) (ego_vehicle : Actor) :
  (forall self : StaticCarCrash_1.t,
      StaticCarCrash_1.triggered self = true ->
      let o := StaticCarCrash_1.tick self world ego_vehicle in
      let inside :=
        is_inside_bounding_box (location (get_transform (world ego_vehicle)))
          (fst (StaticCarCrash_1.trigger_area self))
          (snd (StaticCarCrash_1.trigger_area self)) in
      (printed StaticCarCrash_1.msg_pass (events o) <-> inside = false)
      /\ (printed StaticCarCrash_1.msg_fail (events o)
          <-> inside = true /\ (StaticCarCrash_1.timer self <= 0)%Z)
      /\ (returned o = Py.Ok 1%Z
          <-> printed StaticCarCrash_1.msg_pass (events o)
              \/ printed StaticCarCrash_1.msg_fail (events o)))
  /\ (forall (self : ParkingHGV.t) (c0 c1 : bool),
      ParkingHGV.triggered self = true ->
      ParkingHGV.checkpoint self = [c0; c1] ->
      let o := ParkingHGV.tick self world ego_vehicle in
      let inside :=
        is_inside_bounding_box (location (get_transform (world ego_vehicle)))
          (fst (ParkingHGV.trigger_area self))
          (snd (ParkingHGV.trigger_area self)) in
      (printed ParkingHGV.msg_pass (events o)
       <-> ParkingHGV.collision_detected self = false /\ inside = false)
      /\ (printed ParkingHGV.msg_fail (events o)
          <-> ParkingHGV.collision_detected self = false /\ inside = true
              /\ ((ParkingHGV.timer self <= 0)%Z
                  \/ ~ get_vehicle_speed (world ego_vehicle) > 0.1))
      /\ (printed ParkingHGV.msg_collision (events o)
          <-> ParkingHGV.collision_detected self = true)
      /\ (returned o = Py.Ok 1%Z
          <-> printed ParkingHGV.msg_pass (events o)
              \/ printed ParkingHGV.msg_fail (events o)
              \/ printed ParkingHGV.msg_collision (events o))).
Proof.
  split.
  - intros self Htr o inside. subst o. unfold StaticCarCrash_1.tick.
    rewrite Htr. fold inside.
    destruct inside; [destruct (Z.gtb_spec (StaticCarCrash_1.timer self) 0) |];
      settle_verdicts.
  - intros self c0 c1 Htr Hcp o inside. subst o. unfold ParkingHGV.tick, try_.
    rewrite Htr.
    destruct (ParkingHGV.collision_detected self) eqn:Hcd;
      [settle_verdicts |].
    destruct (advance_in_order self
                (location (get_transform (world (ParkingHGV.hgv_actor self))))
                c0 c1 Hcp) as (c0' & c1' & evs & -> & _ & _ & _ & Hsilent).
    cbn [ParkingHGV.trigger_area ParkingHGV.set_checkpoint ParkingHGV.timer
         try_].
    fold inside.
    assert (Hevs : forall msg tail,
               printed msg (evs ++ tail) <-> printed msg tail).
    { intros msg tail. unfold printed. rewrite in_app_iff. split; auto.
      intros [H | H]; [destruct (Hsilent msg H) | exact H]. }
    assert (Hnone : forall msg, printed msg evs <-> False)
      by (intros msg; split; [apply Hsilent | tauto]).
    destruct inside; cbn [andb events returned].
    + destruct (Z.gtb_spec (ParkingHGV.timer self) 0); cbn [andb].
      * destruct (Py.gt (get_vehicle_speed (world ego_vehicle)) 0.1) eqn:Hv;
          cbn [events returned]; rewrite ?Hevs, ?Hnone.
        -- apply gt_spec in Hv. settle_verdicts.
        -- assert (Hnv : ~ get_vehicle_speed (world ego_vehicle) > 0.1)
             by (rewrite <- gt_spec; congruence).
           settle_verdicts.
      * cbn [events returned]. rewrite ?Hevs, ?Hnone. settle_verdicts.
    + rewrite ?Hevs, ?Hnone. settle_verdicts.
Qed.

Lemma presence_check_verdicts_witness :
  printed StaticCarCrash_1.msg_pass
    (events (StaticCarCrash_1.tick crash_triggered at_rest ego))
  /\ printed ParkingHGV.msg_fail
       (events (ParkingHGV.tick hgv_triggered ego_stopped_beside_hgv ego)).
Proof.
  split.
  - pose proof (proj1 (presence_check_verdicts at_rest ego)
                  crash_triggered eq_refl) as H.
    cbv zeta in H. apply (proj1 H).
    apply StaticCarCrash_1_outside_at_origin.
  - pose proof (proj2 (presence_check_verdicts ego_stopped_beside_hgv ego)
                  hgv_triggered false false eq_refl eq_refl) as H.
    cbv zeta in H. apply (proj1 (proj2 H)).
    split; [reflexivity | split].
    + simpl. unfold ego_stopped_beside_hgv, with_actor. simpl.
      eval_inside; reflexivity.
    + right. unfold ego_stopped_beside_hgv, with_actor, get_vehicle_speed.
      simpl. rewrite norm_along_x by lra. lra.
Defined.

(** ** Checkpoints *)

(** C8, as stated, fails.  [LooseZooAnimals], triggered, both checkpoints
    false: on a tick that finds the gazelle displaced, the second
    checkpoint becomes true while the first one is still false. *)
Lemma zoo_second_checkpoint_set_before_first :
  LooseZooAnimals.triggered zoo_triggered = true
  /\ LooseZooAnimals.checkpoint zoo_triggered = [false; false]
  /\ LooseZooAnimals.checkpoint
       (self' (LooseZooAnimals.tick zoo_triggered gazelle_hit ego))
     = [false; true]
  /\ ~ in_order [false; true].
Proof.
  assert (Hgorilla : Py.gt (Rabs (77.90 - 77.90)) 0.1 = false)
    by (decide_reals; reflexivity).
  assert (Hgazelle : Py.gt (Rabs (71.20 - 72)) 0.1 = true)
    by (decide_reals; reflexivity).
  assert (Hy : Py.lt 40.40 50.90 = true) by (decide_reals; reflexivity).
  repeat split.
  - unfold LooseZooAnimals.tick, try_, zoo_triggered, gazelle_hit, with_actor.
    simpl. rewrite Hgorilla. simpl. rewrite Hgazelle. simpl.
    rewrite Hy. reflexivity.
  - simpl. intros [H _]. specialize (H eq_refl).
    inversion H; discriminate.
Qed.

Lemma ParkingHGV_tick_checkpoints
    (self : ParkingHGV.t) (world : World) (ego_vehicle : Actor)
    (c0 c1 : bool) :
  ParkingHGV.checkpoint self = [c0; c1] ->
  exists c0' c1' : bool,
    ParkingHGV.checkpoint (self' (ParkingHGV.tick self world ego_vehicle))
    = [c0'; c1']
    /\ (c0 = true -> c0' = true)
    /\ (c1 = true -> c1' = true)
    /\ (c1 = false -> c1' = true -> c0 = true).
Proof.
  intros Hcp.
  assert (Hsame : exists c0' c1' : bool,
             ParkingHGV.checkpoint self = [c0'; c1']
             /\ (c0 = true -> c0' = true)
             /\ (c1 = true -> c1' = true)
             /\ (c1 = false -> c1' = true -> c0 = true))
    by (exists c0, c1; repeat split; auto; congruence).
  unfold ParkingHGV.tick, try_.
  destruct (ParkingHGV.triggered self).
  - destruct (ParkingHGV.collision_detected self); [exact Hsame |].
    destruct (advance_in_order self
                (location (get_transform (world (ParkingHGV.hgv_actor self))))
                c0 c1 Hcp) as (c0' & c1' & evs & -> & H0 & H1 & H01 & _).
    exists c0', c1'.
    split_branches; auto.
  - split_branches; exact Hsame.
Qed.

Lemma LooseZooAnimals_tick_checkpoints
    (self : LooseZooAnimals.t) (world : World) (ego_vehicle : Actor)
    (c0 c1 : bool) :
  LooseZooAnimals.checkpoint self = [c0; c1] ->
  exists c0' c1' : bool,
    LooseZooAnimals.checkpoint
      (self' (LooseZooAnimals.tick self world ego_vehicle))
    = [c0'; c1']
    /\ (c0 = true -> c0' = true)
    /\ (c1 = true -> c1' = true).
Proof.
  intros Hcp. unfold LooseZooAnimals.tick, try_. rewrite Hcp.
  split_branches;
    try match goal with
        | H : Py.Ok _ = Py.Ok _ |- _ => injection H as <-
        end;
    try discriminate;
    repeat match goal with
           | H : Py.Ok _ = Py.Ok _ |- _ => injection H as <-
           end;
    simpl; eexists; eexists; (split; [first [reflexivity | eassumption] |]);
    split; intros; subst; auto; try discriminate.
Qed.

Lemma none_reset_pairs (c0 c1 c0' c1' : bool) :
  (c0 = true -> c0' = true) -> (c1 = true -> c1' = true) ->
  none_reset [c0; c1] [c0'; c1'].
Proof.
  intros H0 H1. split; [reflexivity |].
  intros [| [| i]]; simpl; auto.
Qed.

(** Setting the first unset checkpoint keeps the checkpoints in order
    and resets none. *)
Lemma next_checkpoint_in_order (cp : list bool) :
  forall cp' : list bool,
    in_order cp -> next_checkpoint cp cp' ->
    in_order cp' /\ none_reset cp cp'.
Proof.
  intros cp' Hord [-> | (i & Hset & Hbefore)].
  - split; [exact Hord | split; auto].
  - revert i cp' Hord Hset Hbefore.
    induction cp as [| c rest IH]; intros i cp' Hord Hset Hbefore.
    + destruct i; discriminate.
    + destruct Hord as [Hc Hrest].
      destruct i as [| i]; simpl in Hset.
      * injection Hset as <-. split.
        -- split; [discriminate | exact Hrest].
        -- split; [reflexivity |]. intros [| j]; simpl; auto.
      * destruct (Py.setitem rest i true) as [rest' |] eqn:Hset';
          [| discriminate].
        injection Hset as <-.
        assert (Hc' : c = true).
        { specialize (Hbefore 0%nat (Nat.lt_0_succ i)).
          unfold Py.getitem in Hbefore. simpl in Hbefore. congruence. }
        destruct (IH i rest' Hrest Hset') as [Hord' [Hlen Hnth]].
        { intros j Hj. apply (Hbefore (Datatypes.S j)). lia. }
        subst c. split.
        -- split; [discriminate | exact Hord'].
        -- split; [simpl; congruence |].
           intros [| j]; simpl; auto.
Qed.

Ltac flips_leaf :=
  unfold flips_in_order, next_checkpoint; simpl;
  first
    [ left; reflexivity
    | right; eexists; split; [eassumption |];
      intros j Hj;
      repeat (destruct j as [| j];
              [ match goal with
                | H : Py.getitem ?cp ?k = Py.Ok ?b, H' : negb ?b = false
                  |- Py.getitem ?cp ?k = Py.Ok true =>
                    rewrite H; destruct b; [reflexivity | discriminate]
                end
              | ]);
      lia ].

Ltac flips_branches :=
  repeat (lazy beta iota zeta;
          match goal with
          | |- flips_in_order _ _ (if ?b then _ else _) => destruct b eqn:?
          | |- flips_in_order _ _
                 (match ?m with Py.Ok _ => _ | Py.Raise _ => _ end) =>
              destruct m eqn:?
          end).

Lemma CarForwardParkingAndReverseNoHarm_flips_in_order
    (self : CarForwardParkingAndReverseNoHarm.t) (world : World)
    (ego_vehicle : Actor) :
  flips_in_order CarForwardParkingAndReverseNoHarm.checkpoint self
    (CarForwardParkingAndReverseNoHarm.tick self world ego_vehicle).
Proof.
  unfold CarForwardParkingAndReverseNoHarm.tick,
    CarForwardParkingAndReverseNoHarm.reach,
    CarForwardParkingAndReverseNoHarm.wait,
    CarForwardParkingAndReverseNoHarm.count_down,
    CarForwardParkingAndReverseNoHarm.trigger, try_.
  flips_branches; flips_leaf.
Qed.

Lemma CarForwardStoppingDropoff_flips_in_order
    (self : CarForwardStoppingDropoff.t) (world : World)
    (ego_vehicle : Actor) :
  flips_in_order CarForwardStoppingDropoff.checkpoint self
    (CarForwardStoppingDropoff.tick self world ego_vehicle).
Proof.
  unfold CarForwardStoppingDropoff.tick, CarForwardStoppingDropoff.reach,
    CarForwardStoppingDropoff.wait, CarForwardStoppingDropoff.count_down,
    CarForwardStoppingDropoff.trigger, try_.
  flips_branches; flips_leaf.
Qed.

Lemma ParkingHGV_flips_in_order
    (self : ParkingHGV.t) (world : World) (ego_vehicle : Actor) :
  flips_in_order ParkingHGV.checkpoint self
    (ParkingHGV.tick self world ego_vehicle).
Proof.
  unfold ParkingHGV.tick, ParkingHGV.trigger, try_.
  assert (Hadv : forall l,
    next_checkpoint (ParkingHGV.checkpoint self)
      (ParkingHGV.checkpoint (fst (fst (ParkingHGV.advance self l))))).
  { intros l.
    change (flips_in_order ParkingHGV.checkpoint self
              (mkOutcome (fst (fst (ParkingHGV.advance self l))) []
                         (Py.Ok 0%Z))).
    unfold ParkingHGV.advance, ParkingHGV.reach.
    repeat (lazy beta iota zeta;
            match goal with
            | |- context [if ?b then _ else _] => destruct b eqn:?
            | |- context [match ?m with Py.Ok _ => _ | Py.Raise _ => _ end] =>
                destruct m eqn:?
            end);
      flips_leaf. }
  destruct (ParkingHGV.triggered self);
    [destruct (ParkingHGV.collision_detected self) |].
  - left; reflexivity.
  - specialize (Hadv (location (get_transform
                                  (world (ParkingHGV.hgv_actor self))))).
    destruct (ParkingHGV.advance self _) as [[self1 evs] through].
    simpl in Hadv. unfold flips_in_order.
    destruct through; simpl; [| exact Hadv].
    repeat match goal with
           | |- context [if ?b then _ else _] => destruct b
           end; exact Hadv.
  - unfold flips_in_order.
    destruct (is_inside_bounding_box _ _ _); left; reflexivity.
Qed.

(** Along every sequence of ticks from an object whose checkpoints are
    all unset, the checkpoints stay in order. *)
Lemma states_in_order {S : Type} `{Scenario S} (checkpoint : S -> list bool)
    (ego_vehicle : Actor) :
  (forall (self : S) (world : World),
      flips_in_order checkpoint self (tick self world ego_vehicle)) ->
  forall (worlds : list World) (self : S),
    in_order (checkpoint self) ->
    Forall (fun s => in_order (checkpoint s)
                     /\ List.length (checkpoint s)
                        = List.length (checkpoint self))
           (states self ego_vehicle worlds).
Proof.
  intros Hflips.
  induction worlds as [| world worlds IH]; intros self Hord.
  - constructor; [auto | constructor].
  - rewrite states_cons. constructor; [auto |].
    destruct (next_checkpoint_in_order _ _ Hord (Hflips self world))
      as [Hord' [Hlen _]].
    eapply Forall_impl; [| exact (IH _ Hord')].
    simpl. intros s [Hs Hl]. split; [exact Hs | congruence].
Qed.

Lemma next_checkpoint_none_reset (cp : list bool) :
  forall cp' : list bool, next_checkpoint cp cp' -> none_reset cp cp'.
Proof.
  intros cp' [-> | (i & Hset & _)]; [split; auto |].
  revert i cp' Hset.
  induction cp as [| c rest IH]; intros i cp' Hset.
  - destruct i; discriminate.
  - destruct i as [| i]; simpl in Hset.
    + injection Hset as <-. split; [reflexivity |].
      intros [| j]; simpl; auto.
    + destruct (Py.setitem rest i true) as [rest' |] eqn:Hset';
        [| discriminate].
      injection Hset as <-.
      destruct (IH i rest' Hset') as [Hlen Hnth].
      split; [simpl; congruence |].
      intros [| j]; simpl; auto.
Qed.

Lemma ParkingHGV_advance_is_branch
    (self : ParkingHGV.t) (vehicle_location : Location) :
  List.length (ParkingHGV.checkpoint self) = 2%nat ->
  ParkingHGV.advance self vehicle_location
  = ParkingHGV_branch (first_unset (ParkingHGV.checkpoint self)) self
                      vehicle_location.
Proof.
  intros Hform.
  destruct (ParkingHGV.checkpoint self) as [| c0 [| c1 [| ? ?]]] eqn:Hcp;
    try discriminate.
  unfold ParkingHGV.advance. rewrite Hcp.
  destruct c0; [destruct c1 |]; reflexivity.
Qed.

Lemma CarForwardParkingAndReverseNoHarm_tick_is_branch
    (self : CarForwardParkingAndReverseNoHarm.t) (world : World)
    (ego_vehicle : Actor) :
  CarForwardParkingAndReverseNoHarm.triggered self = true ->
  CarForwardParkingAndReverseNoHarm.collision_detected self = false ->
  List.length (CarForwardParkingAndReverseNoHarm.checkpoint self) = 7%nat ->
  CarForwardParkingAndReverseNoHarm.tick self world ego_vehicle
  = CarForwardParkingAndReverseNoHarm_branch
      (first_unset (CarForwardParkingAndReverseNoHarm.checkpoint self))
      self world.
Proof.
  intros Htr Hco Hform.
  destruct (CarForwardParkingAndReverseNoHarm.checkpoint self)
    as [| c0 [| c1 [| c2 [| c3 [| c4 [| c5 [| c6 [| ? ?]]]]]]]] eqn:Hcp;
    try discriminate.
  unfold CarForwardParkingAndReverseNoHarm.tick. rewrite Htr, Hco, Hcp.
  destruct c0; [| reflexivity].
  destruct c1; [| reflexivity].
  destruct c2; [| reflexivity].
  destruct c3; [| reflexivity].
  destruct c4; [| reflexivity].
  destruct c5; [| reflexivity].
  destruct c6; reflexivity.
Qed.

Lemma CarForwardStoppingDropoff_tick_is_branch
    (self : CarForwardStoppingDropoff.t) (world : World)
    (ego_vehicle : Actor) :
  CarForwardStoppingDropoff.triggered self = true ->
  CarForwardStoppingDropoff.collision_detected self = false ->
  List.length (CarForwardStoppingDropoff.checkpoint self) = 6%nat ->
  CarForwardStoppingDropoff.tick self world ego_vehicle
  = CarForwardStoppingDropoff_branch
      (first_unset (CarForwardStoppingDropoff.checkpoint self))
      self world ego_vehicle.
Proof.
  intros Htr Hco Hform.
  destruct (CarForwardStoppingDropoff.checkpoint self)
    as [| c0 [| c1 [| c2 [| c3 [| c4 [| c5 [| ? ?]]]]]]] eqn:Hcp;
    try discriminate.
  unfold CarForwardStoppingDropoff.tick. rewrite Htr, Hco, Hcp.
  destruct c0; [| reflexivity].
  destruct c1; [| reflexivity].
  destruct c2; [| reflexivity].
  destruct c3; [| reflexivity].
  destruct c4; [| reflexivity].
  destruct c5; reflexivity.
Qed.

Lemma LooseZooAnimals_tick_is_branch
    (self : LooseZooAnimals.t) (world : World) (ego_vehicle : Actor) :
  LooseZooAnimals.triggered self = true ->
  List.length (LooseZooAnimals.checkpoint self) = 2%nat ->
  LooseZooAnimals.tick self world ego_vehicle
  = LooseZooAnimals_branch
      (first_unset (LooseZooAnimals_hits self world))
      (LooseZooAnimals.set_checkpoint (LooseZooAnimals_hits self world) self)
      world.
Proof.
  intros Htr Hform.
  destruct (LooseZooAnimals.checkpoint self) as [| c0 [| c1 [| ? ?]]] eqn:Hcp;
    try discriminate.
  unfold LooseZooAnimals.tick, LooseZooAnimals_hits. rewrite Htr, Hcp.
  simpl.
  destruct (Py.gt (Rabs (LooseZooAnimals.gorilla_x self - _)) 0.1);
    destruct (Py.gt (Rabs (LooseZooAnimals.gazelle_x self - _)) 0.1);
    simpl; rewrite ?Hcp; simpl; rewrite ?orb_true_r, ?orb_false_r;
    destruct c0, c1; reflexivity.
Qed.

(** C8, amended.  In every class with a checkpoint list the triggered
    tick runs the branch of the first checkpoint that is not set, and no
    other: the branch of a later checkpoint is unreachable until every
    earlier checkpoint is true.  In [ParkingHGV],
    [CarForwardParkingAndReverseNoHarm] and [CarForwardStoppingDropoff] a
    tick leaves the checkpoints as they are or sets the one at an index
    before which all are set, so no checkpoint is reset, and along every
    sequence of ticks from construction the checkpoints are in order (a
    later one is true only if every earlier one is); the collision
    callback of [ParkingHGV] leaves them alone.  The order of the flags
    is not kept by every scenario: in [LooseZooAnimals] the second
    checkpoint is also set, before the chain, whenever the gazelle is
    found displaced; there too no checkpoint is ever reset, and the chain
    runs the branch of the first checkpoint that is then not set. *)
Theorem sequenced_checkpoints_stay_in_order
    (world : World) (ego_vehicle : Actor) :
  (forall (fresh : Actor) (trigger_points : option TriggerPoints)
          (worlds : list World),
      Forall (fun s => in_order (ParkingHGV.checkpoint s)
                       /\ List.length (ParkingHGV.checkpoint s) = 2%nat)
             (states (fst (ParkingHGV.__init__ fresh trigger_points))
                     ego_vehicle worlds)
      /\ Forall (fun s =>
                   in_order (CarForwardParkingAndReverseNoHarm.checkpoint s)
                   /\ List.length
                        (CarForwardParkingAndReverseNoHarm.checkpoint s)
                      = 7%nat)
                (states (fst (CarForwardParkingAndReverseNoHarm.__init__
                                fresh trigger_points))
                        ego_vehicle worlds)
      /\ Forall (fun s =>
                   in_order (CarForwardStoppingDropoff.checkpoint s)
                   /\ List.length (CarForwardStoppingDropoff.checkpoint s)
                      = 6%nat)
                (states (fst (CarForwardStoppingDropoff.__init__
                                fresh trigger_points))
                        ego_vehicle worlds))
  /\ (forall self : ParkingHGV.t,
      let next :=
        ParkingHGV.checkpoint
          (self' (ParkingHGV.tick self world ego_vehicle)) in
      next_checkpoint (ParkingHGV.checkpoint self) next
      /\ none_reset (ParkingHGV.checkpoint self) next)
  /\ (forall self : CarForwardParkingAndReverseNoHarm.t,
      let next :=
        CarForwardParkingAndReverseNoHarm.checkpoint
          (self' (CarForwardParkingAndReverseNoHarm.tick
                    self world ego_vehicle)) in
      next_checkpoint (CarForwardParkingAndReverseNoHarm.checkpoint self) next
      /\ none_reset (CarForwardParkingAndReverseNoHarm.checkpoint self) next)
  /\ (forall self : CarForwardStoppingDropoff.t,
      let next :=
        CarForwardStoppingDropoff.checkpoint
          (self' (CarForwardStoppingDropoff.tick self world ego_vehicle)) in
      next_checkpoint (CarForwardStoppingDropoff.checkpoint self) next
      /\ none_reset (CarForwardStoppingDropoff.checkpoint self) next)
  /\ (forall (self : ParkingHGV.t) (c0 c1 : bool),
      ParkingHGV.checkpoint self = [c0; c1] ->
      c1 = false ->
      nth 1 (ParkingHGV.checkpoint
               (self' (ParkingHGV.tick self world ego_vehicle))) false
      = true ->
      c0 = true)
  /\ (forall (self : ParkingHGV.t) (other_actor_type_id : string),
      ParkingHGV.checkpoint
        (fst (ParkingHGV.sensor_callback self other_actor_type_id))
      = ParkingHGV.checkpoint self)
  /\ (forall (self : LooseZooAnimals.t) (c0 c1 : bool),
      LooseZooAnimals.checkpoint self = [c0; c1] ->
      none_reset [c0; c1]
        (LooseZooAnimals.checkpoint
           (self' (LooseZooAnimals.tick self world ego_vehicle))))
  /\ (forall self : ParkingHGV.t,
      List.length (ParkingHGV.checkpoint self) = 2%nat ->
      let vehicle_location :=
        location (get_transform (world (ParkingHGV.hgv_actor self))) in
      let branch :=
        ParkingHGV_branch (first_unset (ParkingHGV.checkpoint self)) self
                          vehicle_location in
      ParkingHGV.advance self vehicle_location = branch
      /\ (ParkingHGV.triggered self = true ->
          ParkingHGV.collision_detected self = false ->
          let o := ParkingHGV.tick self world ego_vehicle in
          ParkingHGV.checkpoint (self' o)
          = ParkingHGV.checkpoint (fst (fst branch))
          /\ exists verdict : list Event,
               events o = snd (fst branch) ++ verdict
               /\ (verdict = [] \/ verdict = [print ParkingHGV.msg_fail]
                   \/ verdict = [print ParkingHGV.msg_pass])))
  /\ (forall self : CarForwardParkingAndReverseNoHarm.t,
      CarForwardParkingAndReverseNoHarm.triggered self = true ->
      CarForwardParkingAndReverseNoHarm.collision_detected self = false ->
      List.length (CarForwardParkingAndReverseNoHarm.checkpoint self)
      = 7%nat ->
      CarForwardParkingAndReverseNoHarm.tick self world ego_vehicle
      = CarForwardParkingAndReverseNoHarm_branch
          (first_unset (CarForwardParkingAndReverseNoHarm.checkpoint self))
          self world)
  /\ (forall self : CarForwardStoppingDropoff.t,
      CarForwardStoppingDropoff.triggered self = true ->
      CarForwardStoppingDropoff.collision_detected self = false ->
      List.length (CarForwardStoppingDropoff.checkpoint self) = 6%nat ->
      CarForwardStoppingDropoff.tick self world ego_vehicle
      = CarForwardStoppingDropoff_branch
          (first_unset (CarForwardStoppingDropoff.checkpoint self))
          self world ego_vehicle)
  /\ (forall self : LooseZooAnimals.t,
      LooseZooAnimals.triggered self = true ->
      List.length (LooseZooAnimals.checkpoint self) = 2%nat ->
      LooseZooAnimals.tick self world ego_vehicle
      = LooseZooAnimals_branch
          (first_unset (LooseZooAnimals_hits self world))
          (LooseZooAnimals.set_checkpoint (LooseZooAnimals_hits self world)
                                          self)
          world).
Proof.
  split; [| split; [| split; [| split; [| split; 
    [| split; [| split; [| split; [| split; [| split]]]]]]]]].
  - intros fresh trigger_points worlds. split; [| split].
    + refine (states_in_order ParkingHGV.checkpoint ego_vehicle _ worlds
                (fst (ParkingHGV.__init__ fresh trigger_points)) _);
        [ intros self w; apply ParkingHGV_flips_in_order
        | simpl; repeat split; try discriminate; repeat constructor ].
    + refine (states_in_order CarForwardParkingAndReverseNoHarm.checkpoint ego_vehicle _ worlds
                (fst (CarForwardParkingAndReverseNoHarm.__init__ fresh trigger_points)) _);
        [ intros self w; apply CarForwardParkingAndReverseNoHarm_flips_in_order
        | simpl; repeat split; try discriminate; repeat constructor ].
    + refine (states_in_order CarForwardStoppingDropoff.checkpoint ego_vehicle _ worlds
                (fst (CarForwardStoppingDropoff.__init__ fresh trigger_points)) _);
        [ intros self w; apply CarForwardStoppingDropoff_flips_in_order
        | simpl; repeat split; try discriminate; repeat constructor ].
  - intros self next. subst next.
    pose proof (ParkingHGV_flips_in_order self world ego_vehicle) as Hnext.
    split; [exact Hnext | exact (next_checkpoint_none_reset _ _ Hnext)].
  - intros self next. subst next.
    pose proof (CarForwardParkingAndReverseNoHarm_flips_in_order
                  self world ego_vehicle) as Hnext.
    split; [exact Hnext | exact (next_checkpoint_none_reset _ _ Hnext)].
  - intros self next. subst next.
    pose proof (CarForwardStoppingDropoff_flips_in_order
                  self world ego_vehicle) as Hnext.
    split; [exact Hnext | exact (next_checkpoint_none_reset _ _ Hnext)].
  - intros self c0 c1 Hcp.
    destruct (ParkingHGV_tick_checkpoints self world ego_vehicle c0 c1 Hcp)
      as (c0' & c1' & -> & H0 & H1 & H01).
    exact H01.
  - reflexivity.
  - intros self c0 c1 Hcp.
    destruct (LooseZooAnimals_tick_checkpoints self world ego_vehicle c0 c1 Hcp)
      as (c0' & c1' & -> & H0 & H1).
    now apply none_reset_pairs.
  - intros self Hform vehicle_location branch.
    assert (Hbranch : ParkingHGV.advance self vehicle_location = branch)
      by (apply ParkingHGV_advance_is_branch; exact Hform).
    split; [exact Hbranch |].
    intros Htr Hco o. subst o.
    unfold ParkingHGV.tick. rewrite Htr, Hco.
    fold vehicle_location. rewrite Hbranch.
    destruct branch as [[reached sent] through]. unfold try_. simpl.
    destruct through as [[] | e]; simpl.
    + repeat match goal with
             | |- context [if ?b then _ else _] => destruct b
             end; simpl;
        (split; [reflexivity |]);
        [ exists []; rewrite app_nil_r; auto
        | exists [print ParkingHGV.msg_fail]; auto
        | exists [print ParkingHGV.msg_pass]; auto ].
    + split; [reflexivity |]. exists []. rewrite app_nil_r. auto.
  - intros self. apply CarForwardParkingAndReverseNoHarm_tick_is_branch.
  - intros self. apply CarForwardStoppingDropoff_tick_is_branch.
  - intros self. apply LooseZooAnimals_tick_is_branch.
Qed.

Lemma sequenced_checkpoints_stay_in_order_witness :
  CarForwardParkingAndReverseNoHarm.tick
    (parking_state [true; true; true; false; false; false; false] 100)
    car_parked ego
  = CarForwardParkingAndReverseNoHarm_branch 3
      (parking_state [true; true; true; false; false; false; false] 100)
      car_parked.
Proof.
  exact (proj1 (proj2 (proj2 (proj2 (proj2 (proj2 (proj2 (proj2 (proj2
           (sequenced_checkpoints_stay_in_order car_parked ego)))))))))
           (parking_state [true; true; true; false; false; false; false] 100)
           eq_refl eq_refl eq_refl).
Defined.

(** ** Teardown *)

(** C9, as stated, fails.  [SquirrelRunningAcrossTheRoad], just
    constructed with the squirrel as actor 0: two calls of [destroy] send
    [DestroyActor] for the squirrel twice. *)
Lemma second_destroy_releases_every_actor_again :
  let self := fst (SquirrelRunningAcrossTheRoad.__init__ 0%nat (Some 0.05) None) in
  released (destroy self) = [0%nat]
  /\ released (destroy self ++ destroy self) = [0%nat; 0%nat]
  /\ count_occ Nat.eq_dec (released (destroy self ++ destroy self)) 0%nat
     = 2%nat.
Proof. repeat split. Qed.

Lemma destroy_releases_actor_list (f : scenario_file) (self : class_of f) :
  released (destroy self) = actor_list self.
Proof.
  destruct f; simpl; rewrite released_map_DestroyActor, app_nil_r;
    reflexivity.
Qed.

Lemma tick_releases_nothing
    (f : scenario_file) (self : class_of f) (world : World)
    (ego_vehicle : Actor) :
  released (events (tick self world ego_vehicle)) = []
  /\ actor_list (self' (tick self world ego_vehicle)) = actor_list self.
Proof. now destruct (tick_has_frame f self world ego_vehicle). Qed.

Lemma construct_releases_nothing
    (f : scenario_file) (fresh : Actor) (fixed_delta_seconds : option R) :
  released (snd (construct f fresh fixed_delta_seconds)) = []
  /\ NoDup (actor_list (fst (construct f fresh fixed_delta_seconds))).
Proof.
  destruct f; simpl; (split; [reflexivity |]);
    repeat (constructor; [simpl; intuition lia |]); constructor.
Qed.

Lemma after_keeps_actor_list
    (f : scenario_file) (ego_vehicle : Actor) (worlds : list World) :
  forall self : class_of f,
    actor_list (after self ego_vehicle worlds) = actor_list self.
Proof.
  induction worlds as [| world worlds IH]; intros self; [reflexivity |].
  rewrite after_cons, IH.
  exact (proj2 (tick_releases_nothing f self world ego_vehicle)).
Qed.

(** C9, amended.  [destroy] sends one [DestroyActor] for every entry of
    the actor list, in order, each time it is called, and raises
    nothing as long as the simulator takes the commands.  The actors of a scenario are distinct and no
    tick changes the actor list, so in whatever state the scenario is,
    one call releases every owned actor exactly once.  A second call is
    not a no-op: two calls name the same set of actors as one call, and
    send every release twice. *)
Theorem destroy_releases_every_actor_on_each_call
    (f : scenario_file) (self : class_of f) :
  released (destroy self) = actor_list self
  /\ released (destroy self ++ destroy self)
     = actor_list self ++ actor_list self
  /\ (forall a : Actor,
         In a (released (destroy self ++ destroy self))
         <-> In a (released (destroy self)))
  /\ (forall a : Actor,
         count_occ Nat.eq_dec (released (destroy self ++ destroy self)) a
         = (2 * count_occ Nat.eq_dec (released (destroy self)) a)%nat)
  /\ (forall (fresh : Actor) (fixed_delta_seconds : option R)
             (ego_vehicle : Actor) (worlds : list World),
         let new := fst (construct f fresh fixed_delta_seconds) in
         let reached := after new ego_vehicle worlds in
         released (destroy reached) = actor_list new
         /\ NoDup (released (destroy reached))
         /\ forall a : Actor,
              In a (actor_list new) ->
              count_occ Nat.eq_dec (released (destroy reached)) a = 1%nat).
Proof.
  pose proof (destroy_releases_actor_list f self) as Hone.
  assert (Htwo : released (destroy self ++ destroy self)
                 = actor_list self ++ actor_list self)
    by (now rewrite released_app, Hone).
  split; [exact Hone | split; [exact Htwo | split; [| split]]].
  - intros a. rewrite Htwo, Hone, in_app_iff. tauto.
  - intros a. rewrite Htwo, Hone, count_occ_app. simpl.
    now rewrite Nat.add_0_r.
  - intros fresh fixed_delta_seconds ego_vehicle worlds new reached.
    destruct (construct_releases_nothing f fresh fixed_delta_seconds)
      as [_ Hdistinct].
    assert (Hall : released (destroy reached) = actor_list new)
      by (subst reached;
          rewrite destroy_releases_actor_list;
          apply after_keeps_actor_list).
    rewrite Hall.
    split; [reflexivity | split; [exact Hdistinct |]].
    intros a Ha. apply NoDup_count_occ'; assumption.
Qed.

(** * Further properties of the code

    What the modelled functions do beyond the specification's claims:
    their edge and error behaviour, what they keep, how they compose. *)

(** ** checks.py *)

Lemma le_shift (a b s : R) : Py.le (a + s) (b + s) = Py.le a b.
Proof.
  unfold Py.le.
  destruct (Rle_dec (a + s) (b + s)), (Rle_dec a b); try reflexivity; lra.
Qed.

Lemma Rmin_shift (a b s : R) : Rmin (a + s) (b + s) = Rmin a b + s.
Proof.
  unfold Rmin. destruct (Rle_dec (a + s) (b + s)), (Rle_dec a b); lra.
Qed.

Lemma Rmax_shift (a b s : R) : Rmax (a + s) (b + s) = Rmax a b + s.
Proof.
  unfold Rmax. destruct (Rle_dec (a + s) (b + s)), (Rle_dec a b); lra.
Qed.

(** X1.  [is_inside_bounding_box] takes any two opposite corners of the
    box, in either order; it ignores the height of the location; and the
    box is closed: its corners are inside. *)
Theorem is_inside_bounding_box_corner_order (l : Location) (a b : Point) :
  is_inside_bounding_box l a b = is_inside_bounding_box l b a
  /\ is_inside_bounding_box l a b
     = is_inside_bounding_box l (fst a, snd b) (fst b, snd a)
  /\ (forall height : R,
         is_inside_bounding_box (mkVector3D (x l) (y l) height) a b
         = is_inside_bounding_box l a b)
  /\ is_inside_bounding_box (mkVector3D (fst a) (snd a) (z l)) a b = true
  /\ is_inside_bounding_box (mkVector3D (fst b) (snd b) (z l)) a b = true.
Proof.
  unfold is_inside_bounding_box. simpl.
  split; [| split; [| split; [| split]]].
  - now rewrite (Rmin_comm (fst a)), (Rmax_comm (fst a)),
      (Rmin_comm (snd a)), (Rmax_comm (snd a)).
  - now rewrite (Rmin_comm (snd a)), (Rmax_comm (snd a)).
  - reflexivity.
  - pose proof (Rmin_l (fst a) (fst b)). pose proof (Rmax_l (fst a) (fst b)).
    pose proof (Rmin_l (snd a) (snd b)). pose proof (Rmax_l (snd a) (snd b)).
    unfold Py.le.
    repeat match goal with
           | |- context [Rle_dec ?u ?v] => destruct (Rle_dec u v); try lra
           end;
      try reflexivity.
  - pose proof (Rmin_r (fst a) (fst b)). pose proof (Rmax_r (fst a) (fst b)).
    pose proof (Rmin_r (snd a) (snd b)). pose proof (Rmax_r (snd a) (snd b)).
    unfold Py.le.
    repeat match goal with
           | |- context [Rle_dec ?u ?v] => destruct (Rle_dec u v); try lra
           end;
      try reflexivity.
Qed.

(** X2.  [update_trigger_points] moves the box as a whole: a location
    moved by the same amount along the same axis is inside the updated
    box exactly if the location was inside the box before. *)
Theorem update_trigger_points_moves_the_box
    (tp : TriggerPoints) (l : Location) (s : R) (add_speed add_to_x : bool) :
  let tp' := update_trigger_points tp s add_speed add_to_x in
  let d := if add_speed then s else - s in
  let l' :=
    if add_to_x then mkVector3D (x l + d) (y l) (z l)
    else mkVector3D (x l) (y l + d) (z l) in
  is_inside_bounding_box l' (fst tp') (snd tp')
  = is_inside_bounding_box l (fst tp) (snd tp).
Proof.
  destruct tp as [[ax ay] [bx by_]].
  destruct add_speed, add_to_x; unfold update_trigger_points,
    is_inside_bounding_box, Rminus; simpl;
    rewrite ?Rmin_shift, ?Rmax_shift, ?le_shift; reflexivity.
Qed.

(** X3.  On real numbers, subtracting the speed undoes adding it (and the
    other way round), two updates along one axis add up, and updates
    along the two axes commute. *)
Theorem update_trigger_points_undo_and_add
    (tp : TriggerPoints) (s s1 s2 : R) (add_speed add2 add_to_x : bool) :
  update_trigger_points (update_trigger_points tp s add_speed add_to_x)
                        s (negb add_speed) add_to_x
  = tp
  /\ update_trigger_points (update_trigger_points tp s1 add_speed add_to_x)
                           s2 add_speed add_to_x
     = update_trigger_points tp (s1 + s2) add_speed add_to_x
  /\ update_trigger_points (update_trigger_points tp s1 add_speed true)
                           s2 add2 false
     = update_trigger_points (update_trigger_points tp s2 add2 false)
                             s1 add_speed true.
Proof.
  destruct tp as [[ax ay] [bx by_]].
  repeat split; destruct add_speed, add2, add_to_x;
    unfold update_trigger_points; simpl;
    apply f_equal2; apply f_equal2; lra.
Qed.

Lemma sum_of_squares_nonneg (a b c : R) : 0 <= a * a + b * b + c * c.
Proof. nra. Qed.

(** X4.  The speed of a vehicle is never negative, is zero exactly when
    the vehicle does not move, is at least the velocity along each axis
    and at most the sum of the three. *)
Theorem get_vehicle_speed_bounds (vehicle : ActorState) :
  let v := get_velocity vehicle in
  0 <= get_vehicle_speed vehicle
  /\ (get_vehicle_speed vehicle = 0 <-> x v = 0 /\ y v = 0 /\ z v = 0)
  /\ Rabs (x v) <= get_vehicle_speed vehicle
  /\ Rabs (y v) <= get_vehicle_speed vehicle
  /\ Rabs (z v) <= get_vehicle_speed vehicle
  /\ get_vehicle_speed vehicle <= Rabs (x v) + Rabs (y v) + Rabs (z v).
Proof.
  intros v. unfold get_vehicle_speed, norm, Py.pow_half, Py.pow2. fold v.
  set (a := x v). set (b := y v). set (c := z v).
  pose proof (sum_of_squares_nonneg a b c) as Hs.
  assert (Hcomp : forall u : R, u * u <= a * a + b * b + c * c ->
                                Rabs u <= sqrt (a * a + b * b + c * c)).
  { intros u Hu. rewrite <- sqrt_Rsqr_abs. apply sqrt_le_1_alt.
    unfold Rsqr. exact Hu. }
  split; [apply sqrt_pos |].
  split; [| repeat split].
  - split.
    + intros H0. apply sqrt_eq_0 in H0; [| exact Hs].
      repeat split; nra.
    + intros (Ha & Hb & Hc). rewrite Ha, Hb, Hc.
      replace (0 * 0 + 0 * 0 + 0 * 0) with 0 by lra. apply sqrt_0.
  - apply Hcomp. nra.
  - apply Hcomp. nra.
  - apply Hcomp. nra.
  - pose proof (Rabs_pos a). pose proof (Rabs_pos b). pose proof (Rabs_pos c).
    apply Rsqr_incr_0_var; [| lra].
    rewrite Rsqr_sqrt by exact Hs. unfold Rsqr.
    assert (Ha : Rabs a * Rabs a = a * a)
      by (rewrite <- Rabs_mult; apply Rabs_right; nra).
    assert (Hb : Rabs b * Rabs b = b * b)
      by (rewrite <- Rabs_mult; apply Rabs_right; nra).
    assert (Hc : Rabs c * Rabs c = c * c)
      by (rewrite <- Rabs_mult; apply Rabs_right; nra).
    nra.
Qed.

(** X5.  [adjust_car_location] moves the location along the forward
    vector: the distance between the adjusted and the original location
    is the bumper offset (its absolute value) times the length of the
    forward vector; and adjusting by the opposite offset leads back. *)
Theorem adjust_car_location_distance
    (car_location : Location) (forward_vector : Vector3D) (bumper_offset : R) :
  let adjusted :=
    adjust_car_location car_location forward_vector bumper_offset in
  norm (mkVector3D (x adjusted - x car_location)
                   (y adjusted - y car_location)
                   (z adjusted - z car_location))
  = Rabs bumper_offset * norm forward_vector
  /\ adjust_car_location adjusted forward_vector (- bumper_offset)
     = car_location.
Proof.
  intros adjusted. subst adjusted. destruct car_location as [lx ly lz].
  destruct forward_vector as [fx fy fz].
  unfold adjust_car_location, norm, Py.pow_half, Py.pow2. simpl. split.
  - rewrite <- sqrt_Rsqr_abs, <- sqrt_mult_alt by apply Rle_0_sqr.
    f_equal. unfold Rsqr. ring.
  - f_equal; ring.
Qed.

(** X6.  [calculate_required_speed] raises exactly when the car is not
    slower than 0.1 and is level with the pedestrian along the axis the
    pedestrian does not walk along (x if the pedestrian's direction has a
    nonzero x component, y otherwise); what it raises is
    [ZeroDivisionError]; and a speed it returns is never negative. *)
Theorem calculate_required_speed_raises_iff
    (car : Location) (vel : Vector3D) (ped : Location) (dir : Vector3D) :
  let level :=
    if Py.ne (x dir) 0 then y car = y ped else x car = x ped in
  ((exists e, calculate_required_speed car vel ped dir = Py.Raise e)
   <-> ~ norm vel < 0.1 /\ level)
  /\ (forall e, calculate_required_speed car vel ped dir = Py.Raise e ->
                e = Py.ZeroDivisionError)
  /\ (forall r, calculate_required_speed car vel ped dir = Py.Ok r ->
                0 <= r).
Proof.
  intros level. subst level.
  unfold calculate_required_speed. cbv zeta.
  pose proof (norm_nonneg vel) as Hn.
  destruct (Py.lt (norm vel) 0.1) eqn:Hlt.
  - apply lt_spec in Hlt. split; [split | split].
    + intros [e He]. discriminate.
    + intros [Hs _]. contradiction.
    + intros e He. discriminate.
    + intros r Hr. injection Hr as <-. lra.
  - assert (Hs : ~ norm vel < 0.1)
      by (intros H; apply lt_spec in H; congruence).
    assert (Hspeed : norm vel <> 0) by lra.
    assert (Hquot : forall p t : R,
      0 <= p -> 0 <= t ->
      ((exists e, (time <- Py.truediv p (norm vel) ;; Py.truediv t time)
                  = Py.Raise e) <-> p = 0)
      /\ (forall e, (time <- Py.truediv p (norm vel) ;; Py.truediv t time)
                    = Py.Raise e -> e = Py.ZeroDivisionError)
      /\ (forall r, (time <- Py.truediv p (norm vel) ;; Py.truediv t time)
                    = Py.Ok r -> 0 <= r)).
    { intros p t Hp Ht. rewrite (truediv_ok _ _ Hspeed). simpl.
      unfold Py.truediv. destruct (Req_dec_T (p / norm vel) 0) as [Hz | Hz].
      - assert (Hp0 : p = 0).
        { apply Rmult_eq_compat_r with (r := norm vel) in Hz.
          unfold Rdiv in Hz. rewrite Rmult_assoc, Rinv_l in Hz by exact Hspeed.
          lra. }
        split; [split | split].
        + intros _. exact Hp0.
        + intros _. eexists. reflexivity.
        + intros e He. congruence.
        + intros r Hr. discriminate.
      - split; [split | split].
        + intros [e He]. discriminate.
        + intros ->. exfalso. apply Hz. unfold Rdiv. apply Rmult_0_l.
        + intros e He. discriminate.
        + intros r Hr. injection Hr as <-.
          assert (0 < p / norm vel).
          { assert (0 <= p / norm vel)
              by (apply Rmult_le_pos; [exact Hp |];
                  left; apply Rinv_0_lt_compat; lra).
            lra. }
          apply Rmult_le_pos; [exact Ht |].
          left. now apply Rinv_0_lt_compat. }
    assert (Hzero : forall a b : R, Rabs (a - b) = 0 <-> a = b).
    { intros a b. split.
      - intros H. destruct (Req_dec a b) as [| Hne]; [assumption |].
        exfalso. apply (Rabs_no_R0 (a - b)); [lra | exact H].
      - intros ->. replace (b - b) with 0 by lra. apply Rabs_R0. }
    destruct (Py.ne (x dir) 0).
    + destruct (Hquot (Rabs (y car - y ped)) (Rabs (x car - x ped))
                  (Rabs_pos _) (Rabs_pos _)) as (Hiff & Hexn & Hpos).
      split; [| split; [exact Hexn | exact Hpos]].
      split.
      * intros H. split; [exact Hs |]. apply Hzero. now apply Hiff.
      * intros [_ Hl]. apply Hiff. now apply Hzero.
    + destruct (Hquot (Rabs (x car - x ped)) (Rabs (y car - y ped))
                  (Rabs_pos _) (Rabs_pos _)) as (Hiff & Hexn & Hpos).
      split; [| split; [exact Hexn | exact Hpos]].
      split.
      * intros H. split; [exact Hs |]. apply Hzero. now apply Hiff.
      * intros [_ Hl]. apply Hiff. now apply Hzero.
Qed.

(** X7.  The speed [calculate_required_speed] returns for a moving car
    takes the pedestrian to the car's line in the time the car takes to
    reach the pedestrian's line: the speed times (the car's distance to
    the pedestrian's line divided by the car's speed) is the pedestrian's
    distance to the car's line. *)
Theorem calculate_required_speed_meets_the_car
    (car : Location) (vel : Vector3D) (ped : Location) (dir : Vector3D)
    (required_speed : R) :
  ~ norm vel < 0.1 ->
  calculate_required_speed car vel ped dir = Py.Ok required_speed ->
  let along_x := Py.ne (x dir) 0 in
  let distance_to_pedestrian_path :=
    if along_x then Rabs (y car - y ped) else Rabs (x car - x ped) in
  let distance_to_intersect :=
    if along_x then Rabs (x car - x ped) else Rabs (y car - y ped) in
  distance_to_pedestrian_path <> 0
  /\ required_speed * (distance_to_pedestrian_path / norm vel)
     = distance_to_intersect.
Proof.
  intros Hs Hok along_x path travel. subst along_x path travel.
  pose proof (norm_nonneg vel) as Hn.
  assert (Hspeed : norm vel <> 0) by lra.
  unfold calculate_required_speed in Hok.
  destruct (Py.lt (norm vel) 0.1) eqn:Hlt;
    [apply lt_spec in Hlt; contradiction |].
  assert (Hquot : forall p t : R,
    (time <- Py.truediv p (norm vel) ;; Py.truediv t time)
    = Py.Ok required_speed ->
    p <> 0 /\ required_speed * (p / norm vel) = t).
  { intros p t. rewrite (truediv_ok _ _ Hspeed). simpl.
    unfold Py.truediv. destruct (Req_dec_T (p / norm vel) 0) as [Hz | Hz];
      [discriminate |].
    intros H. injection H as <-. split.
    - intros ->. apply Hz. unfold Rdiv. apply Rmult_0_l.
    - unfold Rdiv at 1. rewrite Rmult_assoc, Rinv_l by exact Hz. lra. }
  destruct (Py.ne (x dir) 0); now apply Hquot.
Qed.

Lemma calculate_required_speed_meets_the_car_witness :
  let car := Loc 2 0 0 in
  let vel := mkVector3D 3 0 0 in
  let ped := Loc 0 1 0 in
  let dir := mkVector3D 0 (-1) 0 in
  ~ norm vel < 0.1
  /\ calculate_required_speed car vel ped dir = Py.Ok (3 / 2)
  /\ (3 / 2)
      * ((if Py.ne (x dir) 0 then Rabs (y car - y ped)
          else Rabs (x car - x ped)) / norm vel)
     = (if Py.ne (x dir) 0 then Rabs (x car - x ped)
        else Rabs (y car - y ped)).
Proof.
  intros car vel ped dir.
  assert (Hn : norm vel = 3) by (apply norm_along_x; lra).
  assert (Hs : ~ norm vel < 0.1) by (rewrite Hn; lra).
  assert (Hok : calculate_required_speed car vel ped dir = Py.Ok (3 / 2)).
  { unfold calculate_required_speed. rewrite Hn. simpl.
    decide_reals; simpl; decide_reals; f_equal; lra. }
  split; [exact Hs | split; [exact Hok |]].
  exact (proj2 (calculate_required_speed_meets_the_car
                  car vel ped dir (3 / 2) Hs Hok)).
Defined.

(** ** The life of a scenario object *)

Ltac unfold_scenarios :=
  unfold SquirrelRunningAcrossTheRoad.tick, StaticCarCrash_1.tick,
    BoyFootball.tick, ParkingHGV.tick, DangerousExcavator.tick,
    LooseZooAnimals.tick, CarForwardParkingAndReverseNoHarm.tick,
    CarForwardStoppingDropoff.tick,
    CarForwardParkingAndReverseNoHarm.reach,
    CarForwardParkingAndReverseNoHarm.wait,
    CarForwardParkingAndReverseNoHarm.count_down,
    CarForwardStoppingDropoff.reach, CarForwardStoppingDropoff.wait,
    CarForwardStoppingDropoff.count_down,
    SquirrelRunningAcrossTheRoad.trigger, StaticCarCrash_1.trigger,
    BoyFootball.trigger, ParkingHGV.trigger, DangerousExcavator.trigger,
    LooseZooAnimals.trigger, CarForwardParkingAndReverseNoHarm.trigger,
    CarForwardStoppingDropoff.trigger, try_.

(** What [destroy] sends does not depend on the ticks the object has
    been through: [destroy] reads the actor list and the sensor handle,
    and no [tick] assigns them. *)
Lemma destroy_after_tick
    (f : scenario_file) (self : class_of f) (world : World)
    (ego_vehicle : Actor) :
  destroy (self' (tick self world ego_vehicle)) = destroy self.
Proof.
  destruct f; simpl;
    unfold_scenarios; unfold ParkingHGV.advance, ParkingHGV.reach;
    first
      [ solve
          [ repeat (lazy beta iota zeta;
                    match goal with
                    | |- _ (self' (if ?b then _ else _)) = _ => destruct b
                    | |- _ (self' (match ?m with
                                   | Py.Ok _ => _
                                   | Py.Raise _ => _
                                   end)) = _ => destruct m
                    end);
            cbn [self'];
            repeat match goal with
                   | |- context [if ?b then _ else _] => destruct b
                   end;
            reflexivity ]
      | repeat (lazy beta iota zeta;
                match goal with
                | |- context [if ?b then _ else _] => destruct b
                | |- context [match ?m with
                              | Py.Ok _ => _
                              | Py.Raise _ => _
                              end] => destruct m
                end);
        reflexivity ].
Qed.

(** X8.  An idle scenario is triggered by a tick exactly if that tick
    finds the ego vehicle inside the current trigger area.  The tick that
    triggers it ends by printing a line; a tick that leaves it idle sends
    and prints nothing. *)
Theorem idle_tick_triggers_iff_inside
    (f : scenario_file) (self : class_of f) (world : World)
    (ego_vehicle : Actor) :
  triggered self = false ->
  let o := tick self world ego_vehicle in
  let inside :=
    is_inside_bounding_box (location (get_transform (world ego_vehicle)))
      (fst (trigger_area self)) (snd (trigger_area self)) in
  triggered (self' o) = inside
  /\ (inside = false -> events o = [])
  /\ (inside = true -> exists evs msg, events o = evs ++ [print msg]).
Proof.
  intros Htr o inside. subst o inside.
  destruct f; simpl in *; unfold_scenarios; rewrite Htr;
    unfold CarForwardStoppingDropoff.trigger_area;
    match goal with
    | |- context [is_inside_bounding_box ?l ?a ?b] =>
        destruct (is_inside_bounding_box l a b)
    end;
    simpl; (split; [first [reflexivity | assumption] |]);
    (split; [intros; first [reflexivity | discriminate] |]);
    intros; try discriminate;
    first [ exists []; eexists; reflexivity
          | eexists [_; _]; eexists; reflexivity
          | eexists [_; _; _]; eexists; reflexivity ].
Qed.

Lemma idle_tick_triggers_iff_inside_witness :
  triggered (self' (tick (fst (construct spawn_static_car_crash_1 0%nat (Some 0.05)))
                         in_tunnel_exit ego))
  = is_inside_bounding_box (location (get_transform (in_tunnel_exit ego)))
      (fst (trigger_area (fst (construct spawn_static_car_crash_1 0%nat (Some 0.05)))))
      (snd (trigger_area (fst (construct spawn_static_car_crash_1 0%nat (Some 0.05))))).
Proof.
  exact (proj1 (idle_tick_triggers_iff_inside spawn_static_car_crash_1
                  (fst (construct spawn_static_car_crash_1 0%nat (Some 0.05)))
                  in_tunnel_exit ego eq_refl)).
Defined.

(** *** Whom a tick talks to *)

Ltac addressed :=
  repeat (apply Forall_cons; [simpl; auto 10 |]);
  first [apply Forall_nil | assumption].

Ltac commands_leaf :=
  lazy beta iota zeta;
  repeat match goal with
         | |- context [if ?b then _ else _] => destruct b
         end;
  unfold commands_only; simpl; (split; [addressed | reflexivity]).

Lemma advance_commands_only (self : ParkingHGV.t) (l : Location) :
  Forall (addressed_to [ParkingHGV.hgv_actor self;
                        ParkingHGV.collision_sensor self])
         (snd (fst (ParkingHGV.advance self l)))
  /\ exists cp,
       fst (fst (ParkingHGV.advance self l))
       = ParkingHGV.set_checkpoint cp self.
Proof.
  split.
  - unfold ParkingHGV.advance, ParkingHGV.reach.
    repeat match goal with
           | |- context [if ?b then _ else _] => destruct b
           | |- context [match ?m with Py.Ok _ => _ | Py.Raise _ => _ end] =>
               destruct m
           end; simpl; addressed.
  - destruct (advance_changes_checkpoints_only self l) as (cp & Hcp & _).
    now exists cp.
Qed.

Lemma ParkingHGV_commands_only
    (self : ParkingHGV.t) (world : World) (ego_vehicle : Actor) :
  commands_only (own_actors spawn_parking_HGV) self
                (ParkingHGV.tick self world ego_vehicle).
Proof.
  unfold ParkingHGV.tick, ParkingHGV.trigger, try_. simpl.
  destruct (ParkingHGV.triggered self);
    [destruct (ParkingHGV.collision_detected self) |].
  - commands_leaf.
  - destruct (advance_commands_only self
                (location (get_transform (world (ParkingHGV.hgv_actor self)))))
      as [Hevs [cp Hcp]].
    destruct (ParkingHGV.advance self _) as [[self1 evs] through].
    simpl in Hevs, Hcp. subst self1.
    destruct through; simpl;
      repeat match goal with
             | |- context [if ?b then _ else _] => destruct b
             end;
      unfold commands_only; simpl;
      (split; [| reflexivity]);
      try (apply Forall_app; split); try assumption; addressed.
  - destruct (is_inside_bounding_box _ _ _); commands_leaf.
Qed.

Lemma tick_commands_only
    (f : scenario_file) (self : class_of f) (world : World)
    (ego_vehicle : Actor) :
  commands_only (own_actors f) self (tick self world ego_vehicle).
Proof.
  destruct f; simpl; try apply ParkingHGV_commands_only;
    unfold_scenarios; outcome_branches; commands_leaf.
Qed.

Lemma addressed_spawn_nothing (own : list Actor) (evs : list Event) :
  Forall (addressed_to own) evs -> spawned evs = [] /\ released evs = [].
Proof.
  induction 1 as [| e evs He _ [IHs IHr]]; [split; reflexivity |].
  destruct e; simpl in *; auto; contradiction.
Qed.

Lemma spawned_app (l1 l2 : list Event) :
  spawned (l1 ++ l2) = spawned l1 ++ spawned l2.
Proof.
  induction l1 as [| e l1 IH]; [reflexivity |].
  destruct e; simpl; rewrite ?IH; reflexivity.
Qed.

Lemma destroy_spawns_nothing (f : scenario_file) (self : class_of f) :
  spawned (destroy self) = [].
Proof. destruct f; reflexivity. Qed.

Lemma construct_owns_what_it_spawns
    (f : scenario_file) (fresh : Actor) (fixed_delta_seconds : option R) :
  let new := construct f fresh fixed_delta_seconds in
  Permutation (spawned (snd new)) (actor_list (fst new))
  /\ incl (own_actors f (fst new)) (actor_list (fst new)).
Proof.
  destruct f; simpl; split;
    try (intros a; simpl; tauto);
    first [ reflexivity
          | apply perm_swap
          | apply perm_skip; apply perm_swap ].
Qed.

(** The events of [destroy]: the batch comes last, and nothing before it
    creates or destroys an actor. *)
Lemma destroy_ends_with_the_batch (f : scenario_file) (self : class_of f) :
  exists before : list Event,
    destroy self = before ++ [apply_batch (map DestroyActor (actor_list self))]
    /\ spawned before = [] /\ released before = [].
Proof.
  destruct f; simpl;
    first [ eexists [_; _]; repeat split; reflexivity
          | eexists [_; _; _]; repeat split; reflexivity ].
Qed.

Lemma destroy_cut_short
    (f : scenario_file) (self : class_of f) (n : nat) :
  spawned (firstn n (destroy self)) = []
  /\ (released (firstn n (destroy self)) = []
      \/ released (firstn n (destroy self)) = actor_list self)
  /\ ((List.length (destroy self) <= n)%nat ->
      released (firstn n (destroy self)) = actor_list self)
  /\ ((n < List.length (destroy self))%nat ->
      released (firstn n (destroy self)) = []).
Proof.
  destruct (destroy_ends_with_the_batch f self)
    as (before & Hdestroy & Hspawned & Hreleased).
  assert (Hall : released (destroy self) = actor_list self)
    by apply destroy_releases_actor_list.
  assert (Hnone : spawned (destroy self) = [])
    by apply destroy_spawns_nothing.
  destruct (Nat.le_gt_cases (List.length (destroy self)) n) as [Hle | Hlt].
  - rewrite (firstn_all2 _ Hle).
    repeat split; auto. intros; lia.
  - assert (Hshort : firstn n (destroy self) = firstn n before).
    { rewrite Hdestroy, firstn_app.
      rewrite Hdestroy, length_app in Hlt. simpl in Hlt.
      replace (n - List.length before)%nat with 0%nat by lia.
      simpl. apply app_nil_r. }
    assert (Hsplit := firstn_skipn n before).
    assert (Hs : spawned (firstn n before) = []).
    { rewrite <- Hsplit, spawned_app in Hspawned.
      now apply app_eq_nil in Hspawned. }
    assert (Hr : released (firstn n before) = []).
    { rewrite <- Hsplit, released_app in Hreleased.
      now apply app_eq_nil in Hreleased. }
    rewrite Hshort.
    repeat split; auto. intros; lia.
Qed.

Lemma finally_releases
    (f : scenario_file) (sc : class_of f) (cut : option nat) :
  spawned (finally_ (Some sc) cut) = []
  /\ (released (finally_ (Some sc) cut) = []
      \/ released (finally_ (Some sc) cut) = actor_list sc)
  /\ (cut = None -> released (finally_ (Some sc) cut) = actor_list sc).
Proof.
  destruct cut as [n |]; simpl.
  - destruct (destroy_cut_short f sc n) as (Hs & Hr & _).
    repeat split; auto. discriminate.
  - rewrite destroy_spawns_nothing, destroy_releases_actor_list. auto.
Qed.

(** A call that is cut short has spawned and released a part of what the
    whole call does. *)
Lemma cut_short_spawns_nothing (evs : list Event) (n : nat) :
  spawned evs = [] -> released evs = [] ->
  spawned (firstn n evs) = [] /\ released (firstn n evs) = [].
Proof.
  intros Hs Hr.
  rewrite <- (firstn_skipn n evs), spawned_app in Hs.
  rewrite <- (firstn_skipn n evs), released_app in Hr.
  apply app_eq_nil in Hs, Hr. tauto.
Qed.

Lemma tick_spawns_nothing
    (f : scenario_file) (self : class_of f) (world : World)
    (ego_vehicle : Actor) :
  spawned (events (tick self world ego_vehicle)) = []
  /\ released (events (tick self world ego_vehicle)) = [].
Proof.
  destruct (tick_commands_only f self world ego_vehicle) as [Hevs _].
  exact (addressed_spawn_nothing _ _ Hevs).
Qed.

(** The loop once the scenario is there: it spawns nothing, and releases
    nothing, or the actor list, or the actor list twice. *)
Lemma main_loop_spawns_and_releases
    (f : scenario_file) (new : class_of f * list Event) (ego_vehicle : Actor)
    (interrupt : Interrupt) (cut : option nat) (worlds : list World) :
  forall (sc : class_of f) (scenario_timer : Z),
    let run :=
      main_loop new ego_vehicle (Some sc) scenario_timer worlds interrupt cut
    in
    spawned (log run) = []
    /\ (released (log run) = [] \/ released (log run) = actor_list sc
        \/ released (log run) = actor_list sc ++ actor_list sc)
    /\ (interrupt = between_calls -> cut = None ->
        released (log run) = actor_list sc).
Proof.
  induction worlds as [| world worlds IH]; intros sc scenario_timer run;
    subst run; cbn [main_loop].
  - destruct (finally_releases f sc cut) as (Hfs & Hfr & Hfull).
    destruct interrupt as [| world sent]; cbn [log].
    + repeat split; auto. tauto.
    + assert (Hcall :
                spawned
                  (firstn sent
                     (if (scenario_timer >? 0)%Z
                      then events (tick sc world ego_vehicle)
                      else destroy sc)) = []
                /\ (released
                      (firstn sent
                         (if (scenario_timer >? 0)%Z
                          then events (tick sc world ego_vehicle)
                          else destroy sc)) = []
                    \/ released
                         (firstn sent
                            (if (scenario_timer >? 0)%Z
                             then events (tick sc world ego_vehicle)
                             else destroy sc)) = actor_list sc)).
      { destruct (scenario_timer >? 0)%Z.
        - destruct (tick_spawns_nothing f sc world ego_vehicle) as [Hs Hr].
          destruct (cut_short_spawns_nothing _ sent Hs Hr). auto.
        - destruct (destroy_cut_short f sc sent) as (Hs & Hr & _). auto. }
      destruct Hcall as [Hcs Hcr].
      rewrite spawned_app, released_app, Hcs, Hfs.
      split; [reflexivity | split; [| discriminate]].
      destruct Hcr as [-> | ->], Hfr as [-> | ->];
        rewrite ?app_nil_r; cbn [app]; auto.
  - destruct (scenario_timer >? 0)%Z.
    + destruct (tick_spawns_nothing f sc world ego_vehicle) as [Hs Hr].
      destruct (tick_has_frame f sc world ego_vehicle) as [_ Hal _ _ _].
      destruct (returned (tick sc world ego_vehicle)) as [sucess | e];
        cbn [log before].
      * rewrite spawned_app, released_app, Hs, Hr. cbn [app].
        rewrite <- Hal. apply IH.
      * destruct (finally_releases f (self' (tick sc world ego_vehicle)) cut)
          as (Hfs & Hfr & Hfull).
        rewrite spawned_app, released_app, Hs, Hr, Hfs. cbn [app].
        rewrite <- Hal. repeat split; auto. tauto.
    + cbn [log]. rewrite destroy_spawns_nothing, destroy_releases_actor_list.
      auto.
Qed.

(** When the ticks so far have brought the driver's timer to 0, by a
    tick that returned 1 or by 600 ticks that returned 0, the next call
    is [destroy]; interrupted after its batch has been sent, it is
    followed by the [destroy] of the [finally] block. *)
Lemma main_loop_releases_twice
    (f : scenario_file) (new : class_of f * list Event) (ego_vehicle : Actor)
    (world : World) (sent : nat) (ticked : list World) :
  forall (sc : class_of f) (scenario_timer : Z) (n : nat),
    (codes (main_loop new ego_vehicle (Some sc) scenario_timer ticked
                      between_calls None)
     = repeat (Py.Ok 0%Z) n ++ [Py.Ok 1%Z]
     /\ List.length ticked = S n
     \/ codes (main_loop new ego_vehicle (Some sc) scenario_timer ticked
                         between_calls None)
        = repeat (Py.Ok 0%Z) n
        /\ List.length ticked = n /\ scenario_timer = Z.of_nat n) ->
    (List.length (destroy sc) <= sent)%nat ->
    released (log (main_loop new ego_vehicle (Some sc) scenario_timer ticked
                             (within_call world sent) None))
    = actor_list sc ++ actor_list sc.
Proof.
  induction ticked as [| w ticked IH]; intros sc scenario_timer n Hticks Hsent.
  - destruct Hticks as [[_ Hlen] | (_ & Hlen & Htimer)]; [discriminate |].
    simpl in Hlen. subst n scenario_timer.
    cbn [main_loop Z.of_nat Z.gtb Z.compare log finally_].
    destruct (destroy_cut_short f sc sent) as (_ & _ & Hfull & _).
    rewrite released_app, (Hfull Hsent), destroy_releases_actor_list.
    reflexivity.
  - assert (Hlength : List.length (destroy (self' (tick sc w ego_vehicle)))
                      = List.length (destroy sc))
      by (destruct f; reflexivity).
    cbn [main_loop] in *.
    destruct (scenario_timer >? 0)%Z eqn:Hpos.
    + destruct (tick_spawns_nothing f sc w ego_vehicle) as [_ Hr].
      destruct (tick_has_frame f sc w ego_vehicle) as [_ Hal _ _ _].
      destruct (returned (tick sc w ego_vehicle)) as [sucess | e] eqn:Hret;
        cbn [codes before log app] in *.
      * rewrite released_app, Hr. cbn [app]. rewrite <- Hal.
        destruct (sucess =? 1)%Z eqn:Hone.
        -- (* the tick returned 1: no further tick *)
           apply Z.eqb_eq in Hone. subst sucess.
           rewrite main_loop_done in Hticks.
           apply (IH _ 0%Z 0%nat); [| rewrite Hlength; exact Hsent].
           right. rewrite main_loop_done.
           destruct Hticks as [[Hcodes Hlen] | (Hcodes & Hlen & _)].
           ++ destruct n as [| n]; [| destruct n; discriminate].
              injection Hlen as Hlen. auto.
           ++ destruct n as [| n]; discriminate.
        -- apply Z.eqb_neq in Hone.
           apply Z.gtb_lt in Hpos.
           destruct n as [| n].
           ++ destruct Hticks as [[Hcodes _] | (Hcodes & _)];
                [| discriminate].
              injection Hcodes as Hcodes _. congruence.
           ++ apply (IH _ (scenario_timer - 1)%Z n);
                [| rewrite Hlength; exact Hsent].
              destruct Hticks as [[Hcodes Hlen] | (Hcodes & Hlen & Htimer)].
              ** left. simpl in Hcodes. injection Hcodes as _ Hcodes.
                 injection Hlen as Hlen. auto.
              ** right. simpl in Hcodes. injection Hcodes as _ Hcodes.
                 injection Hlen as Hlen. repeat split; auto. lia.
      * destruct Hticks as [[Hcodes _] | (Hcodes & _)];
          destruct n as [| n]; try discriminate;
          destruct n; discriminate.
    + (* the loop has ended with [destroy] *)
      cbn [codes] in Hticks.
      destruct Hticks as [[Hcodes _] | (Hcodes & Hlen & _)].
      * destruct n; discriminate.
      * destruct n; discriminate.
Qed.

(** X9.  A run of the driver of one of the eight scenario files, wherever
    it is interrupted.  No tick spawns or destroys an actor; what the run
    spawns is what the constructor has spawned when it ends.  The actors
    it releases are none, or the actor list of the scenario once, or that
    list twice; twice, when the ticks have run their course (one returned
    1, or 600 returned 0) and the interrupt falls in the following
    [destroy] after the batch has been sent, before [Scenario = None]:
    the [finally] block calls [destroy] again.  A run that is interrupted
    within no call, and whose [finally] block runs to its end, releases
    the actor list exactly once, and that is what it has spawned.  A
    constructor that is interrupted (or in which a spawn fails) leaves
    what it has spawned so far unreleased. *)
Theorem main_releases_what_it_spawned
    (f : scenario_file) (fresh : Actor) (fixed_delta_seconds : option R)
    (ego_vehicle : Actor) (worlds : list World) (interrupt : Interrupt)
    (cut : option nat) :
  let new := construct f fresh fixed_delta_seconds in
  let actors := actor_list (fst new) in
  let run :=
    main f fresh fixed_delta_seconds ego_vehicle worlds interrupt cut in
  (forall (self : class_of f) (world : World),
      spawned (events (tick self world ego_vehicle)) = []
      /\ released (events (tick self world ego_vehicle)) = [])
  /\ (exists sent : nat, spawned (log run) = spawned (firstn sent (snd new)))
  /\ (released (log run) = [] \/ released (log run) = actors
      \/ released (log run) = actors ++ actors)
  /\ (worlds <> [] -> interrupt = between_calls -> cut = None ->
      spawned (log run) = spawned (snd new)
      /\ released (log run) = actors
      /\ NoDup (released (log run))
      /\ Permutation (spawned (log run)) (released (log run)))
  /\ (forall (world : World) (sent : nat),
      worlds = [] -> interrupt = within_call world sent ->
      spawned (log run) = spawned (firstn sent (snd new))
      /\ released (log run) = [])
  /\ (forall (first world : World) (ticked : list World) (n sent : nat),
      worlds = first :: ticked ->
      interrupt = within_call world sent ->
      cut = None ->
      let so_far :=
        codes (main f fresh fixed_delta_seconds ego_vehicle worlds
                    between_calls None) in
      (so_far = repeat (Py.Ok 0%Z) n ++ [Py.Ok 1%Z]
       /\ List.length ticked = S n
       \/ so_far = repeat (Py.Ok 0%Z) 600 /\ List.length ticked = 600%nat) ->
      (List.length (destroy (fst new)) <= sent)%nat ->
      released (log run) = actors ++ actors).
Proof.
  intros new actors run. subst actors run. unfold main. fold new.
  destruct (construct_releases_nothing f fresh fixed_delta_seconds)
    as [Hrel Hdistinct].
  destruct (construct_owns_what_it_spawns f fresh fixed_delta_seconds)
    as [Hperm _].
  fold new in Hrel, Hdistinct, Hperm.
  split; [intros; apply tick_spawns_nothing |].
  destruct worlds as [| first ticked].
  - (* the constructor has not run to its end *)
    assert (Hcut : forall sent,
               released (firstn sent (snd new)) = []).
    { intros sent. rewrite <- (firstn_skipn sent (snd new)), released_app
        in Hrel. now apply app_eq_nil in Hrel. }
    destruct interrupt as [| world sent]; simpl.
    + split; [exists 0%nat; reflexivity |].
      split; [auto |].
      split; [congruence |].
      split; [discriminate | discriminate].
    + split; [exists sent; reflexivity |].
      rewrite Hcut.
      split; [auto |].
      split; [congruence |].
      split; [| discriminate].
      intros world' sent' _ H. injection H as _ <-. auto.
  - destruct (main_loop_spawns_and_releases f new ego_vehicle interrupt cut
                ticked (fst new) 600%Z) as (Hs & Hr & Hfull).
    cbn [main_loop before log].
    rewrite spawned_app, released_app, Hs, Hrel, app_nil_r. simpl.
    split; [exists (List.length (snd new)); now rewrite firstn_all |].
    split; [exact Hr |].
    split.
    { intros _ Hi Hc. rewrite (Hfull Hi Hc).
      repeat split; auto. }
    split; [discriminate |].
    intros first' world ticked' n sent Hworlds -> -> Hticks Hsent.
    injection Hworlds as <- <-.
    cbn [main_loop before codes app] in Hticks.
    destruct Hticks as [[Hcodes Hlen] | [Hcodes Hlen]].
    + apply (main_loop_releases_twice f new ego_vehicle world sent ticked
               (fst new) 600%Z n); [left; auto | exact Hsent].
    + apply (main_loop_releases_twice f new ego_vehicle world sent ticked
               (fst new) 600%Z 600%nat); [right; auto | exact Hsent].
Qed.

Lemma StaticCarCrash_1_triggers_in_tunnel_exit :
  tick (fst (construct spawn_static_car_crash_1 0%nat (Some 0.05)))
       in_tunnel_exit ego
  = mkOutcome (crash_triggered : class_of spawn_static_car_crash_1)
      [print "Scenario -Static Car Crash near tunnel- has been triggered!"]
      (Py.Ok 0%Z).
Proof.
  cbn [tick class_of_Scenario StaticCarCrash_1_Scenario construct].
  unfold StaticCarCrash_1.tick.
  cbn [StaticCarCrash_1.__init__ fst StaticCarCrash_1.triggered
         StaticCarCrash_1.trigger_area].
  unfold in_tunnel_exit, with_actor. simpl.
  rewrite StaticCarCrash_1_inside_tunnel_exit. reflexivity.
Qed.

Lemma StaticCarCrash_1_passes_at_rest :
  tick (crash_triggered : class_of spawn_static_car_crash_1) at_rest ego
  = mkOutcome (crash_triggered : class_of spawn_static_car_crash_1)
      [print StaticCarCrash_1.msg_pass] (Py.Ok 1%Z).
Proof.
  cbn [tick class_of_Scenario StaticCarCrash_1_Scenario].
  unfold StaticCarCrash_1.tick.
  unfold crash_triggered, at_rest. simpl.
  rewrite StaticCarCrash_1_outside_at_origin. reflexivity.
Qed.

Lemma main_releases_what_it_spawned_witness :
  let new := construct spawn_static_car_crash_1 0%nat (Some 0.05) in
  released
    (log (main spawn_static_car_crash_1 0%nat (Some 0.05) ego
               [at_rest; in_tunnel_exit; at_rest] (within_call at_rest 3)
               None))
  = actor_list (fst new) ++ actor_list (fst new).
Proof.
  intros new.
  apply (proj2 (proj2 (proj2 (proj2 (proj2
           (main_releases_what_it_spawned
              spawn_static_car_crash_1 0%nat (Some 0.05) ego
              [at_rest; in_tunnel_exit; at_rest] (within_call at_rest 3)
              None)))))
           at_rest at_rest [in_tunnel_exit; at_rest] 1%nat 3%nat
           eq_refl eq_refl eq_refl).
  - left. split; [| reflexivity].
    unfold main. cbn [main_loop].
    cbn [Z.gtb Z.compare codes before app].
    rewrite StaticCarCrash_1_triggers_in_tunnel_exit.
    cbn [returned self' events Z.eqb Z.sub Z.pos_sub Z.gtb Z.compare
           codes before app].
    rewrite StaticCarCrash_1_passes_at_rest.
    reflexivity.
  - simpl. lia.
Defined.

Lemma addressed_to_incl (own own' : list Actor) (e : Event) :
  incl own own' -> addressed_to own e -> addressed_to own' e.
Proof. intros Hincl. destruct e; simpl; auto. Qed.

Lemma ticks_commands_only
    (f : scenario_file) (ego_vehicle : Actor) (owned : list Actor)
    (worlds : list World) :
  forall self : class_of f,
    incl (own_actors f self) owned ->
    Forall (fun o => Forall (addressed_to owned) (events o))
           (ticks self ego_vehicle worlds).
Proof.
  induction worlds as [| world worlds IH]; intros self Hincl;
    [constructor |].
  rewrite ticks_cons.
  destruct (tick_commands_only f self world ego_vehicle) as [Hevs Hown].
  constructor.
  - eapply Forall_impl; [| exact Hevs].
    intros e. now apply addressed_to_incl.
  - apply IH. now rewrite Hown.
Qed.

(** X10.  Along every sequence of ticks from construction, whatever the
    simulator reports, a scenario creates and destroys no actor and sends
    every command to an actor of its own actor list (the actors it
    spawned): never to the ego vehicle or to another scenario's actor. *)
Theorem ticks_command_only_the_actor_list
    (f : scenario_file) (fresh : Actor) (fixed_delta_seconds : option R)
    (ego_vehicle : Actor) (worlds : list World) :
  let self := fst (construct f fresh fixed_delta_seconds) in
  Forall (fun o => Forall (addressed_to (actor_list self)) (events o))
         (ticks self ego_vehicle worlds).
Proof.
  intros self. apply ticks_commands_only.
  exact (proj2 (construct_owns_what_it_spawns f fresh fixed_delta_seconds)).
Qed.

(** *** How long the driver goes on *)

Lemma main_loop_ticks_bounded {S : Type} `{Scenario S}
    (new : S * list Event) (ego_vehicle : Actor) (interrupt : Interrupt)
    (cut : option nat) (worlds : list World) :
  forall (sc : S) (scenario_timer : Z),
    (List.length (codes (main_loop new ego_vehicle (Some sc) scenario_timer
                                   worlds interrupt cut))
     <= Nat.min (Z.to_nat scenario_timer) (List.length worlds))%nat.
Proof.
  induction worlds as [| world worlds IH]; intros sc scenario_timer;
    cbn [main_loop].
  - destruct interrupt; simpl; lia.
  - destruct (scenario_timer >? 0)%Z eqn:Hpos; simpl; [| lia].
    apply Z.gtb_lt in Hpos.
    destruct (returned (tick sc world ego_vehicle)) as [sucess | e]; simpl;
      [| lia].
    specialize (IH (self' (tick sc world ego_vehicle))
                   (if (sucess =? 1)%Z then 0%Z else (scenario_timer - 1)%Z)).
    destruct (sucess =? 1)%Z; lia.
Qed.

Lemma main_loop_unfinished {S : Type} `{Scenario S}
    (new : S * list Event) (ego_vehicle : Actor) (interrupt : Interrupt)
    (cut : option nat) (rest : list World) :
  forall (quiet : list World) (sc : S),
    Forall (fun o => returned o = Py.Ok 0%Z) (ticks sc ego_vehicle quiet) ->
    codes (main_loop new ego_vehicle (Some sc)
                     (Z.of_nat (List.length quiet)) (quiet ++ rest)
                     interrupt cut)
    = repeat (Py.Ok 0%Z) (List.length quiet).
Proof.
  induction quiet as [| world quiet IH]; intros sc Hquiet.
  - apply main_loop_done.
  - rewrite ticks_cons in Hquiet. inversion Hquiet as [| o os Ho Hos]; subst.
    cbn [List.length app main_loop repeat].
    replace (Z.of_nat (Datatypes.S (List.length quiet)) >? 0)%Z with true
      by (symmetry; apply Z.gtb_lt; lia).
    rewrite Ho. cbn [codes before app]. f_equal.
    replace (Z.of_nat (Datatypes.S (List.length quiet)) - 1)%Z
      with (Z.of_nat (List.length quiet)) by lia.
    change (0 =? 1)%Z with false. cbv iota.
    now apply IH.
Qed.

(** X11.  The driver of each of the eight scenario files (they start
    [scenario_timer] at 600) calls [tick] at most 600 times,
    and at most once per world step after the one in which it constructs
    the scenario, wherever it is interrupted.  If the first 600 ticks all
    return 0, it calls [tick] exactly 600 times, however long it is left
    running. *)
Theorem main_ticks_at_most_600_times
    (f : scenario_file) (fresh : Actor) (fixed_delta_seconds : option R)
    (ego_vehicle : Actor) (interrupt : Interrupt) (cut : option nat) :
  (forall worlds : list World,
      (List.length
         (codes (main f fresh fixed_delta_seconds ego_vehicle worlds
                      interrupt cut))
       <= Nat.min 600 (List.length worlds - 1))%nat)
  /\ (forall (first : World) (quiet rest : list World),
      List.length quiet = 600%nat ->
      Forall (fun o => returned o = Py.Ok 0%Z)
             (ticks (fst (construct f fresh fixed_delta_seconds))
                    ego_vehicle quiet) ->
      codes (main f fresh fixed_delta_seconds ego_vehicle
                  (first :: quiet ++ rest) interrupt cut)
      = repeat (Py.Ok 0%Z) 600).
Proof.
  split.
  - intros worlds.
    unfold main. destruct worlds as [| world worlds]; cbn [main_loop].
    + destruct interrupt; simpl; lia.
    + pose proof (main_loop_ticks_bounded
                    (construct f fresh fixed_delta_seconds) ego_vehicle
                    interrupt cut worlds
                    (fst (construct f fresh fixed_delta_seconds)) 600%Z) as H.
      change (Z.to_nat 600) with 600%nat in H.
      cbn [codes before app List.length Nat.sub].
      rewrite ?Nat.sub_0_r. exact H.
  - intros first quiet rest Hlen Hquiet.
    unfold main. cbn [main_loop codes before app].
    pose proof (main_loop_unfinished
                  (construct f fresh fixed_delta_seconds) ego_vehicle
                  interrupt cut rest quiet _ Hquiet) as H.
    rewrite Hlen in H. exact H.
Qed.

Lemma StaticCarCrash_1_stays_idle_at_rest (n : nat) :
  Forall (fun o => returned o = Py.Ok 0%Z)
         (ticks (fst (construct spawn_static_car_crash_1 0%nat (Some 0.05))) ego
                (repeat at_rest n)).
Proof.
  assert (Hstep : tick (fst (construct spawn_static_car_crash_1 0%nat (Some 0.05)))
                       at_rest ego
                  = mkOutcome
                      (fst (construct spawn_static_car_crash_1 0%nat (Some 0.05)))
                      [] (Py.Ok 0%Z)).
  { cbn [tick class_of_Scenario StaticCarCrash_1_Scenario construct fst].
    unfold StaticCarCrash_1.tick. simpl.
    change (is_inside_bounding_box (Loc 0 0 0) (220.80, -86.50) (238.30, 1.60))
      with (is_inside_bounding_box (Loc 0 0 0) (220.80, -86.50) (238.30, 1.60)).
    now rewrite StaticCarCrash_1_outside_at_origin. }
  induction n as [| n IH]; [constructor |].
  cbn [repeat]. rewrite ticks_cons, Hstep. constructor; [reflexivity |].
  exact IH.
Qed.

Lemma main_ticks_at_most_600_times_witness :
  codes (main spawn_static_car_crash_1 0%nat (Some 0.05) ego
              (at_rest :: repeat at_rest 600 ++ [at_rest; at_rest])
              between_calls None)
  = repeat (Py.Ok 0%Z) 600.
Proof.
  apply (proj2 (main_ticks_at_most_600_times spawn_static_car_crash_1
                  0%nat (Some 0.05) ego between_calls None)).
  - apply repeat_length.
  - apply StaticCarCrash_1_stays_idle_at_rest.
Defined.

(** ** Exceptions *)

Lemma truediv_raises (a b : R) (e : Py.exn) :
  Py.truediv a b = Py.Raise e -> e = Py.ZeroDivisionError /\ b = 0.
Proof.
  unfold Py.truediv. destruct (Req_dec_T b 0); [| discriminate].
  intros H. injection H as <-. now split.
Qed.

Lemma calculate_required_speed_raises
    (car : Location) (vel : Vector3D) (ped : Location) (dir : Vector3D)
    (e : Py.exn) :
  calculate_required_speed car vel ped dir = Py.Raise e ->
  e = Py.ZeroDivisionError.
Proof.
  unfold calculate_required_speed.
  destruct (Py.lt (norm vel) 0.1); [discriminate |].
  destruct (Py.ne (x dir) 0); cbv zeta;
    match goal with
    | |- context [Py.truediv ?p (norm vel)] =>
        destruct (Py.truediv p (norm vel)) as [time |] eqn:Htime
    end; simpl; intros H;
    first [ now apply truediv_raises in H
          | injection H as <-; now apply truediv_raises in Htime ].
Qed.

Lemma adjust_pedestrian_velocity_raises
    (ego_vehicle pedestrian : ActorState) (e : Py.exn) :
  adjust_pedestrian_velocity ego_vehicle pedestrian = Py.Raise e ->
  e = Py.ZeroDivisionError.
Proof.
  unfold adjust_pedestrian_velocity. cbv zeta.
  destruct (calculate_required_speed _ _ _ _) eqn:Hc; simpl;
    [discriminate |].
  intros H. injection H as <-. now apply calculate_required_speed_raises in Hc.
Qed.

Lemma mul_raises (a : R) (b : option R) (e : Py.exn) :
  Py.mul a b = Py.Raise e -> e = Py.TypeError /\ b = None.
Proof.
  destruct b; simpl; [discriminate |].
  intros H. injection H as <-. now split.
Qed.

Ltac form_leaf :=
  lazy beta iota zeta;
  repeat match goal with
         | |- context [if ?b then _ else _] => destruct b
         end;
  unfold keeps_form, holds_time_step in *; simpl in *;
  (split;
   [ split; first [exact I | reflexivity | assumption]
   | intros e' He';
     first [ discriminate
           | injection He' as <-;
             match goal with
             | H : Py.truediv _ _ = Py.Raise _ |- _ =>
                 apply truediv_raises in H; destruct H; left; auto
             | H : adjust_pedestrian_velocity _ _ = Py.Raise _ |- _ =>
                 apply adjust_pedestrian_velocity_raises in H; left; auto
             | H : Py.mul _ _ = Py.Raise _ |- _ =>
                 apply mul_raises in H; destruct H as [-> H]; right;
                 repeat split; auto; congruence
             end ] ]).

Lemma tick_keeps_form
    (f : scenario_file) (fixed_delta_seconds : option R) (self : class_of f)
    (world : World) (ego_vehicle : Actor) :
  well_formed f self ->
  holds_time_step f fixed_delta_seconds self ->
  keeps_form
    (fun self => well_formed f self
                 /\ holds_time_step f fixed_delta_seconds self)
    (fun e => e = Py.ZeroDivisionError
              /\ (f = spawn_squirrel_running_across \/ f = spawn_ball_boy)
              \/ e = Py.TypeError
                 /\ fixed_delta_seconds = None
                 /\ (f = spawn_squirrel_running_across
                     \/ f = spawn_loose_zoo_animals))
    (tick self world ego_vehicle).
Proof.
  destruct f; simpl; intros Hform Hstep.
  - unfold_scenarios; outcome_branches; form_leaf.
  - unfold_scenarios; outcome_branches; form_leaf.
  - unfold_scenarios; outcome_branches; form_leaf.
  - destruct (ParkingHGV.checkpoint self) as [| c0 [| c1 [| ? ?]]] eqn:Hcp;
      try discriminate.
    unfold_scenarios; unfold ParkingHGV.advance, ParkingHGV.reach;
      rewrite Hcp; simpl.
    repeat match goal with
           | |- context [if ?b then _ else _] => destruct b
           end; unfold keeps_form; simpl; rewrite ?Hcp;
      (split; [split; [reflexivity | exact I] | intros; discriminate]).
  - unfold_scenarios; outcome_branches; form_leaf.
  - destruct (LooseZooAnimals.checkpoint self) as [| c0 [| c1 [| ? ?]]] eqn:Hcp;
      try discriminate.
    unfold holds_time_step in Hstep; simpl in Hstep.
    unfold_scenarios; rewrite Hcp; simpl.
    repeat match goal with
           | |- context [if ?b then _ else _] => destruct b; simpl
           end; rewrite ?Hstep; unfold keeps_form, holds_time_step;
      destruct fixed_delta_seconds; simpl; rewrite ?Hcp;
      (split;
       [ split; [reflexivity | assumption]
       | intros e He;
         first [ discriminate
               | injection He as <-; right; repeat split; auto ] ]).
  - destruct (CarForwardParkingAndReverseNoHarm.checkpoint self)
      as [| c0 [| c1 [| c2 [| c3 [| c4 [| c5 [| c6 [| ? ?]]]]]]]] eqn:Hcp;
      try discriminate.
    unfold_scenarios; rewrite Hcp; simpl.
    outcome_branches; unfold keeps_form; simpl; rewrite ?Hcp;
      (split; [split; [reflexivity | exact I] | intros; discriminate]).
  - destruct (CarForwardStoppingDropoff.checkpoint self)
      as [| c0 [| c1 [| c2 [| c3 [| c4 [| c5 [| ? ?]]]]]]] eqn:Hcp;
      try discriminate.
    unfold_scenarios; rewrite Hcp; simpl.
    outcome_branches; unfold keeps_form; simpl; rewrite ?Hcp;
      (split; [split; [reflexivity | exact I] | intros; discriminate]).
Qed.

Lemma ticks_raise_as_formed
    (f : scenario_file) (fixed_delta_seconds : option R)
    (ego_vehicle : Actor) (worlds : list World) (self : class_of f) :
  well_formed f self ->
  holds_time_step f fixed_delta_seconds self ->
  Forall (fun o =>
            forall e : Py.exn,
              returned o = Py.Raise e ->
              e = Py.ZeroDivisionError
              /\ (f = spawn_squirrel_running_across \/ f = spawn_ball_boy)
              \/ e = Py.TypeError
                 /\ fixed_delta_seconds = None
                 /\ (f = spawn_squirrel_running_across
                     \/ f = spawn_loose_zoo_animals))
         (ticks self ego_vehicle worlds).
Proof.
  revert self.
  induction worlds as [| world worlds IH]; intros self Hform Hstep;
    [constructor |].
  rewrite ticks_cons.
  destruct (tick_keeps_form f fixed_delta_seconds self world ego_vehicle
              Hform Hstep) as [[Hnext Hkept] Hexn].
  constructor; [exact Hexn | now apply IH].
Qed.

Lemma LooseZooAnimals_raises_without_time_step :
  map returned
      (ticks (fst (construct spawn_loose_zoo_animals 0%nat None)) ego
             [at_zoo_gate; gazelle_hit])
  = [Py.Ok 0%Z; Py.Raise Py.TypeError].
Proof.
  assert (Hgorilla : Py.gt (Rabs (77.90 - 77.90)) 0.1 = false)
    by (decide_reals; reflexivity).
  assert (Hgazelle : Py.gt (Rabs (71.20 - 72)) 0.1 = true)
    by (decide_reals; reflexivity).
  assert (Hy : Py.lt 40.40 50.90 = true) by (decide_reals; reflexivity).
  assert (Hgate :
            is_inside_bounding_box (Loc 103 59 0) (102.00, 57.30)
              (104.70, 60.80) = true)
    by (eval_inside; reflexivity).
  assert (Hfirst :
            tick (fst (construct spawn_loose_zoo_animals 0%nat None))
                 at_zoo_gate ego
            = mkOutcome
                (LooseZooAnimals.set_triggered true
                   (fst (construct spawn_loose_zoo_animals 0%nat None))
                 : class_of spawn_loose_zoo_animals)
                [print "Scenario -Loose zoo animals- has been triggered!"]
                (Py.Ok 0%Z)).
  { cbn [tick class_of_Scenario LooseZooAnimals_Scenario construct].
    unfold LooseZooAnimals.tick, at_zoo_gate, with_actor. simpl.
    rewrite Hgate. reflexivity. }
  rewrite !ticks_cons, Hfirst. cbn [self' returned map ticks].
  cbn [tick class_of_Scenario LooseZooAnimals_Scenario construct].
  unfold LooseZooAnimals.tick, try_, gazelle_hit, with_actor.
  simpl. rewrite Hgorilla. simpl. rewrite Hgazelle. simpl.
  rewrite Hy. reflexivity.
Qed.

(** X12.  Of the eight scenario classes, along every sequence of ticks
    from construction and whatever the simulator reports, [tick] raises
    only [ZeroDivisionError], and that only in
    [SquirrelRunningAcrossTheRoad] and [BoyFootball], or [TypeError], and
    that only in [SquirrelRunningAcrossTheRoad] and [LooseZooAnimals] and
    only if they were constructed with no time step ([None], which is
    what the driver passes on if the world runs with a variable time
    step).  So with a time step, [ZeroDivisionError] in those two classes
    is the only exception, and in four classes [tick] always returns.  In
    particular no checkpoint list is ever indexed out of range.  The
    [TypeError] does occur: [LooseZooAnimals], constructed with no time
    step, raises it on the first tick after the one that triggers it, if
    that tick finds the gorilla not displaced and still on its walk. *)
Theorem ticks_raise_only_zero_division_or_type_error
    (f : scenario_file) (fresh : Actor) (fixed_delta_seconds : option R)
    (ego_vehicle : Actor) (worlds : list World) :
  Forall (fun o =>
            forall e : Py.exn,
              returned o = Py.Raise e ->
              e = Py.ZeroDivisionError
              /\ (f = spawn_squirrel_running_across \/ f = spawn_ball_boy)
              \/ e = Py.TypeError
                 /\ fixed_delta_seconds = None
                 /\ (f = spawn_squirrel_running_across
                     \/ f = spawn_loose_zoo_animals))
         (ticks (fst (construct f fresh fixed_delta_seconds))
                ego_vehicle worlds)
  /\ (fixed_delta_seconds <> None ->
      Forall (fun o =>
                forall e : Py.exn,
                  returned o = Py.Raise e ->
                  e = Py.ZeroDivisionError
                  /\ (f = spawn_squirrel_running_across
                      \/ f = spawn_ball_boy))
             (ticks (fst (construct f fresh fixed_delta_seconds))
                    ego_vehicle worlds))
  /\ map returned
         (ticks (fst (construct spawn_loose_zoo_animals 0%nat None)) ego
                [at_zoo_gate; gazelle_hit])
     = [Py.Ok 0%Z; Py.Raise Py.TypeError].
Proof.
  assert (Hnew : well_formed f (fst (construct f fresh fixed_delta_seconds)))
    by (destruct f; simpl; auto).
  assert (Hstep : holds_time_step f fixed_delta_seconds
                    (fst (construct f fresh fixed_delta_seconds)))
    by (destruct f; unfold holds_time_step; simpl; auto).
  pose proof (ticks_raise_as_formed f fixed_delta_seconds ego_vehicle worlds
                _ Hnew Hstep) as Hall.
  split; [exact Hall | split].
  - intros Hsome. eapply Forall_impl; [| exact Hall].
    intros o Ho e He. destruct (Ho e He) as [H | (_ & Hnone & _)];
      [exact H | contradiction].
  - exact LooseZooAnimals_raises_without_time_step.
Qed.

(** X13.  [SquirrelRunningAcrossTheRoad.tick] raises in two ways, and
    only on a triggered tick that finds no collision flagged and the
    squirrel not displaced.  It raises [ZeroDivisionError] exactly if the
    checkpoint is not set, the ego vehicle moves forward along x and is
    level with the squirrel along x: the time to intersect is then zero
    and the squirrel's speed is a division by it.  It raises [TypeError]
    exactly if the world runs with a variable time step (the time step
    the object holds is [None]) and the tick comes to multiply by it:
    the checkpoint is set, or it is not and the ego vehicle moves forward
    along x and is not level with the squirrel.  Nothing has been sent
    to the simulator by then, but with the checkpoint not set before, it
    is set already if the two are closer than 0.8 along y. *)
Theorem squirrel_tick_raises_iff
    (self : SquirrelRunningAcrossTheRoad.t) (world : World)
    (ego_vehicle : Actor) :
  let squirrel :=
    location (get_transform
                (world (SquirrelRunningAcrossTheRoad.squirrel_actor self))) in
  let car := location (get_transform (world ego_vehicle)) in
  let o := SquirrelRunningAcrossTheRoad.tick self world ego_vehicle in
  let running :=
    SquirrelRunningAcrossTheRoad.triggered self = true
    /\ SquirrelRunningAcrossTheRoad.collision_detected self = false
    /\ ~ Rabs (x squirrel
               - SquirrelRunningAcrossTheRoad.squirrel_x_position self)
         > 0.01 in
  let pursuing :=
    SquirrelRunningAcrossTheRoad.checkpoint self = false
    /\ x (get_velocity (world ego_vehicle)) > 0 in
  (returned o = Py.Raise Py.ZeroDivisionError
   <-> running /\ pursuing /\ x squirrel = x car)
  /\ (returned o = Py.Raise Py.TypeError
      <-> running
          /\ SquirrelRunningAcrossTheRoad.world_fixed_delta_seconds self
             = None
          /\ (SquirrelRunningAcrossTheRoad.checkpoint self = true
              \/ pursuing /\ x squirrel <> x car))
  /\ (forall e, returned o = Py.Raise e ->
        (e = Py.ZeroDivisionError \/ e = Py.TypeError)
        /\ events o = []
        /\ self' o
           = (if SquirrelRunningAcrossTheRoad.checkpoint self then self
              else if Py.lt (Rabs (y squirrel - y car)) 0.8
                   then SquirrelRunningAcrossTheRoad.set_checkpoint true self
                   else self)).
Proof.
  intros squirrel car o running pursuing. subst o running pursuing.
  unfold SquirrelRunningAcrossTheRoad.tick,
    SquirrelRunningAcrossTheRoad.trigger, try_.
  fold squirrel. fold car.
  destruct (SquirrelRunningAcrossTheRoad.triggered self) eqn:Htr.
  2: { destruct (is_inside_bounding_box _ _ _); simpl;
       (split; [| split]);
       [ split; [discriminate | intros ((H & _) & _); discriminate]
       | split; [discriminate | intros ((H & _) & _); discriminate]
       | intros e He; discriminate
       | split; [discriminate | intros ((H & _) & _); discriminate]
       | split; [discriminate | intros ((H & _) & _); discriminate]
       | intros e He; discriminate ]. }
  destruct (SquirrelRunningAcrossTheRoad.collision_detected self) eqn:Hcol;
    simpl negb; cbv iota.
  { destruct (SquirrelRunningAcrossTheRoad.timer self >? 0)%Z; simpl;
      (split; [| split]);
      [ split; [discriminate | intros ((_ & H & _) & _); discriminate]
      | split; [discriminate | intros ((_ & H & _) & _); discriminate]
      | intros e He; discriminate
      | split; [discriminate | intros ((_ & H & _) & _); discriminate]
      | split; [discriminate | intros ((_ & H & _) & _); discriminate]
      | intros e He; discriminate ]. }
  destruct (Py.gt (Rabs (x squirrel
                         - SquirrelRunningAcrossTheRoad.squirrel_x_position
                             self)) 0.01) eqn:Hmoved.
  { apply gt_spec in Hmoved. simpl.
    split; [| split];
      [ split; [discriminate | intros ((_ & _ & H) & _); contradiction]
      | split; [discriminate | intros ((_ & _ & H) & _); contradiction]
      | intros e He; discriminate ]. }
  assert (Hstill : ~ Rabs (x squirrel
                           - SquirrelRunningAcrossTheRoad.squirrel_x_position
                               self) > 0.01)
    by (intros H; apply gt_spec in H; congruence).
  destruct (SquirrelRunningAcrossTheRoad.checkpoint self) eqn:Hcp;
    simpl negb; cbv iota.
  { (* on its run across: one multiplication by the time step *)
    unfold Py.mul.
    destruct (SquirrelRunningAcrossTheRoad.world_fixed_delta_seconds self)
      as [dt |] eqn:Hdt.
    - cbv zeta.
      match goal with
      | |- context [if ?b then _ else _] => destruct b
      end; simpl;
        (split; [| split]);
        [ split; [discriminate | intros (_ & (H & _) & _); discriminate]
        | split; [discriminate | intros (_ & H & _); discriminate]
        | intros e He; discriminate
        | split; [discriminate | intros (_ & (H & _) & _); discriminate]
        | split; [discriminate | intros (_ & H & _); discriminate]
        | intros e He; discriminate ].
    - simpl. split; [| split].
      + split; [discriminate | intros (_ & (H & _) & _); discriminate].
      + split; [intros _ | reflexivity]. repeat split; auto.
      + intros e He. injection He as <-. repeat split. now right. }
  destruct (Py.gt (x (get_velocity (world ego_vehicle))) 0) eqn:Hfwd.
  2: { assert (Hback : ~ x (get_velocity (world ego_vehicle)) > 0)
         by (intros H; apply gt_spec in H; congruence).
       simpl.
       split; [| split];
         [ split; [discriminate | intros (_ & (_ & H) & _); contradiction]
         | split; [discriminate
                  | intros (_ & _ & [H | [[_ H] _]]);
                    [discriminate | contradiction]]
         | intros e He; discriminate ]. }
  apply gt_spec in Hfwd.
  rewrite truediv_ok by lra.
  set (time := Rabs (x squirrel - x car) / x (get_velocity (world ego_vehicle))).
  assert (Htime : time = 0 <-> x squirrel = x car).
  { unfold time. split.
    - intros H. apply Rmult_eq_compat_r
        with (r := x (get_velocity (world ego_vehicle))) in H.
      unfold Rdiv in H. rewrite Rmult_assoc, Rinv_l, Rmult_1_r, Rmult_0_l in H
        by lra.
      destruct (Req_dec (x squirrel) (x car)) as [| Hne]; [assumption |].
      exfalso. apply (Rabs_no_R0 (x squirrel - x car)); [lra | exact H].
    - intros ->. replace (x car - x car) with 0 by lra.
      rewrite Rabs_R0. unfold Rdiv. apply Rmult_0_l. }
  cbv zeta.
  assert (Hdiv : forall d : R,
             (time = 0 /\ Py.truediv d time = Py.Raise Py.ZeroDivisionError)
             \/ (time <> 0 /\ Py.truediv d time = Py.Ok (d / time))).
  { intros d. unfold Py.truediv. destruct (Req_dec_T time 0); auto. }
  assert (Hkept : forall s : SquirrelRunningAcrossTheRoad.t,
             SquirrelRunningAcrossTheRoad.world_fixed_delta_seconds
               (if Py.lt (Rabs (y squirrel - y car)) 0.8
                then SquirrelRunningAcrossTheRoad.set_checkpoint true self
                else self)
             = SquirrelRunningAcrossTheRoad.world_fixed_delta_seconds self)
    by (intros _; destruct (Py.lt _ 0.8); reflexivity).
  destruct (Hdiv (Rabs (y squirrel - y car))) as [[Hz Hq] | [Hnz Hq]];
    rewrite Hq; cbv beta iota.
  - (* level along x *)
    assert (Hlevel : x squirrel = x car) by (now apply Htime).
    cbn [returned events self'].
    split; [| split].
    + split; [intros _ | reflexivity]. repeat split; auto.
    + split; [discriminate |].
      intros (_ & _ & [H | [_ H]]); [discriminate | contradiction].
    + intros e He. injection He as <-. repeat split. now left.
  - assert (Hapart : x squirrel <> x car)
      by (intros H; apply Htime in H; contradiction).
    unfold Py.mul. rewrite (Hkept self).
    destruct (SquirrelRunningAcrossTheRoad.world_fixed_delta_seconds self)
      as [dt |] eqn:Hdt; cbn [returned events self'].
    + split; [| split].
      * split; [discriminate | intros (_ & _ & H); contradiction].
      * split; [discriminate | intros (_ & H & _); discriminate].
      * intros e He. discriminate.
    + split; [| split].
      * split; [discriminate | intros (_ & _ & H); contradiction].
      * split; [intros _ | reflexivity]. repeat split; auto.
      * intros e He. injection He as <-. repeat split. now right.
Qed.

(** ** Timers *)

Ltac counts_leaf :=
  lazy beta iota zeta;
  repeat match goal with
         | |- context [if ?b then _ else _] => destruct b
         end;
  unfold counts_down; simpl;
  first [ left; reflexivity
        | right;
          repeat match goal with
                 | H : (_ && _)%bool = true |- _ =>
                     apply andb_prop in H; destruct H
                 end;
          repeat match goal with
                 | H : (_ >? _)%Z = true |- _ => apply Z.gtb_lt in H
                 end;
          split; [lia | reflexivity] ].

Lemma ParkingHGV_counts_down
    (self : ParkingHGV.t) (world : World) (ego_vehicle : Actor) :
  counts_down ParkingHGV.timer self (ParkingHGV.tick self world ego_vehicle).
Proof.
  unfold ParkingHGV.tick, ParkingHGV.trigger, try_.
  destruct (ParkingHGV.triggered self);
    [destruct (ParkingHGV.collision_detected self) |].
  - counts_leaf.
  - destruct (advance_changes_checkpoints_only self
                (location (get_transform (world (ParkingHGV.hgv_actor self)))))
      as (cp & Hcp & _).
    destruct (ParkingHGV.advance self _) as [[self1 evs] through].
    simpl in Hcp. subst self1.
    destruct through; simpl; [| left; reflexivity].
    destruct (is_inside_bounding_box _ _ _); [| left; reflexivity].
    destruct (_ && _)%bool eqn:Hrun; [| left; reflexivity].
    right. apply andb_prop in Hrun. destruct Hrun as [Hpos _].
    apply Z.gtb_lt in Hpos. simpl in *. split; [lia | reflexivity].
  - destruct (is_inside_bounding_box _ _ _); left; reflexivity.
Qed.

Lemma tick_counts_down
    (f : scenario_file) (timer : class_of f -> Z) (self : class_of f)
    (world : World) (ego_vehicle : Actor) :
  timer_of f = Some timer ->
  counts_down timer self (tick self world ego_vehicle).
Proof.
  destruct f; simpl; intros Htimer; try discriminate;
    injection Htimer as <-; try apply ParkingHGV_counts_down;
    unfold_scenarios; outcome_branches; counts_leaf.
Qed.

(** X14.  In the classes that have a timer, a tick leaves the timer as
    it is or, the timer being positive, takes one off it; so along every
    sequence of ticks from construction the timer never goes up, never
    goes below zero, and a scenario counts down at most as many ticks as
    its timer starts with. *)
Theorem timers_only_count_down
    (f : scenario_file) (timer : class_of f -> Z) :
  timer_of f = Some timer ->
  (forall (self : class_of f) (world : World) (ego_vehicle : Actor),
      counts_down timer self (tick self world ego_vehicle))
  /\ (forall (fresh : Actor) (fixed_delta_seconds : option R) (ego_vehicle : Actor)
             (worlds : list World),
      let new := fst (construct f fresh fixed_delta_seconds) in
      Forall (fun s => (0 <= timer s <= timer new)%Z)
             (states new ego_vehicle worlds)).
Proof.
  intros Htimer. split.
  - intros self world ego_vehicle. now apply tick_counts_down.
  - intros fresh fixed_delta_seconds ego_vehicle worlds new.
    assert (Hnew : (0 <= timer new <= timer new)%Z).
    { subst new. destruct f; simpl in *; try discriminate;
        injection Htimer as <-; simpl; lia. }
    assert (Hrun : forall (start : Z) (later : list World)
                          (self : class_of f),
               (0 <= timer self <= start)%Z ->
               Forall (fun s => (0 <= timer s <= start)%Z)
                      (states self ego_vehicle later)).
    { intros start later. induction later as [| world later IH];
        intros self Hself.
      - constructor; [exact Hself | constructor].
      - rewrite states_cons. constructor; [exact Hself |].
        apply IH.
        destruct (tick_counts_down f timer self world ego_vehicle Htimer)
          as [-> | [Hpos ->]]; lia. }
    now apply Hrun.
Qed.

Lemma timers_only_count_down_witness :
  counts_down StaticCarCrash_1.timer crash_triggered
              (StaticCarCrash_1.tick crash_triggered in_tunnel_exit ego).
Proof.
  exact (proj1 (timers_only_count_down spawn_static_car_crash_1
                  StaticCarCrash_1.timer eq_refl)
           crash_triggered in_tunnel_exit ego).
Defined.

(** ** Collisions *)

Lemma steps_cons {S : Type} `{Scenario S}
    (self : S) (ego_vehicle : Actor) (world : World) (worlds : list World) :
  steps self ego_vehicle (world :: worlds)
  = (self, tick self world ego_vehicle)
      :: steps (self' (tick self world ego_vehicle)) ego_vehicle worlds.
Proof. reflexivity. Qed.

Lemma ParkingHGV_flagged
    (ego_vehicle : Actor) (worlds : list World) :
  forall hit : ParkingHGV.t,
    ParkingHGV.collision_detected hit = true ->
    Forall (fun step =>
              ParkingHGV.triggered (fst step) = true ->
              returned (snd step) = Py.Ok 1%Z
              /\ self' (snd step) = fst step
              /\ exists msg, events (snd step) = [print msg])
           (steps hit ego_vehicle worlds).
Proof.
  induction worlds as [| world worlds IH]; intros hit Hflag;
    [constructor |].
  rewrite steps_cons.
  cbn [tick ParkingHGV_Scenario].
  unfold ParkingHGV.tick, ParkingHGV.trigger.
  rewrite Hflag.
  destruct (ParkingHGV.triggered hit) eqn:Htr.
  - constructor; [intros _; simpl; repeat split; eauto |]. now apply IH.
  - destruct (is_inside_bounding_box _ _ _); simpl;
      (constructor; [simpl; congruence |]); now apply IH.
Qed.

Lemma CarForwardParkingAndReverseNoHarm_flagged
    (ego_vehicle : Actor) (worlds : list World) :
  forall hit : CarForwardParkingAndReverseNoHarm.t,
    CarForwardParkingAndReverseNoHarm.collision_detected hit = true ->
    Forall (fun step =>
              CarForwardParkingAndReverseNoHarm.triggered (fst step) = true ->
              returned (snd step) = Py.Ok 1%Z
              /\ self' (snd step) = fst step
              /\ exists msg, events (snd step) = [print msg])
           (steps hit ego_vehicle worlds).
Proof.
  induction worlds as [| world worlds IH]; intros hit Hflag;
    [constructor |].
  rewrite steps_cons.
  cbn [tick CarForwardParkingAndReverseNoHarm_Scenario].
  unfold CarForwardParkingAndReverseNoHarm.tick, CarForwardParkingAndReverseNoHarm.trigger.
  rewrite Hflag.
  destruct (CarForwardParkingAndReverseNoHarm.triggered hit) eqn:Htr.
  - constructor; [intros _; simpl; repeat split; eauto |]. now apply IH.
  - destruct (is_inside_bounding_box _ _ _); simpl;
      (constructor; [simpl; congruence |]); now apply IH.
Qed.

Lemma CarForwardStoppingDropoff_flagged
    (ego_vehicle : Actor) (worlds : list World) :
  forall hit : CarForwardStoppingDropoff.t,
    CarForwardStoppingDropoff.collision_detected hit = true ->
    Forall (fun step =>
              CarForwardStoppingDropoff.triggered (fst step) = true ->
              returned (snd step) = Py.Ok 1%Z
              /\ self' (snd step) = fst step
              /\ exists msg, events (snd step) = [print msg])
           (steps hit ego_vehicle worlds).
Proof.
  induction worlds as [| world worlds IH]; intros hit Hflag;
    [constructor |].
  rewrite steps_cons.
  cbn [tick CarForwardStoppingDropoff_Scenario].
  unfold CarForwardStoppingDropoff.tick, CarForwardStoppingDropoff.trigger.
  rewrite Hflag.
  destruct (CarForwardStoppingDropoff.triggered hit) eqn:Htr.
  - constructor; [intros _; simpl; repeat split; eauto |]. now apply IH.
  - destruct (is_inside_bounding_box _ _ _); simpl;
      (constructor; [simpl; congruence |]); now apply IH.
Qed.

(** X15.  Once the collision sensor of [ParkingHGV],
    [CarForwardParkingAndReverseNoHarm] or [CarForwardStoppingDropoff]
    has reported a contact, no tick clears the flag: every later tick
    that finds the scenario triggered returns 1, prints one line and
    changes nothing, whatever the simulator reports and whatever is left
    on the timer. *)
Theorem collision_ends_the_scenario
    (f : scenario_file)
    (sensor_callback : class_of f -> string -> class_of f * list Event) :
  sensor_callback_of f = Some sensor_callback ->
  forall (self : class_of f) (other_actor_type_id : string)
         (ego_vehicle : Actor) (worlds : list World),
    Forall (fun step =>
              triggered (fst step) = true ->
              returned (snd step) = Py.Ok 1%Z
              /\ self' (snd step) = fst step
              /\ exists msg, events (snd step) = [print msg])
           (steps (fst (sensor_callback self other_actor_type_id))
                  ego_vehicle worlds).
Proof.
  intros Hcb self other_actor_type_id ego_vehicle worlds.
  destruct f; simpl in Hcb; try discriminate; injection Hcb as <-.
  - now apply ParkingHGV_flagged.
  - now apply CarForwardParkingAndReverseNoHarm_flagged.
  - now apply CarForwardStoppingDropoff_flagged.
Qed.

Lemma collision_ends_the_scenario_witness :
  Forall (fun step =>
            ParkingHGV.triggered (fst step) = true ->
            returned (snd step) = Py.Ok 1%Z
            /\ self' (snd step) = fst step
            /\ exists msg, events (snd step) = [print msg])
         (steps (fst (ParkingHGV.sensor_callback hgv_triggered
                        "vehicle.dodge.charger_2020"))
                ego [at_rest; at_rest]).
Proof.
  exact (collision_ends_the_scenario spawn_parking_HGV
           ParkingHGV.sensor_callback eq_refl hgv_triggered
           "vehicle.dodge.charger_2020" ego [at_rest; at_rest]).
Defined.

(** ** Teardown order *)

Lemma states_keep_actors
    (f : scenario_file) (ego_vehicle : Actor) (worlds : list World) :
  forall self : class_of f,
    Forall (fun s => actor_list s = actor_list self
                     /\ own_actors f s = own_actors f self)
           (states self ego_vehicle worlds).
Proof.
  induction worlds as [| world worlds IH]; intros self.
  - constructor; [split; reflexivity | constructor].
  - rewrite states_cons. constructor; [split; reflexivity |].
    destruct (tick_has_frame f self world ego_vehicle) as [_ Hal _ _ _].
    destruct (tick_commands_only f self world ego_vehicle) as [_ Hown].
    eapply Forall_impl; [| apply IH].
    simpl. intros s [Hs1 Hs2]. split; congruence.
Qed.

(** X16.  The three classes that attach a collision sensor to their
    vehicle stop the sensor in [destroy] before they destroy anything,
    at whatever point of its life the scenario is destroyed.  The order in
    which the sensor and the vehicle it is attached to are destroyed
    differs: [ParkingHGV] and [CarForwardParkingAndReverseNoHarm] destroy
    the sensor first, [CarForwardStoppingDropoff] destroys the vehicle
    first (the sensor is inserted before the last entry of the actor
    list, which there is the pedestrian). *)
Theorem sensors_stopped_then_destroyed
    (fresh : Actor) (trigger_points : option TriggerPoints)
    (ego_vehicle : Actor) (worlds : list World) :
  let hgv := ParkingHGV.__init__ fresh trigger_points in
  let noharm := CarForwardParkingAndReverseNoHarm.__init__
                  fresh trigger_points in
  let dropoff := CarForwardStoppingDropoff.__init__ fresh trigger_points in
  let sensor_before_vehicle (sensor vehicle : Actor) (log : list Event) :=
    comes_before (sensor_stop sensor)
                 (apply_batch (map DestroyActor (released log))) log
    /\ comes_before sensor vehicle (released log) in
  let vehicle_before_sensor (sensor vehicle : Actor) (log : list Event) :=
    comes_before (sensor_stop sensor)
                 (apply_batch (map DestroyActor (released log))) log
    /\ comes_before vehicle sensor (released log) in
  (attached (snd hgv) = [(Datatypes.S fresh, fresh)]
   /\ Forall (fun s => sensor_before_vehicle (Datatypes.S fresh) fresh
                                             (ParkingHGV.destroy s))
             (states (fst hgv) ego_vehicle worlds))
  /\ (attached (snd noharm) = [(Datatypes.S fresh, fresh)]
      /\ Forall (fun s =>
                   sensor_before_vehicle
                     (Datatypes.S fresh) fresh
                     (CarForwardParkingAndReverseNoHarm.destroy s))
                (states (fst noharm) ego_vehicle worlds))
  /\ (attached (snd dropoff) = [(Datatypes.S (Datatypes.S fresh), fresh)]
      /\ Forall (fun s =>
                   vehicle_before_sensor
                     (Datatypes.S (Datatypes.S fresh)) fresh
                     (CarForwardStoppingDropoff.destroy s))
                (states (fst dropoff) ego_vehicle worlds)).
Proof.
  intros hgv noharm dropoff sensor_before_vehicle vehicle_before_sensor.
  split; [| split]; (split; [reflexivity |]).
  - eapply Forall_impl;
      [| exact (states_keep_actors spawn_parking_HGV ego_vehicle worlds
                  (fst hgv))].
    simpl. intros s [Hal Hown]. injection Hown as _ Hsensor.
    unfold sensor_before_vehicle, ParkingHGV.destroy. simpl.
    rewrite released_map_DestroyActor, app_nil_r, Hal, Hsensor. split.
    + eexists [], [_; _], []. reflexivity.
    + exists [], [], []. reflexivity.
  - eapply Forall_impl;
      [| exact (states_keep_actors spawn_car_forward_parking_noharm
                  ego_vehicle worlds (fst noharm))].
    simpl. intros s [Hal Hown]. injection Hown as _ Hsensor.
    unfold sensor_before_vehicle, CarForwardParkingAndReverseNoHarm.destroy.
    simpl.
    rewrite released_map_DestroyActor, app_nil_r, Hal, Hsensor. split.
    + eexists [], [_; _], []. reflexivity.
    + exists [], [], []. reflexivity.
  - eapply Forall_impl;
      [| exact (states_keep_actors spawn_car_forward_dropoff_v2
                  ego_vehicle worlds (fst dropoff))].
    simpl. intros s [Hal Hown]. injection Hown as _ _ Hsensor.
    unfold vehicle_before_sensor, CarForwardStoppingDropoff.destroy. simpl.
    rewrite released_map_DestroyActor, app_nil_r, Hal, Hsensor. split.
    + eexists [], [_; _], []. reflexivity.
    + exists [], [], [Datatypes.S fresh]. reflexivity.
Qed.

(** ** The trigger area of an idle scenario *)

Lemma idle_step
    (f : scenario_file) (self : class_of f) (world : World)
    (ego_vehicle : Actor) :
  triggered self = false ->
  triggered (self' (tick self world ego_vehicle)) = false ->
  let next := self' (tick self world ego_vehicle) in
  let s := get_vehicle_speed (world ego_vehicle) in
  match configured_translation f with
  | whole_area add along_x =>
      trigger_points next = trigger_points self
      /\ trigger_area next
         = update_trigger_points (trigger_points self) s add along_x
  | first_corner add along_x =>
      trigger_area next
      = (update_beginning_area (fst (trigger_area self)) s add along_x,
         snd (trigger_area self))
  | static =>
      trigger_points next = trigger_points self
      /\ trigger_area next = trigger_area self
  end.
Proof.
  destruct f; simpl; unfold_scenarios; intros Htr; rewrite Htr;
    unfold CarForwardStoppingDropoff.trigger_area,
      CarForwardStoppingDropoff.trigger_points;
    match goal with
    | |- context [is_inside_bounding_box ?l ?a ?b] =>
        destruct (is_inside_bounding_box l a b)
    end; simpl; intros Hidle; try discriminate; try split; reflexivity.
Qed.

Lemma states_snoc {S : Type} `{Scenario S}
    (ego_vehicle : Actor) (world : World) (worlds : list World) :
  forall self : S,
    states self ego_vehicle (worlds ++ [world])
    = states self ego_vehicle worlds
        ++ [self' (tick (after self ego_vehicle worlds) world ego_vehicle)].
Proof.
  induction worlds as [| w worlds IH]; intros self; [reflexivity |].
  cbn [app]. rewrite !states_cons, after_cons, IH. reflexivity.
Qed.

Lemma states_end {S : Type} `{Scenario S}
    (P : S -> Prop) (ego_vehicle : Actor) (worlds : list World) :
  forall self : S,
    Forall P (states self ego_vehicle worlds) ->
    P (after self ego_vehicle worlds).
Proof.
  induction worlds as [| w worlds IH]; intros self HP.
  - now inversion HP.
  - rewrite states_cons in HP. inversion HP; subst.
    rewrite after_cons. now apply IH.
Qed.

Lemma update_beginning_area_adds (p : Point) (s1 s2 : R) (add along_x : bool) :
  update_beginning_area (update_beginning_area p s1 add along_x) s2
                        add along_x
  = update_beginning_area p (s1 + s2) add along_x.
Proof.
  destruct p as [px py]. unfold update_beginning_area.
  destruct add, along_x; simpl; apply f_equal2; lra.
Qed.

Lemma update_beginning_area_zero (p : Point) (add along_x : bool) :
  update_beginning_area p 0 add along_x = p.
Proof.
  destruct p as [px py]. unfold update_beginning_area.
  destruct add, along_x; simpl; apply f_equal2; lra.
Qed.

Lemma total_snoc (speeds : list R) (v : R) :
  total (speeds ++ [v]) = total speeds + v.
Proof.
  unfold total. induction speeds as [| u speeds IH]; simpl; lra.
Qed.

(** X17.  While a scenario stays idle, its trigger area is a look-ahead
    box.  In the classes that call [update_trigger_points] it is, after
    every idle tick, the original trigger points moved by the speed the
    ego vehicle had on that tick alone: the moves do not add up, and the
    trigger points stay as they are.  In [CarForwardStoppingDropoff] the
    first corner is moved by the sum of the speeds of all idle ticks so
    far, the second corner stays: the box is stretched further on every
    tick.  The other classes leave the area alone. *)
Theorem idle_area_is_a_look_ahead
    (f : scenario_file) (self : class_of f) (ego_vehicle : Actor)
    (worlds : list World) (world : World) :
  Forall (fun s => triggered s = false)
         (states self ego_vehicle (worlds ++ [world])) ->
  let last := after self ego_vehicle (worlds ++ [world]) in
  let speed (w : World) := get_vehicle_speed (w ego_vehicle) in
  match configured_translation f with
  | whole_area add along_x =>
      trigger_points last = trigger_points self
      /\ trigger_area last
         = update_trigger_points (trigger_points self) (speed world)
                                 add along_x
  | first_corner add along_x =>
      trigger_area last
      = (update_beginning_area (fst (trigger_area self))
                               (total (map speed (worlds ++ [world])))
                               add along_x,
         snd (trigger_area self))
  | static =>
      trigger_points last = trigger_points self
      /\ trigger_area last = trigger_area self
  end.
Proof.
  intros Hidle last speed. subst last.
  assert (Hrun : forall (ws : list World) (s0 : class_of f),
             Forall (fun s => triggered s = false)
                    (states s0 ego_vehicle ws) ->
             match configured_translation f with
             | whole_area _ _ =>
                 trigger_points (after s0 ego_vehicle ws) = trigger_points s0
             | first_corner add along_x =>
                 trigger_area (after s0 ego_vehicle ws)
                 = (update_beginning_area (fst (trigger_area s0))
                                          (total (map speed ws)) add along_x,
                    snd (trigger_area s0))
             | static =>
                 trigger_points (after s0 ego_vehicle ws) = trigger_points s0
                 /\ trigger_area (after s0 ego_vehicle ws) = trigger_area s0
             end).
  { induction ws as [| w ws IH]; intros s0 Hs.
    - destruct (configured_translation f) as [add along_x | add along_x |];
        simpl; auto.
      rewrite update_beginning_area_zero. now destruct (trigger_area s0).
    - rewrite states_cons in Hs. inversion Hs as [| ? ? H0 Hrest]; subst.
      assert (H1 : triggered (self' (tick s0 w ego_vehicle)) = false)
        by (destruct ws; rewrite ?states_cons in Hrest; now inversion Hrest).
      pose proof (idle_step f s0 w ego_vehicle H0 H1) as Hstep.
      specialize (IH _ Hrest). rewrite after_cons.
      cbv zeta in Hstep.
      destruct (configured_translation f) as [add along_x | add along_x |].
      + destruct Hstep as [Hp _]. congruence.
      + rewrite IH, Hstep. cbn [fst snd map total fold_right].
        now rewrite update_beginning_area_adds.
      + destruct Hstep as [Hp Ha], IH as [IHp IHa]. split; congruence. }
  rewrite states_snoc in Hidle. apply Forall_app in Hidle.
  destruct Hidle as [Hbefore Hlast].
  inversion Hlast as [| ? ? Hend _]; subst.
  pose proof (states_end _ ego_vehicle worlds self Hbefore) as Hmid.
  simpl in Hmid.
  pose proof (idle_step f _ world ego_vehicle Hmid Hend) as Hstep.
  cbv zeta in Hstep.
  pose proof (Hrun worlds self Hbefore) as Hsofar.
  rewrite after_app. cbn [after fold_left].
  change (fold_left (fun s w => self' (tick s w ego_vehicle)) worlds self)
    with (after self ego_vehicle worlds).
  destruct (configured_translation f) as [add along_x | add along_x |].
  - destruct Hstep as [Hp Ha]. unfold speed. rewrite Ha, Hp, Hsofar.
    split; reflexivity.
  - rewrite Hstep, Hsofar. cbn [fst snd].
    rewrite update_beginning_area_adds, map_app. cbn [map].
    now rewrite total_snoc.
  - destruct Hstep as [Hp Ha], Hsofar as [Hp' Ha']. split; congruence.
Qed.

Lemma idle_area_is_a_look_ahead_witness :
  let w := with_actor ego (actor_at (Loc 0 0 0) (mkVector3D 10 0 0)) at_rest in
  let s0 := fst (CarForwardStoppingDropoff.__init__ 0%nat None) in
  CarForwardStoppingDropoff.trigger_area
    (after s0 ego ([w] ++ [w]))
  = (update_beginning_area (3.60, 68.00)
       (total (map (fun w => get_vehicle_speed (w ego)) ([w] ++ [w])))
       true false,
     (7.10, 70.00)).
Proof.
  intros w s0.
  assert (Hspeed : get_vehicle_speed (w ego) = 10).
  { unfold get_vehicle_speed; simpl. apply norm_along_x. lra. }
  assert (Hstep : forall cy : R,
             68 <= cy ->
             CarForwardStoppingDropoff.tick
               (CarForwardStoppingDropoff.set_trigger_list
                  ((3.60, cy), (7.10, 70.00)) s0) w ego
             = mkOutcome
                 (CarForwardStoppingDropoff.set_trigger_list
                    ((3.60, cy + 10), (7.10, 70.00)) s0)
                 [] (Py.Ok 0%Z)).
  { intros cy Hcy. unfold CarForwardStoppingDropoff.tick.
    cbn [CarForwardStoppingDropoff.triggered
           CarForwardStoppingDropoff.set_trigger_list s0
           CarForwardStoppingDropoff.__init__ fst
           CarForwardStoppingDropoff.trigger_area
           CarForwardStoppingDropoff.trigger_points
           CarForwardStoppingDropoff.trigger_list snd].
    assert (Hout : is_inside_bounding_box
                     (location (get_transform (w ego))) (3.60, cy)
                     (7.10, 70.00) = false).
    { unfold is_inside_bounding_box. simpl.
      rewrite (Rmin_left 3.60 7.10) by lra.
      unfold Py.le at 1. destruct (Rle_dec 3.60 0); [lra | reflexivity]. }
    rewrite Hout, Hspeed. reflexivity. }
  assert (H0 : s0 = CarForwardStoppingDropoff.set_trigger_list
                      ((3.60, 68.00), (7.10, 70.00)) s0) by reflexivity.
  assert (E1 : self' (tick s0 w ego)
               = CarForwardStoppingDropoff.set_trigger_list
                   ((3.60, 68.00 + 10), (7.10, 70.00)) s0).
  { cbn [tick CarForwardStoppingDropoff_Scenario].
    rewrite H0 at 1. rewrite Hstep by lra. reflexivity. }
  assert (E2 : self' (tick (self' (tick s0 w ego)) w ego)
               = CarForwardStoppingDropoff.set_trigger_list
                   ((3.60, 68.00 + 10 + 10), (7.10, 70.00)) s0).
  { rewrite E1. cbn [tick CarForwardStoppingDropoff_Scenario].
    rewrite Hstep by lra. reflexivity. }
  refine (idle_area_is_a_look_ahead spawn_car_forward_dropoff_v2 s0 ego
            [w] w _).
  cbn [app]. rewrite !states_cons.
  constructor; [reflexivity |].
  constructor;
    [exact (eq_trans (f_equal CarForwardStoppingDropoff.triggered E1)
                     eq_refl) |].
  constructor;
    [exact (eq_trans (f_equal CarForwardStoppingDropoff.triggered E2)
                     eq_refl) |].
  constructor.
Defined.

(** ** Verdicts *)

(** Turn the outcome of a float comparison into the order it stands
    for. *)
Ltac reflect_tests :=
  repeat match goal with
         | H : Py.eq ?a ?b = true |- _ => apply eq_spec in H
         | H : Py.eq ?a ?b = false |- _ =>
             assert (a <> b)
               by (let Hc := fresh in
                   intros Hc; apply eq_spec in Hc; congruence);
             clear H
         | H : Py.gt ?a ?b = true |- _ => apply gt_spec in H
         | H : Py.gt ?a ?b = false |- _ =>
             assert (~ a > b)
               by (let Hc := fresh in
                   intros Hc; apply gt_spec in Hc; congruence);
             clear H
         | H : Py.lt ?a ?b = true |- _ => apply lt_spec in H
         | H : Py.lt ?a ?b = false |- _ =>
             assert (~ a < b)
               by (let Hc := fresh in
                   intros Hc; apply lt_spec in Hc; congruence);
             clear H
         end.

(** X18.  A triggered tick of [BoyFootball] fails the scenario exactly
    when the simulator reports the boy at the origin of the map (where a
    killed walker is put), and passes it exactly when the boy, on his
    way back (checkpoint set), is beyond y = 140; these are the only
    ticks that return 1.  The checkpoint is set by the tick that finds
    the boy below y = 127 and is never cleared. *)
Theorem boy_football_verdicts
    (self : BoyFootball.t) (world : World) (ego_vehicle : Actor) :
  BoyFootball.triggered self = true ->
  let o := BoyFootball.tick self world ego_vehicle in
  let boy := get_location (world (BoyFootball.pedestrian_actor self)) in
  let at_origin := x boy = 0 /\ y boy = 0 in
  (printed BoyFootball.msg_fail (events o) <-> at_origin)
  /\ (printed BoyFootball.msg_pass (events o)
      <-> ~ at_origin /\ BoyFootball.checkpoint self = true /\ y boy > 140)
  /\ (returned o = Py.Ok 1%Z
      <-> printed BoyFootball.msg_fail (events o)
          \/ printed BoyFootball.msg_pass (events o))
  /\ (BoyFootball.checkpoint (self' o) = true
      <-> BoyFootball.checkpoint self = true
          \/ (~ at_origin /\ ~ y boy > 136 /\ y boy < 127)).
Proof.
  intros Htr o boy at_origin. subst o at_origin.
  unfold BoyFootball.tick, try_. rewrite Htr. fold boy.
  unfold BoyFootball.msg_fail, BoyFootball.msg_pass, printed.
  destruct (Py.eq (x boy) 0.0) eqn:Hx0;
    destruct (Py.eq (y boy) 0.0) eqn:Hy0; simpl andb; cbv iota;
    destruct (BoyFootball.checkpoint self) eqn:Hcp; simpl negb; cbv iota;
    repeat match goal with
           | |- context [if ?b then _ else _] => destruct b eqn:?
           | |- context [match ?m with Py.Ok _ => _ | Py.Raise _ => _ end] =>
               destruct m eqn:?
           end;
    reflect_tests; simpl;
    repeat split; intros;
    repeat match goal with
           | H : _ /\ _ |- _ => destruct H
           | H : _ \/ _ |- _ => destruct H
           | H : False |- _ => contradiction
           end;
    try discriminate; try congruence; try lra; try contradiction;
    auto;
    try (exfalso; lra).
Qed.

Lemma boy_football_verdicts_witness :
  printed BoyFootball.msg_fail
          (events (BoyFootball.tick boy_triggered at_rest ego)).
Proof.
  apply (proj1 (boy_football_verdicts boy_triggered at_rest ego eq_refl)).
  split; reflexivity.
Defined.

(** ** start_car.py: several scenarios in one drive *)

Lemma split_at {A : Type} (l : list A) :
  forall (i : nat) (a : A),
    nth_error l i = Some a -> l = firstn i l ++ a :: skipn (S i) l.
Proof.
  induction l as [| b l IH]; intros [| i] a H; simpl in *; try discriminate.
  - now injection H as ->.
  - f_equal. now apply IH.
Qed.

Lemma nth_error_length {A : Type} (l : list A) (i : nat) (a : A) :
  nth_error l i = Some a -> (i < List.length l)%nat.
Proof. intros H. apply nth_error_Some. congruence. Qed.

Lemma popped_length {A : Type} (l : list A) (i : nat) :
  (i < List.length l)%nat ->
  List.length (firstn i l ++ skipn (S i) l) = (List.length l - 1)%nat.
Proof.
  intros Hi. rewrite length_app, length_firstn, length_skipn. lia.
Qed.

Lemma ticked_length (l : list start_car.scenario_object) (i : nat)
    (f : scenario_file) (self : class_of f) :
  (i < List.length l)%nat ->
  List.length (start_car.ticked l i f self) = List.length l.
Proof.
  intros Hi. unfold start_car.ticked.
  rewrite length_app, length_firstn. cbn [List.length].
  rewrite length_skipn. lia.
Qed.

Lemma owned_app (l1 l2 : list start_car.scenario_object) :
  owned (l1 ++ l2) = owned l1 ++ owned l2.
Proof. apply flat_map_app. Qed.

Lemma owned_ticked (l : list start_car.scenario_object) (i : nat)
    (f : scenario_file) (self : class_of f) (world : World)
    (ego_vehicle : Actor) :
  nth_error l i = Some (start_car.object_of f self) ->
  owned (start_car.ticked l i f (self' (tick self world ego_vehicle)))
  = owned l.
Proof.
  intros H. rewrite (split_at l i _ H) at 2.
  unfold start_car.ticked. rewrite !owned_app. f_equal.
  unfold owned. simpl. f_equal.
  now destruct (tick_has_frame f self world ego_vehicle).
Qed.

Lemma owned_popped (l : list start_car.scenario_object) (i : nat)
    (f : scenario_file) (self : class_of f) :
  nth_error l i = Some (start_car.object_of f self) ->
  Permutation (actor_list self ++ owned (firstn i l ++ skipn (S i) l))
              (owned l).
Proof.
  intros H. rewrite (split_at l i _ H) at 3.
  rewrite !owned_app. unfold owned at 4. simpl.
  fold (owned (skipn (S i) l)).
  apply Permutation_app_swap_app.
Qed.

Lemma tick_releases_none
    (f : scenario_file) (self : class_of f) (world : World)
    (ego_vehicle : Actor) :
  released (events (tick self world ego_vehicle)) = [].
Proof. now destruct (tick_has_frame f self world ego_vehicle). Qed.

Lemma for_enumerate_releases (world : World) (ego_vehicle : Actor) :
  forall (fuel index : nat) (l : start_car.Lists),
    let '(l', evs, _) :=
      start_car.for_enumerate fuel index l world ego_vehicle in
    Permutation (released evs ++ owned (start_car.scenarios l'))
                (owned (start_car.scenarios l)).
Proof.
  induction fuel as [| fuel IH]; intros index [s t]; simpl; [reflexivity |].
  destruct (nth_error s index) as [[f scenario] |] eqn:Hnth;
    [| reflexivity].
  destruct (Py.getitem t index) as [timer | e]; [| reflexivity].
  destruct (timer >? 0)%Z.
  - pose proof (owned_ticked s index f scenario world ego_vehicle Hnth)
      as Hsame.
    pose proof (tick_releases_none f scenario world ego_vehicle) as Hnone.
    destruct (returned (tick scenario world ego_vehicle)) as [sucess | e].
    + match goal with
      | |- context [match ?m with Py.Ok _ => _ | Py.Raise _ => _ end] =>
          destruct m as [timers | e]
      end.
      * specialize (IH (S index)
                       (start_car.mkLists
                          (start_car.ticked s index f
                             (self' (tick scenario world ego_vehicle)))
                          timers)).
        destruct (start_car.for_enumerate fuel (S index) _ world ego_vehicle)
          as [[l' evs] r].
        simpl in *. rewrite released_app, Hnone. simpl.
        now rewrite <- Hsame.
      * simpl. now rewrite Hnone, Hsame.
    + simpl. now rewrite Hnone, Hsame.
  - pose proof (destroy_releases_actor_list f scenario) as Hall.
    pose proof (owned_popped s index f scenario Hnth) as Hpop.
    unfold start_car.pop.
    pose proof (nth_error_length _ _ _ Hnth) as Hlt.
    apply Nat.ltb_lt in Hlt. rewrite Hlt.
    destruct (index <? List.length t)%nat.
    + specialize (IH (S index)
                     (start_car.mkLists (firstn index s ++ skipn (S index) s)
                        (firstn index t ++ skipn (S index) t))).
      destruct (start_car.for_enumerate fuel (S index) _ world ego_vehicle)
        as [[l' evs] r].
      simpl in *. rewrite released_app, Hall, <- app_assoc.
      rewrite <- Hpop. now apply Permutation_app_head.
    + simpl. now rewrite Hall.
Qed.

Lemma destroy_all_releases (l : list start_car.scenario_object) :
  released (start_car.destroy_all l) = owned l.
Proof.
  induction l as [| [f self] l IH]; [reflexivity |].
  unfold start_car.destroy_all, owned in *. simpl.
  now rewrite released_app, IH, destroy_releases_actor_list.
Qed.

Lemma released_firstn (log : list Event) (n : nat) :
  released log = released (firstn n log) ++ released (skipn n log).
Proof. now rewrite <- released_app, firstn_skipn. Qed.

Lemma actors_of_app (l1 l2 : list start_car.scenario_object) :
  actors_of (l1 ++ l2) = actors_of l1 ++ actors_of l2.
Proof. apply map_app. Qed.

Lemma actors_of_ticked (l : list start_car.scenario_object) (i : nat)
    (f : scenario_file) (self : class_of f) (world : World)
    (ego_vehicle : Actor) :
  nth_error l i = Some (start_car.object_of f self) ->
  actors_of (start_car.ticked l i f (self' (tick self world ego_vehicle)))
  = actors_of l.
Proof.
  intros H. rewrite (split_at l i _ H) at 2.
  unfold start_car.ticked. rewrite !actors_of_app. f_equal.
  unfold actors_of. simpl. f_equal.
  now destruct (tick_has_frame f self world ego_vehicle).
Qed.

Lemma actors_of_popped (l : list start_car.scenario_object) (i : nat) :
  incl (actors_of (firstn i l ++ skipn (S i) l)) (actors_of l).
Proof.
  intros actors Hin. rewrite actors_of_app in Hin.
  rewrite <- (firstn_skipn i l), actors_of_app.
  apply in_app_or in Hin. apply in_or_app.
  destruct Hin as [Hin | Hin]; [now left | right].
  unfold actors_of in *. apply in_map_iff in Hin.
  destruct Hin as (sc & Hsc & Hin). apply in_map_iff. exists sc.
  split; [exact Hsc |].
  replace (S i) with (1 + i)%nat in Hin by reflexivity.
  rewrite <- skipn_skipn in Hin.
  destruct (skipn i l) as [| first rest]; simpl in *; auto.
Qed.

Lemma for_enumerate_keeps (world : World) (ego_vehicle : Actor) :
  forall (fuel index : nat) (l : start_car.Lists),
    let '(l', _, _) :=
      start_car.for_enumerate fuel index l world ego_vehicle in
    incl (actors_of (start_car.scenarios l'))
         (actors_of (start_car.scenarios l)).
Proof.
  induction fuel as [| fuel IH]; intros index [s t]; simpl;
    [apply incl_refl |].
  destruct (nth_error s index) as [[f scenario] |] eqn:Hnth;
    [| apply incl_refl].
  destruct (Py.getitem t index) as [timer | e]; [| apply incl_refl].
  destruct (timer >? 0)%Z.
  - pose proof (actors_of_ticked s index f scenario world ego_vehicle Hnth)
      as Hsame.
    destruct (returned (tick scenario world ego_vehicle)) as [sucess | e].
    + match goal with
      | |- context [match ?m with Py.Ok _ => _ | Py.Raise _ => _ end] =>
          destruct m as [timers | e]
      end.
      * specialize (IH (S index)
                       (start_car.mkLists
                          (start_car.ticked s index f
                             (self' (tick scenario world ego_vehicle)))
                          timers)).
        destruct (start_car.for_enumerate fuel (S index) _ world ego_vehicle)
          as [[l' evs] r].
        simpl in *. now rewrite <- Hsame.
      * simpl. rewrite Hsame. apply incl_refl.
    + simpl. rewrite Hsame. apply incl_refl.
  - pose proof (actors_of_popped s index) as Hpop.
    unfold start_car.pop.
    destruct (index <? List.length s)%nat; [| apply incl_refl].
    destruct (index <? List.length t)%nat; [| exact Hpop].
    specialize (IH (S index)
                   (start_car.mkLists (firstn index s ++ skipn (S index) s)
                      (firstn index t ++ skipn (S index) t))).
    destruct (start_car.for_enumerate fuel (S index) _ world ego_vehicle)
      as [[l' evs] r].
    simpl in *. eapply incl_tran; eassumption.
Qed.

Lemma start_car_finally_releases (rgbcamera semanticcamera : bool)
    (l : list start_car.scenario_object) (cut : option nat) :
  exists kept : list Actor,
    released (start_car.finally_ rgbcamera semanticcamera l cut) ++ kept
    = owned l
    /\ (rgbcamera = true -> semanticcamera = true -> cut = None ->
        kept = []).
Proof.
  unfold start_car.finally_.
  destruct rgbcamera, semanticcamera; simpl;
    try (exists (owned l); split; [reflexivity | discriminate]).
  destruct cut as [n |].
  - exists (released (skipn n (start_car.destroy_all l))).
    split; [| discriminate].
    now rewrite <- released_firstn, destroy_all_releases.
  - exists []. rewrite app_nil_r, destroy_all_releases. now split.
Qed.

Lemma interrupted_pass_releases (l : start_car.Lists) (world : World)
    (ego_vehicle : Actor) (rounds sent : nat) (popped : bool) :
  let '(evs, remaining) :=
    start_car.interrupted_pass l world ego_vehicle rounds sent popped in
  exists twice : list Actor,
    Permutation (released evs ++ owned remaining)
                (owned (start_car.scenarios l) ++ twice)
    /\ (twice = [] \/ In twice (actors_of (start_car.scenarios l))).
Proof.
  unfold start_car.interrupted_pass.
  pose proof (for_enumerate_releases world ego_vehicle rounds 0 l) as Hrel.
  pose proof (for_enumerate_keeps world ego_vehicle rounds 0 l) as Hkeep.
  destruct (start_car.for_enumerate rounds 0 l world ego_vehicle)
    as [[l' evs] r].
  assert (Hnone : exists twice : list Actor,
             Permutation (released evs ++ owned (start_car.scenarios l'))
                         (owned (start_car.scenarios l) ++ twice)
             /\ (twice = [] \/ In twice (actors_of (start_car.scenarios l))))
    by (exists []; rewrite app_nil_r; auto).
  destruct r as [[] | e]; [| exact Hnone].
  destruct (nth_error (start_car.scenarios l') rounds)
    as [[f scenario] |] eqn:Hnth; [| exact Hnone].
  destruct (Py.getitem (start_car.scenario_timers l') rounds)
    as [timer | e]; [| exact Hnone].
  destruct (timer >? 0)%Z; [| destruct popped].
  - (* interrupted in a tick *)
    exists []. split; [| now left].
    rewrite released_app, app_nil_r.
    assert (Hsent : released
                      (firstn sent
                         (events (tick scenario world ego_vehicle))) = []).
    { pose proof (tick_releases_none f scenario world ego_vehicle) as Hall.
      rewrite (released_firstn _ sent) in Hall.
      now apply app_eq_nil in Hall. }
    rewrite Hsent, app_nil_r. exact Hrel.
  - (* destroyed and popped *)
    exists []. split; [| now left].
    rewrite released_app, app_nil_r, destroy_releases_actor_list.
    rewrite <- app_assoc, <- Hrel.
    apply Permutation_app_head.
    now apply owned_popped.
  - (* interrupted in destroy, or after it and before the pop *)
    destruct (destroy_cut_short f scenario sent) as (_ & [Hr | Hr] & _).
    + exists []. split; [| now left].
      rewrite released_app, Hr, !app_nil_r. exact Hrel.
    + exists (actor_list scenario). split.
      * rewrite released_app, Hr, <- Hrel, <- !app_assoc.
        apply Permutation_app_head.
        apply Permutation_app_comm.
      * right. apply Hkeep.
        unfold actors_of. apply in_map_iff.
        exists (start_car.object_of f scenario).
        split; [reflexivity |]. eapply nth_error_In; eassumption.
Qed.

Lemma start_car_main_loop_releases (rgbcamera semanticcamera : bool)
    (ego_vehicle : Actor) (worlds : list World)
    (interrupt : start_car.Interrupt) (cut : option nat) :
  forall l : start_car.Lists,
    exists kept twice : list Actor,
      Permutation
        (released (start_car.main_loop rgbcamera semanticcamera l
                     ego_vehicle worlds interrupt cut) ++ kept)
        (owned (start_car.scenarios l) ++ twice)
      /\ (twice = [] \/ In twice (actors_of (start_car.scenarios l)))
      /\ (interrupt = start_car.between_passes -> twice = [])
      /\ (interrupt = start_car.between_passes -> rgbcamera = true ->
          semanticcamera = true -> cut = None -> kept = []).
Proof.
  induction worlds as [| world worlds IH]; intros l;
    cbn [start_car.main_loop].
  - destruct interrupt as [| world rounds sent popped].
    + destruct (start_car_finally_releases rgbcamera semanticcamera
                  (start_car.scenarios l) cut) as (kept & Hkept & Hnone).
      exists kept, []. rewrite Hkept, app_nil_r. repeat split; auto.
    + pose proof (interrupted_pass_releases l world ego_vehicle rounds sent
                    popped) as Hpass.
      destruct (start_car.interrupted_pass l world ego_vehicle rounds sent
                  popped) as [evs remaining].
      destruct Hpass as (twice & Hperm & Htwice).
      destruct (start_car_finally_releases rgbcamera semanticcamera remaining cut)
        as (kept & Hkept & _).
      exists kept, twice. rewrite released_app, <- app_assoc, Hkept.
      repeat split; auto; discriminate.
  - unfold start_car.pass.
    pose proof (for_enumerate_releases world ego_vehicle
                  (List.length (start_car.scenarios l)) 0 l) as Hrel.
    pose proof (for_enumerate_keeps world ego_vehicle
                  (List.length (start_car.scenarios l)) 0 l) as Hkeep.
    destruct (start_car.for_enumerate _ 0 l world ego_vehicle)
      as [[l' evs] r].
    destruct r as [[] | e].
    + destruct (IH l') as (kept & twice & Hperm & Htwice & Hbetween & Hnone).
      exists kept, twice. rewrite released_app, <- app_assoc.
      repeat split; auto.
      * rewrite <- Hrel, <- app_assoc. apply Permutation_app_head.
        exact Hperm.
      * destruct Htwice as [-> | Hin]; [now left | right; now apply Hkeep].
    + destruct (start_car_finally_releases rgbcamera semanticcamera
                  (start_car.scenarios l') cut) as (kept & Hkept & Hnone).
      exists kept, []. rewrite released_app, <- app_assoc, Hkept, app_nil_r.
      repeat split; auto.
Qed.

(** With a camera flag false the [finally] block destroys no scenario:
    the drive is as with both cameras and the block interrupted before
    its first [destroy]. *)
Lemma main_loop_without_camera (rgbcamera semanticcamera : bool)
    (ego_vehicle : Actor) (worlds : list World)
    (interrupt : start_car.Interrupt) (cut : option nat) :
  rgbcamera && semanticcamera = false ->
  forall l : start_car.Lists,
    start_car.main_loop rgbcamera semanticcamera l ego_vehicle worlds
                        interrupt cut
    = start_car.main_loop true true l ego_vehicle worlds interrupt (Some 0%nat).
Proof.
  intros Hflag.
  assert (Hfinally : forall remaining : list start_car.scenario_object,
             start_car.finally_ rgbcamera semanticcamera remaining cut
             = start_car.finally_ true true remaining (Some 0%nat))
    by (intros remaining; unfold start_car.finally_; now rewrite Hflag).
  induction worlds as [| world worlds IH]; intros l;
    cbn [start_car.main_loop].
  - destruct interrupt as [| world rounds sent popped];
      [apply Hfinally |].
    destruct (start_car.interrupted_pass l world ego_vehicle rounds sent
                popped) as [evs remaining].
    now rewrite Hfinally.
  - destruct (start_car.pass l world ego_vehicle) as [[l' evs] r].
    destruct r as [[] | e]; [now rewrite IH | now rewrite Hfinally].
Qed.

Lemma crash_scenario_first_pass :
  start_car.pass (start_car.mkLists [crash_scenario] [800%Z])
                 in_tunnel_exit ego
  = (start_car.mkLists
       [start_car.object_of spawn_static_car_crash_1 crash_triggered]
       [799%Z],
     [print "Scenario -Static Car Crash near tunnel- has been triggered!"],
     Py.Ok tt).
Proof.
  unfold start_car.pass, crash_scenario, start_car.object_of.
  cbn [start_car.scenarios List.length start_car.for_enumerate nth_error
         start_car.scenario_timers Py.getitem].
  cbn [Z.gtb Z.compare].
  rewrite StaticCarCrash_1_triggers_in_tunnel_exit.
  reflexivity.
Qed.

Lemma crash_scenario_second_pass :
  start_car.pass
    (start_car.mkLists
       [start_car.object_of spawn_static_car_crash_1 crash_triggered]
       [799%Z])
    at_rest ego
  = (start_car.mkLists
       [start_car.object_of spawn_static_car_crash_1 crash_triggered]
       [0%Z],
     [print StaticCarCrash_1.msg_pass], Py.Ok tt).
Proof.
  unfold start_car.pass, start_car.object_of.
  cbn [start_car.scenarios List.length start_car.for_enumerate nth_error
         start_car.scenario_timers Py.getitem].
  cbn [Z.gtb Z.compare].
  rewrite StaticCarCrash_1_passes_at_rest.
  reflexivity.
Qed.

(** X19.  [start_car.py], from its main loop on.  If both cameras were
    created, the drive ends between two passes (it is interrupted there)
    or by an exception that escapes from a [tick], and the [finally]
    block runs to its end, then every actor of every scenario in the list
    is destroyed exactly once: by the loop when the scenario's timer has
    run out, or by the [finally] block.  Otherwise no actor is destroyed
    more than once, except the actors of at most one scenario, which are
    destroyed twice if the interrupt falls between that scenario's
    [destroy] and its removal from the list; and actors may be left
    undestroyed.  With a camera flag false (the camera's name is unbound
    in the [finally] block) the block destroys nothing at all, so every
    scenario whose timer has not run out is left: [StaticCarCrash_1],
    alone in the list and triggered in the only pass, keeps its eleven
    actors.  With both cameras, the same scenario, completed in the
    second pass and interrupted in the third after its [destroy], is
    destroyed twice. *)
Theorem start_car_destroys_every_scenario_once
    (rgbcamera semanticcamera : bool)
    (scenarios : list start_car.scenario_object) (timer : Z)
    (ego_vehicle : Actor) (worlds : list World)
    (interrupt : start_car.Interrupt) (cut : option nat) :
  let run :=
    start_car.main rgbcamera semanticcamera scenarios timer ego_vehicle
                   worlds interrupt cut in
  (exists kept twice : list Actor,
      Permutation (released run ++ kept) (owned scenarios ++ twice)
      /\ (twice = [] \/ In twice (actors_of scenarios))
      /\ (interrupt = start_car.between_passes -> twice = [])
      /\ (interrupt = start_car.between_passes -> rgbcamera = true ->
          semanticcamera = true -> cut = None -> kept = []))
  /\ (interrupt = start_car.between_passes -> rgbcamera = true ->
      semanticcamera = true -> cut = None ->
      Permutation (released run) (owned scenarios))
  /\ (rgbcamera && semanticcamera = false ->
      run = start_car.main true true scenarios timer ego_vehicle worlds
                           interrupt (Some 0%nat))
  /\ (released
        (start_car.main false true [crash_scenario] 800 ego
           [in_tunnel_exit] start_car.between_passes None) = []
      /\ owned [crash_scenario] = seq 0 11)
  /\ released
       (start_car.main true true [crash_scenario] 800 ego
          [in_tunnel_exit; at_rest]
          (start_car.within_pass at_rest 0 3 false) None)
     = owned [crash_scenario] ++ owned [crash_scenario].
Proof.
  intros run. subst run. unfold start_car.main.
  pose proof (start_car_main_loop_releases rgbcamera semanticcamera
                ego_vehicle worlds interrupt cut
                (start_car.mkLists scenarios
                   (repeat timer (List.length scenarios)))) as Hall.
  cbn [start_car.scenarios] in Hall.
  split; [exact Hall | split; [| split; [| split]]].
  - intros Hbetween Hrgb Hsem Hcut.
    destruct Hall as (kept & twice & Hperm & _ & Htwice & Hkept).
    rewrite (Htwice Hbetween), (Hkept Hbetween Hrgb Hsem Hcut),
      !app_nil_r in Hperm.
    exact Hperm.
  - intros Hflag. now apply main_loop_without_camera.
  - split; [| reflexivity].
    cbn [List.length repeat start_car.main_loop].
    rewrite crash_scenario_first_pass. reflexivity.
  - cbn [List.length repeat start_car.main_loop].
    rewrite crash_scenario_first_pass.
    cbn [start_car.main_loop].
    rewrite crash_scenario_second_pass.
    reflexivity.
Qed.

(** More fuel than the length of the list changes nothing: the [for]
    loop ends by itself. *)
Lemma for_enumerate_fuel (world : World) (ego_vehicle : Actor) :
  forall (fuel fuel' index : nat) (l : start_car.Lists),
    (List.length (start_car.scenarios l) - index <= fuel)%nat ->
    (List.length (start_car.scenarios l) - index <= fuel')%nat ->
    start_car.for_enumerate fuel index l world ego_vehicle
    = start_car.for_enumerate fuel' index l world ego_vehicle.
Proof.
  assert (Hdone : forall (fuel index : nat) (l : start_car.Lists),
             (List.length (start_car.scenarios l) - index <= 0)%nat ->
             start_car.for_enumerate fuel index l world ego_vehicle
             = (l, [], Py.Ok tt)).
  { intros [| fuel] index [s t] H; [reflexivity |]. simpl in *.
    destruct (nth_error s index) as [[f scenario] |] eqn:Hnth;
      [| reflexivity].
    apply nth_error_length in Hnth. lia. }
  induction fuel as [| fuel IH]; intros fuel' index l Hfuel Hfuel'.
  - now rewrite !Hdone.
  - destruct fuel' as [| fuel']; [now rewrite !Hdone |].
    destruct l as [s t]. simpl in Hfuel, Hfuel'. simpl.
    destruct (nth_error s index) as [[f scenario] |] eqn:Hnth;
      [| reflexivity].
    pose proof (nth_error_length _ _ _ Hnth) as Hlt.
    destruct (Py.getitem t index) as [timer | e]; [| reflexivity].
    destruct (timer >? 0)%Z.
    + destruct (returned (tick scenario world ego_vehicle))
        as [sucess | e]; [| reflexivity].
      match goal with
      | |- context [match ?m with Py.Ok _ => _ | Py.Raise _ => _ end] =>
          destruct m as [timers | e]; [| reflexivity]
      end.
      rewrite (IH fuel'); [reflexivity | |];
        cbn [start_car.scenarios]; rewrite ticked_length by exact Hlt; lia.
    + unfold start_car.pop.
      destruct (index <? List.length s)%nat eqn:Hs; [| reflexivity].
      destruct (index <? List.length t)%nat eqn:Ht; [| reflexivity].
      rewrite (IH fuel'); [reflexivity | |];
        cbn [start_car.scenarios]; rewrite popped_length by exact Hlt; lia.
Qed.

(** From the item at [S index] on, the loop leaves the first item of the
    two lists alone: it does on the rest what it does without that
    item. *)
Lemma for_enumerate_shift (world : World) (ego_vehicle : Actor)
    (first : start_car.scenario_object) (first_timer : Z) :
  forall (fuel index : nat) (s : list start_car.scenario_object)
         (t : list Z),
    start_car.for_enumerate fuel (S index)
      (start_car.mkLists (first :: s) (first_timer :: t)) world ego_vehicle
    = let '(l, evs, r) :=
        start_car.for_enumerate fuel index (start_car.mkLists s t)
                                world ego_vehicle in
      (start_car.mkLists (first :: start_car.scenarios l)
                         (first_timer :: start_car.scenario_timers l),
       evs, r).
Proof.
  induction fuel as [| fuel IH]; intros index s t; [reflexivity |].
  cbn [start_car.for_enumerate start_car.scenarios
         start_car.scenario_timers nth_error].
  destruct (nth_error s index) as [[f scenario] |] eqn:Hnth;
    [| reflexivity].
  unfold Py.getitem. cbn [nth_error].
  destruct (nth_error t index) as [timer |]; [| reflexivity].
  destruct (timer >? 0)%Z.
  - destruct (returned (tick scenario world ego_vehicle))
      as [sucess | e]; [| reflexivity].
    destruct (triggered (self' (tick scenario world ego_vehicle))).
    + cbn [Py.setitem].
      destruct (Py.setitem t index _) as [timers | e]; [| reflexivity].
      change (start_car.ticked (first :: s) (S index) f
                (self' (tick scenario world ego_vehicle)))
        with (first :: start_car.ticked s index f
                         (self' (tick scenario world ego_vehicle))).
      rewrite IH.
      destruct (start_car.for_enumerate fuel (S index) _ world ego_vehicle)
        as [[l evs] r].
      reflexivity.
    + change (start_car.ticked (first :: s) (S index) f
                (self' (tick scenario world ego_vehicle)))
        with (first :: start_car.ticked s index f
                         (self' (tick scenario world ego_vehicle))).
      rewrite IH.
      destruct (start_car.for_enumerate fuel (S index) _ world ego_vehicle)
        as [[l evs] r].
      reflexivity.
  - unfold start_car.pop. cbn [List.length].
    change (S index <? S (List.length s))%nat
      with (index <? List.length s)%nat.
    change (S index <? S (List.length t))%nat
      with (index <? List.length t)%nat.
    destruct (index <? List.length s)%nat; [| reflexivity].
    destruct (index <? List.length t)%nat; [| reflexivity].
    change (firstn (S index) (first :: s) ++ skipn (S (S index)) (first :: s))
      with (first :: (firstn index s ++ skipn (S index) s)).
    change (firstn (S index) (first_timer :: t)
              ++ skipn (S (S index)) (first_timer :: t))
      with (first_timer :: (firstn index t ++ skipn (S index) t)).
    rewrite IH.
    destruct (start_car.for_enumerate fuel (S index) _ world ego_vehicle)
      as [[l evs] r].
    reflexivity.
Qed.

(** X20.  In [start_car.py] the scenario that follows a destroyed one is
    passed over.  When a pass finds the timer of the first scenario of
    the list run out, it destroys that scenario and pops it, and the
    second scenario, now first, is neither ticked nor destroyed in that
    pass, whatever its own timer says: it is there unchanged after the
    pass, with its timer as it was, and the rest of the pass is the pass
    over the scenarios behind it. *)
Theorem start_car_passes_over_the_next_scenario
    (done next : start_car.scenario_object) (done_timer next_timer : Z)
    (scenarios : list start_car.scenario_object) (scenario_timers : list Z)
    (world : World) (ego_vehicle : Actor) :
  (done_timer <= 0)%Z ->
  start_car.pass
    (start_car.mkLists (done :: next :: scenarios)
                       (done_timer :: next_timer :: scenario_timers))
    world ego_vehicle
  = let '(l, evs, r) :=
      start_car.pass (start_car.mkLists scenarios scenario_timers)
                     world ego_vehicle in
    (start_car.mkLists (next :: start_car.scenarios l)
                       (next_timer :: start_car.scenario_timers l),
     destroy (projT2 done) ++ evs, r).
Proof.
  intros Hdone. unfold start_car.pass.
  cbn [start_car.scenarios List.length].
  remember (S (List.length scenarios)) as fuel eqn:Hfuel.
  cbn [start_car.for_enumerate start_car.scenarios
         start_car.scenario_timers nth_error].
  destruct done as [f scenario]. unfold Py.getitem. cbn [nth_error].
  assert (Hout : (done_timer >? 0)%Z = false)
    by (rewrite Z.gtb_ltb; apply Z.ltb_ge; lia).
  rewrite Hout.
  unfold start_car.pop. cbn [List.length Nat.ltb Nat.leb firstn skipn app].
  rewrite for_enumerate_shift.
  rewrite (for_enumerate_fuel world ego_vehicle
             fuel (List.length scenarios))
    by (cbn [start_car.scenarios]; lia).
  destruct (start_car.for_enumerate _ 0 _ world ego_vehicle) as [[l evs] r].
  reflexivity.
Qed.

Lemma start_car_passes_over_the_next_scenario_witness :
  let done := start_car.object_of spawn_static_car_crash_1 crash_triggered in
  let next := start_car.object_of spawn_ball_boy boy_triggered in
  start_car.pass (start_car.mkLists [done; next] [0%Z; 800%Z])
                 bumper_level_with_boy ego
  = (start_car.mkLists [next] [800%Z],
     StaticCarCrash_1.destroy crash_triggered ++ [], Py.Ok tt).
Proof.
  intros done next.
  exact (start_car_passes_over_the_next_scenario
           done next 0%Z 800%Z [] [] bumper_level_with_boy ego
           (Z.le_refl 0)).
Defined.

(** ** spawn_static_EMS_obstacle.py *)

Lemma StaticEMSObstacle_tick_keeps_actors
    (self : StaticEMSObstacle.t) (world : World) (ego_vehicle : Actor) :
  StaticEMSObstacle.actor_list
    (self' (StaticEMSObstacle.tick self world ego_vehicle))
  = StaticEMSObstacle.actor_list self.
Proof.
  unfold StaticEMSObstacle.tick, StaticEMSObstacle.trigger.
  repeat match goal with
         | |- context [if ?b then _ else _] => destruct b
         end; reflexivity.
Qed.

(** X21.  [StaticEMSObstacle] attaches a collision sensor to each of its
    five vehicles and starts all five listening, but [destroy] stops only
    the first four entries of the actor list: the sensors of the three
    fire engines and of the police car.  The sensor of the ambulance, the
    first one attached and so the fifth entry, is destroyed while it is
    still listening.  All five sensors are destroyed before the vehicles.
    This holds at whatever point of its life the scenario is
    destroyed. *)
Theorem ems_destroy_leaves_one_sensor_listening
    (fresh : Actor) (trigger_points : option TriggerPoints)
    (ego_vehicle : Actor) (worlds : list World) :
  let new := StaticEMSObstacle.__init__ fresh trigger_points in
  let vehicle (i : nat) : Actor := (i + fresh)%nat in
  let sensor (i : nat) : Actor := (5 + i + fresh)%nat in
  attached (plain_events new)
  = [(sensor 0, vehicle 0); (sensor 1, vehicle 1); (sensor 2, vehicle 2);
     (sensor 3, vehicle 3); (sensor 4, vehicle 4)]%nat
  /\ map (StaticEMSObstacle.event) (map sensor_listen
                                        [sensor 0; sensor 1; sensor 2;
                                         sensor 3; sensor 4]%nat)
     = filter is_listen (snd new)
  /\ Forall (fun s =>
               stopped (destroy s)
               = [sensor 4; sensor 3; sensor 2; sensor 1]%nat
               /\ released (destroy s)
                  = [sensor 4; sensor 3; sensor 2; sensor 1; sensor 0;
                     vehicle 0; vehicle 1; vehicle 2; vehicle 3;
                     vehicle 4]%nat
               /\ In (sensor 0%nat) (released (destroy s))
               /\ ~ In (sensor 0%nat) (stopped (destroy s)))
            (states (fst new) ego_vehicle worlds).
Proof.
  intros new vehicle sensor.
  split; [reflexivity | split; [reflexivity |]].
  assert (Hkeep : forall (ws : list World) (s0 : StaticEMSObstacle.t),
             Forall (fun s => StaticEMSObstacle.actor_list s
                              = StaticEMSObstacle.actor_list s0)
                    (states s0 ego_vehicle ws)).
  { induction ws as [| w ws IH]; intros s0.
    - constructor; [reflexivity | constructor].
    - rewrite states_cons. constructor; [reflexivity |].
      eapply Forall_impl; [| apply IH].
      simpl. intros s Hs. rewrite Hs.
      apply StaticEMSObstacle_tick_keeps_actors. }
  eapply Forall_impl; [| apply (Hkeep worlds (fst new))].
  intros s Hs. cbn [destroy StaticEMSObstacle_Scenario].
  unfold StaticEMSObstacle.destroy. rewrite Hs.
  subst new vehicle sensor. cbn.
  repeat split; auto 10.
  intros H. repeat (destruct H as [H | H]; [lia |]). exact H.
Qed.

(** X22.  The sensors of [StaticEMSObstacle] flag a contact only with an
    actor whose role name is ego; a contact with anything else prints
    nothing and changes nothing.  A triggered tick fails the scenario
    with the collision line exactly if a contact is flagged; otherwise
    it passes it exactly if the ego vehicle is outside the trigger area,
    and fails it exactly if the ego vehicle is inside with the timer run
    out; these are the ticks that return 1. *)
Theorem ems_verdicts
    (self : StaticEMSObstacle.t) (world : World) (ego_vehicle : Actor) :
  StaticEMSObstacle.triggered self = true ->
  let o := StaticEMSObstacle.tick self world ego_vehicle in
  let inside :=
    is_inside_bounding_box (location (get_transform (world ego_vehicle)))
      (fst (StaticEMSObstacle.trigger_area self))
      (snd (StaticEMSObstacle.trigger_area self)) in
  (forall role_name location : string,
      role_name <> "ego"%string ->
      StaticEMSObstacle.sensor_callback self role_name location = (self, []))
  /\ (forall location : string,
         StaticEMSObstacle.collision_detected
           (fst (StaticEMSObstacle.sensor_callback self "ego" location))
         = true)
  /\ (printed StaticEMSObstacle.msg_collision (events o)
      <-> StaticEMSObstacle.collision_detected self = true)
  /\ (printed StaticEMSObstacle.msg_pass (events o)
      <-> StaticEMSObstacle.collision_detected self = false
          /\ inside = false)
  /\ (printed StaticEMSObstacle.msg_fail (events o)
      <-> StaticEMSObstacle.collision_detected self = false
          /\ inside = true /\ (StaticEMSObstacle.timer self <= 0)%Z)
  /\ (returned o = Py.Ok 1%Z
      <-> printed StaticEMSObstacle.msg_collision (events o)
          \/ printed StaticEMSObstacle.msg_pass (events o)
          \/ printed StaticEMSObstacle.msg_fail (events o)).
Proof.
  intros Htr o inside. subst o inside.
  split; [| split; [reflexivity |]].
  { intros role_name location Hrole.
    unfold StaticEMSObstacle.sensor_callback.
    apply String.eqb_neq in Hrole. now rewrite Hrole. }
  unfold StaticEMSObstacle.tick. rewrite Htr.
  unfold StaticEMSObstacle.msg_collision, StaticEMSObstacle.msg_pass,
    StaticEMSObstacle.msg_fail, printed.
  destruct (StaticEMSObstacle.collision_detected self);
    [| destruct (is_inside_bounding_box _ _ _);
       [destruct (StaticEMSObstacle.timer self >? 0)%Z eqn:Ht;
        [apply Z.gtb_lt in Ht
        | rewrite Z.gtb_ltb in Ht; apply Z.ltb_ge in Ht] |]];
    simpl;
    repeat split; intros;
    repeat match goal with
           | H : _ /\ _ |- _ => destruct H
           | H : _ \/ _ |- _ => destruct H
           | H : False |- _ => contradiction
           end;
    try discriminate; try congruence; try lia; auto.
Qed.

Lemma ems_verdicts_witness :
  let triggered_ems :=
    fst (StaticEMSObstacle.trigger
           (fst (StaticEMSObstacle.__init__ 0%nat None))) in
  StaticEMSObstacle.sensor_callback triggered_ems "default" "Location"
  = (triggered_ems, []).
Proof.
  intros triggered_ems.
  apply (proj1 (ems_verdicts triggered_ems at_rest ego eq_refl)).
  discriminate.
Defined.

(** ** The emergency landing *)

Lemma EmergencyPlane_tick_descending
    (self : EmergencyPlane.t) (world : World) (ego_vehicle : Actor) :
  let body :=
    location (get_transform (world (EmergencyPlane.cirrus_body_actor self))) in
  let propeller :=
    get_transform (world (EmergencyPlane.cirrus_prop_actor self)) in
  EmergencyPlane.triggered self = true ->
  z body > 2.80 ->
  EmergencyPlane.tick self world ego_vehicle
  = mkOutcome self
      [set_transform (EmergencyPlane.cirrus_prop_actor self)
         (EmergencyPlane.spin (roll (rotation propeller)));
       set_transform (EmergencyPlane.cirrus_body_actor self)
         (mkTransform (Loc (x body - 1.00) (y body) (z body - 0.30))
                      (Rot 0 0 180))]
      (Py.Ok 0%Z).
Proof.
  intros body propeller Htr Hhigh.
  unfold EmergencyPlane.tick. rewrite Htr. fold body.
  apply gt_spec in Hhigh. now rewrite Hhigh.
Qed.

Lemma EmergencyPlane_tick_rolling
    (self : EmergencyPlane.t) (world : World) (ego_vehicle : Actor) :
  let body :=
    location (get_transform (world (EmergencyPlane.cirrus_body_actor self))) in
  let propeller :=
    get_transform (world (EmergencyPlane.cirrus_prop_actor self)) in
  EmergencyPlane.triggered self = true ->
  ~ z body > 2.80 ->
  (0 < EmergencyPlane.timer self)%Z ->
  EmergencyPlane.tick self world ego_vehicle
  = mkOutcome
      (EmergencyPlane.set_timer (EmergencyPlane.timer self - 1) self)
      [set_transform (EmergencyPlane.cirrus_prop_actor self)
         (EmergencyPlane.spin (roll (rotation propeller)));
       set_transform (EmergencyPlane.cirrus_body_actor self)
         (mkTransform
            (Loc (x body - IZR (EmergencyPlane.timer self - 1) / 100)
                 (y body) (z body))
            (Rot 0 0 180))]
      (Py.Ok 0%Z).
Proof.
  intros body propeller Htr Hlow Ht.
  unfold EmergencyPlane.tick. rewrite Htr. fold body.
  destruct (Py.gt (z body) 2.80) eqn:Hgt;
    [apply gt_spec in Hgt; contradiction |].
  replace (EmergencyPlane.timer self >? 0)%Z with true
    by (symmetry; apply Z.gtb_lt; lia).
  reflexivity.
Qed.

Lemma EmergencyPlane_tick_landed
    (self : EmergencyPlane.t) (world : World) (ego_vehicle : Actor) :
  let body :=
    location (get_transform (world (EmergencyPlane.cirrus_body_actor self))) in
  let propeller :=
    get_transform (world (EmergencyPlane.cirrus_prop_actor self)) in
  EmergencyPlane.triggered self = true ->
  ~ z body > 2.80 ->
  (EmergencyPlane.timer self <= 0)%Z ->
  EmergencyPlane.tick self world ego_vehicle
  = mkOutcome self
      [set_transform (EmergencyPlane.cirrus_prop_actor self)
         (EmergencyPlane.spin (roll (rotation propeller)));
       print EmergencyPlane.msg_pass]
      (Py.Ok 1%Z).
Proof.
  intros body propeller Htr Hlow Ht.
  unfold EmergencyPlane.tick. rewrite Htr. fold body.
  destruct (Py.gt (z body) 2.80) eqn:Hgt;
    [apply gt_spec in Hgt; contradiction |].
  replace (EmergencyPlane.timer self >? 0)%Z with false
    by (symmetry; rewrite Z.gtb_ltb; apply Z.ltb_ge; lia).
  reflexivity.
Qed.

(** The ticks of the countdown, one by one. *)
Lemma EmergencyPlane_countdown (ego_vehicle : Actor) (n : nat) :
  forall (self : EmergencyPlane.t) (worlds : list World),
    EmergencyPlane.triggered self = true ->
    EmergencyPlane.timer self = Z.of_nat n ->
    Forall (fun world =>
              ~ z (location
                     (get_transform
                        (world (EmergencyPlane.cirrus_body_actor self))))
                > 2.80) worlds ->
    forall (k : nat) (world : World),
      nth_error worlds k = Some world ->
      let body :=
        location (get_transform
                    (world (EmergencyPlane.cirrus_body_actor self))) in
      let propeller :=
        get_transform (world (EmergencyPlane.cirrus_prop_actor self)) in
      exists o : Outcome EmergencyPlane.t,
        nth_error (ticks self ego_vehicle worlds) k = Some o
        /\ EmergencyPlane.timer (self' o) = Z.of_nat (n - S k)
        /\ events o
           = set_transform (EmergencyPlane.cirrus_prop_actor self)
               (EmergencyPlane.spin (roll (rotation propeller)))
             :: (if (k <? n)%nat
                 then [set_transform (EmergencyPlane.cirrus_body_actor self)
                         (mkTransform
                            (Loc (x body - IZR (Z.of_nat (n - S k)) / 100)
                                 (y body) (z body))
                            (Rot 0 0 180))]
                 else [print EmergencyPlane.msg_pass])
        /\ returned o = Py.Ok (if (k <? n)%nat then 0%Z else 1%Z).
Proof.
  induction n as [| n IH]; intros self worlds Htr Ht Hlow k world Hk.
  - (* the timer has run out: every tick is the last one *)
    revert self Htr Ht Hlow k Hk.
    induction worlds as [| first worlds IHw];
      intros self Htr Ht Hlow k Hk; [destruct k; discriminate |].
    inversion Hlow as [| ? ? Hfirst Hrest]; subst.
    pose proof (EmergencyPlane_tick_landed self first ego_vehicle Htr Hfirst
                  ltac:(lia)) as Hstep.
    rewrite ticks_cons. cbn [tick EmergencyPlane_Scenario].
    rewrite Hstep. cbn [self'].
    destruct k as [| k].
    + injection Hk as <-. eexists. split; [reflexivity |].
      cbn [self' events returned Nat.ltb Nat.leb Nat.sub]. auto.
    + cbn [nth_error] in Hk |- *.
      destruct (IHw self Htr Ht Hrest k Hk) as (o & Ho & Hto & Hev & Hret).
      exists o. cbn [Nat.ltb Nat.leb Nat.sub] in *. auto.
  - destruct worlds as [| first worlds]; [destruct k; discriminate |].
    inversion Hlow as [| ? ? Hfirst Hrest]; subst.
    pose proof (EmergencyPlane_tick_rolling self first ego_vehicle Htr Hfirst
                  ltac:(lia)) as Hstep.
    replace (EmergencyPlane.timer self - 1)%Z with (Z.of_nat n) in Hstep
      by lia.
    rewrite ticks_cons. cbn [tick EmergencyPlane_Scenario].
    rewrite Hstep. cbn [self'].
    destruct k as [| k].
    + injection Hk as <-. eexists. split; [reflexivity |].
      cbn [self' events returned EmergencyPlane.set_timer
             EmergencyPlane.timer].
      replace (S n - 1)%nat with n by lia.
      replace (0 <? S n)%nat with true by reflexivity.
      auto.
    + cbn [nth_error] in Hk |- *.
      destruct (IH (EmergencyPlane.set_timer (Z.of_nat n) self) worlds
                   Htr eq_refl Hrest k world Hk)
        as (o & Ho & Hto & Hev & Hret).
      exists o.
      change (S k <? S n)%nat with (k <? n)%nat.
      change (S n - S (S k))%nat with (n - S k)%nat.
      auto.
Qed.

Lemma EmergencyPlane_countdown_total (ego_vehicle : Actor) (n : nat) :
  forall (self : EmergencyPlane.t) (worlds : list World),
    EmergencyPlane.triggered self = true ->
    EmergencyPlane.cirrus_body_actor self
    <> EmergencyPlane.cirrus_prop_actor self ->
    EmergencyPlane.timer self = Z.of_nat n ->
    List.length worlds = S n ->
    Forall (fun world =>
              ~ z (location
                     (get_transform
                        (world (EmergencyPlane.cirrus_body_actor self))))
                > 2.80) worlds ->
    map returned (ticks self ego_vehicle worlds)
    = repeat (Py.Ok 0%Z) n ++ [Py.Ok 1%Z]
    /\ total (map (fun step =>
                     rolled (EmergencyPlane.cirrus_body_actor self)
                            (fst step) (snd step))
                  (combine worlds (ticks self ego_vehicle worlds)))
       = INR n * (INR n - 1) / 200.
Proof.
  induction n as [| n IH]; intros self worlds Htr Hdistinct Ht Hlen Hlow.
  - destruct worlds as [| world [| ? ?]]; try discriminate.
    inversion Hlow as [| ? ? Hw _]; subst.
    cbn [ticks combine map]. cbn [tick EmergencyPlane_Scenario].
    rewrite (EmergencyPlane_tick_landed self world ego_vehicle Htr Hw)
      by lia.
    split; [reflexivity |].
    unfold rolled. cbn [events commanded fst snd total fold_right map].
    apply Nat.eqb_neq in Hdistinct. rewrite Hdistinct. simpl. lra.
  - destruct worlds as [| world worlds]; [discriminate |].
    injection Hlen as Hlen. inversion Hlow as [| ? ? Hw Hrest]; subst.
    rewrite ticks_cons.
    set (body := location (get_transform
                   (world (EmergencyPlane.cirrus_body_actor self)))).
    pose proof (EmergencyPlane_tick_rolling self world ego_vehicle Htr Hw
                  ltac:(lia)) as Hstep.
    replace (EmergencyPlane.timer self - 1)%Z with (Z.of_nat n) in Hstep
      by lia.
    cbn [tick EmergencyPlane_Scenario]. rewrite Hstep. cbn [self'].
    destruct (IH (EmergencyPlane.set_timer (Z.of_nat n) self) worlds
                 Htr Hdistinct eq_refl Hlen Hrest) as (Hcodes & Hroll).
    split.
    + cbn [map returned repeat app]. cbn [tick EmergencyPlane_Scenario] in Hcodes.
      now rewrite Hcodes.
    + cbn [combine map total fold_right]. fold (total
        (map (fun step =>
                rolled (EmergencyPlane.cirrus_body_actor self)
                       (fst step) (snd step))
             (combine worlds
                (ticks (EmergencyPlane.set_timer (Z.of_nat n) self)
                       ego_vehicle worlds)))).
      cbn [EmergencyPlane.cirrus_body_actor EmergencyPlane.set_timer] in Hroll.
      rewrite Hroll.
      unfold rolled. cbn [events commanded fst snd].
      rewrite Nat.eqb_refl. cbn [location x]. fold body.
      rewrite <- INR_IZR_INZ, S_INR. unfold Loc. cbn [x]. lra.
Qed.

(** X23.  Once triggered, [EmergencyPlane] turns the propeller by 18
    degrees on every tick, from the roll the simulator reports for it,
    and brings the plane down in two phases.  While the body is above
    z = 2.80 a tick moves it 1.00 along -x and 0.30 down, returns 0, and
    the timer stands still.  Once it is not, the timer runs: a tick that
    finds the timer positive takes one off, moves the body along -x by a
    hundredth of what is then left on the timer and returns 0; a tick
    that finds it run out prints the verdict, moves nothing but the
    propeller and returns 1.  So with the timer at n, the next n ticks
    return 0, tick number k of them leaving n - k on the timer and
    moving the body by (n - k) / 100, the tick after them prints the
    verdict and returns 1, and in all the body rolls n (n - 1) / 200
    along -x (49.5 from the initial timer of 100). *)
Theorem emergency_plane_lands
    (ego_vehicle : Actor) (n : nat) :
  forall (self : EmergencyPlane.t) (worlds : list World),
    EmergencyPlane.triggered self = true ->
    EmergencyPlane.cirrus_body_actor self
    <> EmergencyPlane.cirrus_prop_actor self ->
    (forall world : World,
        let body :=
          location (get_transform
                      (world (EmergencyPlane.cirrus_body_actor self))) in
        let propeller :=
          get_transform (world (EmergencyPlane.cirrus_prop_actor self)) in
        let spun :=
          set_transform (EmergencyPlane.cirrus_prop_actor self)
            (mkTransform (Loc 4.11 0.00 0.29)
                         (Rot (roll (rotation propeller) + 18) 0 0)) in
        (z body > 2.80 ->
         EmergencyPlane.tick self world ego_vehicle
         = mkOutcome self
             [spun;
              set_transform (EmergencyPlane.cirrus_body_actor self)
                (mkTransform (Loc (x body - 1.00) (y body) (z body - 0.30))
                             (Rot 0 0 180))]
             (Py.Ok 0%Z))
        /\ (~ z body > 2.80 -> (0 < EmergencyPlane.timer self)%Z ->
            EmergencyPlane.tick self world ego_vehicle
            = mkOutcome
                (EmergencyPlane.set_timer (EmergencyPlane.timer self - 1)
                                          self)
                [spun;
                 set_transform (EmergencyPlane.cirrus_body_actor self)
                   (mkTransform
                      (Loc (x body
                            - IZR (EmergencyPlane.timer self - 1) / 100)
                           (y body) (z body))
                      (Rot 0 0 180))]
                (Py.Ok 0%Z))
        /\ (~ z body > 2.80 -> (EmergencyPlane.timer self <= 0)%Z ->
            EmergencyPlane.tick self world ego_vehicle
            = mkOutcome self [spun; print EmergencyPlane.msg_pass]
                        (Py.Ok 1%Z)))
    /\ (EmergencyPlane.timer self = Z.of_nat n ->
        List.length worlds = S n ->
        Forall (fun world =>
                  ~ z (location
                         (get_transform
                            (world (EmergencyPlane.cirrus_body_actor self))))
                    > 2.80) worlds ->
        map returned (ticks self ego_vehicle worlds)
        = repeat (Py.Ok 0%Z) n ++ [Py.Ok 1%Z]
        /\ (forall (k : nat) (world : World),
               nth_error worlds k = Some world ->
               let body :=
                 location
                   (get_transform
                      (world (EmergencyPlane.cirrus_body_actor self))) in
               let propeller :=
                 get_transform
                   (world (EmergencyPlane.cirrus_prop_actor self)) in
               exists o : Outcome EmergencyPlane.t,
                 nth_error (ticks self ego_vehicle worlds) k = Some o
                 /\ EmergencyPlane.timer (self' o) = Z.of_nat (n - S k)
                 /\ events o
                    = set_transform (EmergencyPlane.cirrus_prop_actor self)
                        (mkTransform
                           (Loc 4.11 0.00 0.29)
                           (Rot (roll (rotation propeller) + 18) 0 0))
                      :: (if (k <? n)%nat
                          then
                            [set_transform
                               (EmergencyPlane.cirrus_body_actor self)
                               (mkTransform
                                  (Loc (x body
                                        - IZR (Z.of_nat (n - S k)) / 100)
                                       (y body) (z body))
                                  (Rot 0 0 180))]
                          else [print EmergencyPlane.msg_pass])
                 /\ returned o = Py.Ok (if (k <? n)%nat then 0%Z else 1%Z))
        /\ total (map (fun step =>
                         rolled (EmergencyPlane.cirrus_body_actor self)
                                (fst step) (snd step))
                      (combine worlds (ticks self ego_vehicle worlds)))
           = INR n * (INR n - 1) / 200).
Proof.
  intros self worlds Htr Hdistinct. split.
  { intros world body propeller spun. split; [| split].
    - now apply EmergencyPlane_tick_descending.
    - now apply EmergencyPlane_tick_rolling.
    - now apply EmergencyPlane_tick_landed. }
  intros Ht Hlen Hlow.
  destruct (EmergencyPlane_countdown_total ego_vehicle n self worlds Htr
              Hdistinct Ht Hlen Hlow) as [Hcodes Hroll].
  split; [exact Hcodes | split; [| exact Hroll]].
  intros k world Hk.
  exact (EmergencyPlane_countdown ego_vehicle n self worlds Htr Ht Hlow
           k world Hk).
Qed.

Lemma emergency_plane_lands_witness :
  let plane :=
    EmergencyPlane.set_timer 2
      (fst (EmergencyPlane.trigger (fst (EmergencyPlane.__init__ 0%nat)))) in
  map returned (ticks plane ego [at_rest; at_rest; at_rest])
  = [Py.Ok 0%Z; Py.Ok 0%Z; Py.Ok 1%Z].
Proof.
  intros plane.
  assert (Hdistinct : EmergencyPlane.cirrus_body_actor plane
                      <> EmergencyPlane.cirrus_prop_actor plane)
    by (simpl; lia).
  assert (Hlow : Forall (fun world =>
                           ~ z (location
                                  (get_transform
                                     (world (EmergencyPlane.cirrus_body_actor
                                               plane)))) > 2.80)
                        [at_rest; at_rest; at_rest])
    by (repeat constructor; simpl; lra).
  exact (proj1 (proj2 (emergency_plane_lands ego 2 plane
                         [at_rest; at_rest; at_rest] eq_refl Hdistinct)
                  eq_refl eq_refl Hlow)).
Defined.

(** X24.  [EmergencyPlane] never reads its trigger area: it tests the
    ego vehicle against the trigger points, which no tick changes, and
    only writes the area.  So, unlike in the other classes, the box that
    triggers the scenario does not move with the speed of the ego
    vehicle: whatever the trigger area has become, a tick returns, sends
    and prints the same, and leaves the same object but for the
    area. *)
Theorem emergency_plane_ignores_its_trigger_area
    (self : EmergencyPlane.t) (area : TriggerPoints) (world : World)
    (ego_vehicle : Actor) :
  let o := EmergencyPlane.tick self world ego_vehicle in
  let o' :=
    EmergencyPlane.tick (EmergencyPlane.set_trigger_area area self)
                        world ego_vehicle in
  returned o' = returned o
  /\ events o' = events o
  /\ self' o'
     = EmergencyPlane.set_trigger_area
         (EmergencyPlane.trigger_area (self' o')) (self' o)
  /\ EmergencyPlane.trigger_points (self' o)
     = EmergencyPlane.trigger_points self
  /\ (EmergencyPlane.triggered self = false ->
      EmergencyPlane.triggered (self' o)
      = is_inside_bounding_box (location (get_transform (world ego_vehicle)))
          (fst (EmergencyPlane.trigger_points self))
          (snd (EmergencyPlane.trigger_points self))).
Proof.
  intros o o'. subst o o'.
  unfold EmergencyPlane.tick, EmergencyPlane.trigger. simpl.
  destruct (EmergencyPlane.triggered self) eqn:Htr.
  - destruct (Py.gt _ 2.80);
      [| destruct (EmergencyPlane.timer self >? 0)%Z]; simpl;
      repeat split; intros; discriminate.
  - destruct (is_inside_bounding_box _ _ _); simpl; repeat split;
      intros; assumption.
Qed.

(** ** weather_control.py *)

Lemma getitem_first {A : Type} (l : list A) :
  l <> [] -> exists a, In a l /\ Py.getitem l 0 = Py.Ok a.
Proof.
  destruct l as [| a l]; [congruence |].
  intros _. exists a. split; [left; reflexivity | reflexivity].
Qed.

Lemma getitem_below {A : Type} (l : list A) (i : nat) :
  (i < List.length l)%nat -> exists a, In a l /\ Py.getitem l i = Py.Ok a.
Proof.
  intros Hi. unfold Py.getitem.
  destruct (nth_error l i) as [a |] eqn:Ha.
  - exists a. split; [eapply nth_error_In; eassumption | reflexivity].
  - apply nth_error_None in Ha. lia.
Qed.

Lemma get_weather_storm_set (storm : weather_control.Storm)
    (weather : weather_control.WeatherParameters) :
  weather_control.get_weather_storm (weather_control.set_storm storm weather)
  = storm.
Proof. destruct storm as [[[[[a b] c] d] e] f]. reflexivity. Qed.

Lemma get_weather_sun_set_storm (storm : weather_control.Storm)
    (weather : weather_control.WeatherParameters) :
  weather_control.get_weather_sun (weather_control.set_storm storm weather)
  = weather_control.get_weather_sun weather.
Proof. destruct storm as [[[[[a b] c] d] e] f]. reflexivity. Qed.

Lemma each_storm_sets (weather : weather_control.WeatherParameters)
    (suns : list weather_control.Sun) (storms : list weather_control.Storm)
    (index_sun : nat) (rest : list weather_control.Storm) :
  forall before : list weather_control.Storm,
    storms = before ++ rest ->
    (index_sun < List.length suns)%nat ->
    existsb (weather_control.storm_eq
               (weather_control.get_weather_storm weather)) rest = true ->
    exists next,
      weather_control.each_storm weather suns storms index_sun
        (List.length before) rest = Py.Ok (Some next)
      /\ In (weather_control.get_weather_storm next) storms.
Proof.
  induction rest as [| storm rest IH]; intros before Hsplit Hsun Hin;
    [discriminate |].
  cbn [weather_control.each_storm].
  cbn [existsb] in Hin.
  destruct (weather_control.storm_eq
              (weather_control.get_weather_storm weather) storm) eqn:Heq.
  - assert (Hlen : List.length storms
                   = (List.length before + S (List.length rest))%nat)
      by (rewrite Hsplit, length_app; reflexivity).
    assert (Hsome : storms <> []) by (intros ->; simpl in Hlen; lia).
    destruct (List.length before =? List.length storms - 1)%nat eqn:Hlast.
    + destruct (getitem_first storms Hsome) as [next_storm [Hnext ->]].
      cbn [Py.bind].
      assert (Hnext_sun :
                exists next_sun,
                  (if (index_sun =? List.length suns - 1)%nat
                   then Py.getitem suns 0
                   else Py.getitem suns (index_sun + 1)) = Py.Ok next_sun).
      { destruct (index_sun =? List.length suns - 1)%nat eqn:Hs.
        - destruct (getitem_below suns 0) as [a [_ Ha]]; [lia |].
          exists a. exact Ha.
        - apply Nat.eqb_neq in Hs.
          destruct (getitem_below suns (index_sun + 1)) as [a [_ Ha]];
            [lia |].
          exists a. exact Ha. }
      destruct Hnext_sun as [next_sun ->]. cbn [Py.bind].
      eexists. split; [reflexivity |].
      rewrite get_weather_storm_set. exact Hnext.
    + apply Nat.eqb_neq in Hlast.
      destruct (getitem_below storms (List.length before + 1))
        as [next_storm [Hnext ->]]; [lia |].
      cbn [Py.bind].
      eexists. split; [reflexivity |].
      rewrite get_weather_storm_set. exact Hnext.
  - cbn [orb] in Hin.
    specialize (IH (before ++ [storm])).
    rewrite length_app, Nat.add_1_r in IH.
    apply IH; [rewrite <- app_assoc; exact Hsplit | exact Hsun | exact Hin].
Qed.

Lemma each_sun_sets (weather : weather_control.WeatherParameters)
    (suns : list weather_control.Sun) (storms : list weather_control.Storm)
    (rest : list weather_control.Sun) :
  forall before : list weather_control.Sun,
    suns = before ++ rest ->
    existsb (weather_control.sun_eq
               (weather_control.get_weather_sun weather)) rest = true ->
    existsb (weather_control.storm_eq
               (weather_control.get_weather_storm weather)) storms = true ->
    exists next,
      weather_control.each_sun weather suns storms (List.length before) rest
      = Py.Ok (Some next)
      /\ In (weather_control.get_weather_storm next) storms.
Proof.
  induction rest as [| sun rest IH]; intros before Hsplit Hin Hstorm;
    [discriminate |].
  cbn [weather_control.each_sun].
  cbn [existsb] in Hin.
  destruct (weather_control.sun_eq
              (weather_control.get_weather_sun weather) sun) eqn:Heq.
  - destruct (each_storm_sets weather suns storms (List.length before)
                storms [] eq_refl) as [next [Hnext Hlisted]].
    + rewrite Hsplit, length_app. simpl. lia.
    + exact Hstorm.
    + simpl in Hnext. rewrite Hnext. exists next. split; [reflexivity | exact Hlisted].
  - cbn [orb] in Hin.
    specialize (IH (before ++ [sun])).
    rewrite length_app, Nat.add_1_r in IH.
    apply IH; [rewrite <- app_assoc; exact Hsplit | exact Hin | exact Hstorm].
Qed.

(** X25.  [world_change_weather] raises (an IndexError) exactly when one
    of the two lists of states is empty; with two non-empty lists it
    always sets a weather, whatever the current weather is, and the storm
    values of the weather it sets are those of a listed storm state. *)
Theorem world_change_weather_raises_iff_a_list_is_empty
    (weather : weather_control.WeatherParameters)
    (suns : list weather_control.Sun)
    (storms : list weather_control.Storm) :
  (weather_control.world_change_weather weather suns storms
   = Py.Raise Py.IndexError
   <-> suns = [] \/ storms = [])
  /\ (forall e,
        weather_control.world_change_weather weather suns storms
        = Py.Raise e -> e = Py.IndexError)
  /\ (weather_control.world_change_weather weather suns storms
      <> Py.Ok None)
  /\ (forall next,
        weather_control.world_change_weather weather suns storms
        = Py.Ok (Some next) ->
        In (weather_control.get_weather_storm next) storms).
Proof.
  assert (Hempty :
            suns = [] \/ storms = [] ->
            weather_control.world_change_weather weather suns storms
            = Py.Raise Py.IndexError).
  { unfold weather_control.world_change_weather, weather_control.contains.
    intros [-> | ->].
    - reflexivity.
    - simpl. rewrite orb_true_r.
      destruct suns; reflexivity. }
  assert (Hsets :
            suns <> [] -> storms <> [] ->
            exists next,
              weather_control.world_change_weather weather suns storms
              = Py.Ok (Some next)
              /\ In (weather_control.get_weather_storm next) storms).
  { intros Hsuns Hstorms.
    unfold weather_control.world_change_weather, weather_control.contains.
    destruct (existsb (weather_control.sun_eq
                         (weather_control.get_weather_sun weather)) suns)
      eqn:Hsun;
      [destruct (existsb (weather_control.storm_eq
                            (weather_control.get_weather_storm weather))
                   storms) eqn:Hstorm |].
    - simpl. exact (each_sun_sets weather suns storms suns [] eq_refl Hsun Hstorm).
    - simpl.
      destruct (getitem_first suns Hsuns) as [sun [_ ->]].
      destruct (getitem_first storms Hstorms) as [storm [Hin ->]].
      cbn [Py.bind]. eexists. split; [reflexivity |].
      rewrite get_weather_storm_set. exact Hin.
    - simpl.
      destruct (getitem_first suns Hsuns) as [sun [_ ->]].
      destruct (getitem_first storms Hstorms) as [storm [Hin ->]].
      cbn [Py.bind]. eexists. split; [reflexivity |].
      rewrite get_weather_storm_set. exact Hin. }
  assert (Hcases : (suns = [] \/ storms = []) \/ (suns <> [] /\ storms <> [])).
  { destruct suns; [left; left; reflexivity |].
    destruct storms; [left; right; reflexivity |].
    right. split; discriminate. }
  split; [| split; [| split]].
  - split; [| exact Hempty].
    intros Hraise. destruct Hcases as [Hc | [Hs Ht]]; [exact Hc |].
    destruct (Hsets Hs Ht) as [next [Hnext _]]. congruence.
  - intros e He. destruct Hcases as [Hc | [Hs Ht]].
    + rewrite (Hempty Hc) in He. congruence.
    + destruct (Hsets Hs Ht) as [next [Hnext _]]. congruence.
  - destruct Hcases as [Hc | [Hs Ht]].
    + rewrite (Hempty Hc). discriminate.
    + destruct (Hsets Hs Ht) as [next [Hnext _]]. congruence.
  - intros next Hnext. destruct Hcases as [Hc | [Hs Ht]].
    + rewrite (Hempty Hc) in Hnext. discriminate.
    + destruct (Hsets Hs Ht) as [next' [Hnext' Hin]]. congruence.
Qed.

Lemma round2_hundredths (z : Z) (v : R) :
  v = IZR z / 100 -> weather_control.round2 v = v.
Proof.
  intros ->.
  unfold weather_control.round2, weather_control.round_half_even.
  replace (IZR z / 100 * 100) with (IZR z) by lra.
  destruct (Int_part_frac_part_spec (IZR z) z 0) as [<- <-]; [lra | lra |].
  destruct (Rlt_dec 0 (1 / 2)) as [_ | Hno]; [reflexivity | exfalso; lra].
Qed.

Lemma listed_suns_rounded (sun : weather_control.Sun) :
  In sun weather_control.sun_states ->
  (weather_control.round2 (fst sun), weather_control.round2 (snd sun)) = sun.
Proof.
  intros [<- | [<- | [<- | [<- | [<- | []]]]]];
    cbn [fst snd]; apply f_equal2.
  - apply (round2_hundredths 4500); lra.
  - apply (round2_hundredths 24000); lra.
  - apply (round2_hundredths 200); lra.
  - apply (round2_hundredths 26800); lra.
  - apply (round2_hundredths (-8800)); lra.
  - apply (round2_hundredths 32000); lra.
  - apply (round2_hundredths 105); lra.
  - apply (round2_hundredths 2828); lra.
  - apply (round2_hundredths 1); lra.
  - apply (round2_hundredths 11000); lra.
Qed.

Lemma getitem_nth {A : Type} (l : list A) (i : nat) (d : A) :
  (i < List.length l)%nat -> Py.getitem l i = Py.Ok (nth i l d).
Proof.
  intros Hi. unfold Py.getitem.
  rewrite (nth_error_nth' l d Hi). reflexivity.
Qed.

Lemma contains_nth {A : Type} (eq : A -> A -> bool) (l : list A) (v : A)
    (i : nat) (d : A) :
  (i < List.length l)%nat -> eq v (nth i l d) = true ->
  weather_control.contains eq l v = true.
Proof.
  intros Hi Heq. unfold weather_control.contains.
  apply existsb_exists. exists (nth i l d).
  split; [apply nth_In; exact Hi | exact Heq].
Qed.

Lemma each_storm_first_match (weather : weather_control.WeatherParameters)
    (suns : list weather_control.Sun) (storms : list weather_control.Storm)
    (i : nat) (rest : list weather_control.Storm) :
  forall (before : list weather_control.Storm) (j : nat),
    storms = before ++ rest ->
    (i < List.length suns)%nat ->
    (j < List.length rest)%nat ->
    (forall k, (k < j)%nat ->
               weather_control.storm_eq
                 (weather_control.get_weather_storm weather)
                 (nth k rest (0, 0, 0, 0, 0, 0)) = false) ->
    weather_control.storm_eq (weather_control.get_weather_storm weather)
      (nth j rest (0, 0, 0, 0, 0, 0)) = true ->
    weather_control.each_storm weather suns storms i (List.length before) rest
    = Py.Ok (Some (following weather suns storms i (List.length before + j))).
Proof.
  induction rest as [| storm rest IH]; intros before j Hsplit Hi Hj Hnot Heq;
    [simpl in Hj; lia |].
  assert (Hlen : List.length storms
                 = (List.length before + S (List.length rest))%nat)
    by (rewrite Hsplit, length_app; reflexivity).
  cbn [weather_control.each_storm].
  destruct j as [| j].
  - cbn [nth] in Heq. rewrite Heq, Nat.add_0_r. unfold following.
    destruct (List.length before =? List.length storms - 1)%nat eqn:Hlast.
    + rewrite (getitem_nth storms 0 (0, 0, 0, 0, 0, 0)) by lia.
      cbn [Py.bind].
      destruct (i =? List.length suns - 1)%nat eqn:Hend.
      * rewrite (getitem_nth suns 0 (0, 0)) by lia. reflexivity.
      * apply Nat.eqb_neq in Hend.
        rewrite (getitem_nth suns (i + 1) (0, 0)) by lia. reflexivity.
    + apply Nat.eqb_neq in Hlast.
      rewrite (getitem_nth storms (List.length before + 1) (0, 0, 0, 0, 0, 0))
        by lia.
      reflexivity.
  - assert (Hhead := Hnot 0%nat ltac:(lia)). cbn [nth] in Hhead.
    rewrite Hhead.
    specialize (IH (before ++ [storm]) j).
    rewrite length_app, Nat.add_1_r in IH.
    rewrite IH.
    + f_equal. f_equal. f_equal. simpl. lia.
    + rewrite <- app_assoc. exact Hsplit.
    + exact Hi.
    + simpl in Hj. lia.
    + intros k Hk. apply (Hnot (S k)). lia.
    + exact Heq.
Qed.

Lemma each_sun_first_match (weather : weather_control.WeatherParameters)
    (suns : list weather_control.Sun) (storms : list weather_control.Storm)
    (j : nat) (rest : list weather_control.Sun) :
  forall (before : list weather_control.Sun) (i : nat),
    suns = before ++ rest ->
    (i < List.length rest)%nat ->
    (forall k, (k < i)%nat ->
               weather_control.sun_eq
                 (weather_control.get_weather_sun weather)
                 (nth k rest (0, 0)) = false) ->
    weather_control.sun_eq (weather_control.get_weather_sun weather)
      (nth i rest (0, 0)) = true ->
    (j < List.length storms)%nat ->
    (forall k, (k < j)%nat ->
               weather_control.storm_eq
                 (weather_control.get_weather_storm weather)
                 (nth k storms (0, 0, 0, 0, 0, 0)) = false) ->
    weather_control.storm_eq (weather_control.get_weather_storm weather)
      (nth j storms (0, 0, 0, 0, 0, 0)) = true ->
    weather_control.each_sun weather suns storms (List.length before) rest
    = Py.Ok (Some (following weather suns storms (List.length before + i) j)).
Proof.
  induction rest as [| sun rest IH];
    intros before i Hsplit Hi Hnot Heq Hj Hnot_storm Heq_storm;
    [simpl in Hi; lia |].
  assert (Hlen : List.length suns
                 = (List.length before + S (List.length rest))%nat)
    by (rewrite Hsplit, length_app; reflexivity).
  cbn [weather_control.each_sun].
  destruct i as [| i].
  - cbn [nth] in Heq. rewrite Heq, Nat.add_0_r.
    assert (Hinner :=
              each_storm_first_match weather suns storms
                (List.length before) storms [] j eq_refl ltac:(lia) Hj
                Hnot_storm Heq_storm).
    cbn [List.length Nat.add] in Hinner. rewrite Hinner.
    reflexivity.
  - assert (Hhead := Hnot 0%nat ltac:(lia)). cbn [nth] in Hhead.
    rewrite Hhead.
    specialize (IH (before ++ [sun]) i).
    rewrite length_app, Nat.add_1_r in IH.
    rewrite IH.
    + f_equal. f_equal. f_equal. simpl. lia.
    + rewrite <- app_assoc. exact Hsplit.
    + simpl in Hi. lia.
    + intros k Hk. apply (Hnot (S k)). lia.
    + exact Heq.
    + exact Hj.
    + exact Hnot_storm.
    + exact Heq_storm.
Qed.

Lemma change_from_first_match (weather : weather_control.WeatherParameters)
    (suns : list weather_control.Sun) (storms : list weather_control.Storm)
    (i j : nat) :
  (i < List.length suns)%nat ->
  (forall k, (k < i)%nat ->
             weather_control.sun_eq (weather_control.get_weather_sun weather)
               (nth k suns (0, 0)) = false) ->
  weather_control.sun_eq (weather_control.get_weather_sun weather)
    (nth i suns (0, 0)) = true ->
  (j < List.length storms)%nat ->
  (forall k, (k < j)%nat ->
             weather_control.storm_eq
               (weather_control.get_weather_storm weather)
               (nth k storms (0, 0, 0, 0, 0, 0)) = false) ->
  weather_control.storm_eq (weather_control.get_weather_storm weather)
    (nth j storms (0, 0, 0, 0, 0, 0)) = true ->
  weather_control.world_change_weather weather suns storms
  = Py.Ok (Some (following weather suns storms i j)).
Proof.
  intros Hi Hnot Heq Hj Hnot_storm Heq_storm.
  unfold weather_control.world_change_weather.
  rewrite (contains_nth _ suns _ i (0, 0) Hi Heq).
  rewrite (contains_nth _ storms _ j (0, 0, 0, 0, 0, 0) Hj Heq_storm).
  cbn [negb orb].
  exact (each_sun_first_match weather suns storms j suns [] i eq_refl
           Hi Hnot Heq Hj Hnot_storm Heq_storm).
Qed.

(** Decides the comparisons of float literals of the goal. *)
Ltac compare_literals :=
  repeat match goal with
    | |- context [Py.eq ?a ?b] =>
        let H := fresh "Hcmp" in
        first
          [ assert (H : Py.eq a b = true)
              by (unfold Py.eq; destruct (Req_dec_T a b);
                  [reflexivity | exfalso; lra])
          | assert (H : Py.eq a b = false)
              by (unfold Py.eq; destruct (Req_dec_T a b);
                  [exfalso; lra | reflexivity]) ];
        rewrite !H; clear H
    end.

Lemma sun_states_distinct (i k : nat) :
  (i < 5)%nat -> (k < 5)%nat ->
  weather_control.sun_eq (nth i weather_control.sun_states (0, 0))
    (nth k weather_control.sun_states (0, 0))
  = (i =? k)%nat.
Proof.
  intros Hi Hk.
  destruct i as [| [| [| [| [| i]]]]]; [| | | | | lia];
    (destruct k as [| [| [| [| [| k]]]]]; [| | | | | lia]);
    unfold weather_control.sun_eq;
    cbn [nth weather_control.sun_states fst snd];
    compare_literals; reflexivity.
Qed.

Lemma storm_states_distinct (j k : nat) :
  (j < 4)%nat -> (k < 4)%nat ->
  weather_control.storm_eq
    (nth j weather_control.storm_states (0, 0, 0, 0, 0, 0))
    (nth k weather_control.storm_states (0, 0, 0, 0, 0, 0))
  = (j =? k)%nat.
Proof.
  intros Hj Hk.
  destruct j as [| [| [| [| j]]]]; [| | | | lia];
    (destruct k as [| [| [| [| k]]]]; [| | | | lia]);
    cbn [nth weather_control.storm_states weather_control.storm_eq];
    compare_literals; reflexivity.
Qed.

Lemma main_steps_to_the_next_state
    (weather : weather_control.WeatherParameters) (i j : nat) :
  (i < 5)%nat -> (j < 4)%nat ->
  weather_control.get_weather_sun weather
  = nth i weather_control.sun_states (0, 0) ->
  weather_control.get_weather_storm weather
  = nth j weather_control.storm_states (0, 0, 0, 0, 0, 0) ->
  weather_control.get_weather_sun (weather_control.main weather)
  = nth (if (j =? 3)%nat then (i + 1) mod 5 else i)
        weather_control.sun_states (0, 0)
  /\ weather_control.get_weather_storm (weather_control.main weather)
     = nth ((j + 1) mod 4) weather_control.storm_states (0, 0, 0, 0, 0, 0).
Proof.
  intros Hi Hj Hsun Hstorm.
  unfold weather_control.main.
  rewrite (change_from_first_match weather weather_control.sun_states
             weather_control.storm_states i j).
  - unfold following.
    change (List.length weather_control.storm_states - 1)%nat with 3%nat.
    change (List.length weather_control.sun_states - 1)%nat with 4%nat.
    destruct (j =? 3)%nat eqn:Hlast.
    + apply Nat.eqb_eq in Hlast. subst j.
      rewrite get_weather_storm_set, get_weather_sun_set_storm.
      split; [| reflexivity].
      replace (if (i =? 4)%nat then 0%nat else (i + 1)%nat)
        with ((i + 1) mod 5)%nat.
      * apply listed_suns_rounded, nth_In.
        apply Nat.mod_upper_bound. discriminate.
      * destruct (i =? 4)%nat eqn:Hend.
        -- apply Nat.eqb_eq in Hend. subst i. reflexivity.
        -- apply Nat.eqb_neq in Hend. apply Nat.mod_small. lia.
    + apply Nat.eqb_neq in Hlast.
      rewrite get_weather_storm_set, get_weather_sun_set_storm.
      split; [exact Hsun |].
      rewrite Nat.mod_small by lia. reflexivity.
  - exact Hi.
  - intros k Hk. rewrite Hsun, sun_states_distinct by lia.
    apply Nat.eqb_neq. lia.
  - rewrite Hsun, sun_states_distinct by lia. apply Nat.eqb_refl.
  - exact Hj.
  - intros k Hk. rewrite Hstorm, storm_states_distinct by lia.
    apply Nat.eqb_neq. lia.
  - rewrite Hstorm, storm_states_distinct by lia. apply Nat.eqb_refl.
Qed.

(** X26.  For any two lists of states, when the current (rounded) sun is
    first listed at index [i] and the current storm first listed at index
    [j], [world_change_weather] sets the storm listed next, wrapping to
    the first one after the last; the sun angles are left as they are
    unless the storm wrapped, and are then set to the sun listed next,
    wrapping likewise. *)
Theorem world_change_weather_circles_storms_for_each_sun
    (weather : weather_control.WeatherParameters)
    (suns : list weather_control.Sun) (storms : list weather_control.Storm)
    (i j : nat) :
  (i < List.length suns)%nat ->
  (forall k, (k < i)%nat ->
             weather_control.sun_eq (weather_control.get_weather_sun weather)
               (nth k suns (0, 0)) = false) ->
  weather_control.sun_eq (weather_control.get_weather_sun weather)
    (nth i suns (0, 0)) = true ->
  (j < List.length storms)%nat ->
  (forall k, (k < j)%nat ->
             weather_control.storm_eq
               (weather_control.get_weather_storm weather)
               (nth k storms (0, 0, 0, 0, 0, 0)) = false) ->
  weather_control.storm_eq (weather_control.get_weather_storm weather)
    (nth j storms (0, 0, 0, 0, 0, 0)) = true ->
  exists next,
    weather_control.world_change_weather weather suns storms
    = Py.Ok (Some next)
    /\ weather_control.get_weather_storm next
       = nth ((j + 1) mod List.length storms) storms (0, 0, 0, 0, 0, 0)
    /\ (weather_control.sun_altitude_angle next,
        weather_control.sun_azimuth_angle next)
       = (if (j + 1 =? List.length storms)%nat
          then nth ((i + 1) mod List.length suns) suns (0, 0)
          else (weather_control.sun_altitude_angle weather,
                weather_control.sun_azimuth_angle weather)).
Proof.
  intros Hi Hnot Heq Hj Hnot_storm Heq_storm.
  exists (following weather suns storms i j).
  split;
    [exact (change_from_first_match weather suns storms i j Hi Hnot Heq Hj
              Hnot_storm Heq_storm) |].
  unfold following.
  destruct (j =? List.length storms - 1)%nat eqn:Hlast.
  - apply Nat.eqb_eq in Hlast.
    replace (j + 1)%nat with (List.length storms) by lia.
    rewrite Nat.Div0.mod_same, Nat.eqb_refl, get_weather_storm_set.
    split; [reflexivity |].
    replace (if (i =? List.length suns - 1)%nat then 0%nat else (i + 1)%nat)
      with ((i + 1) mod List.length suns)%nat.
    + destruct (nth 0 storms (0, 0, 0, 0, 0, 0)) as [[[[[a b] c] d] e] f].
      destruct (nth ((i + 1) mod List.length suns) suns (0, 0)) as [alt azm].
      reflexivity.
    + destruct (i =? List.length suns - 1)%nat eqn:Hend.
      * apply Nat.eqb_eq in Hend.
        replace (i + 1)%nat with (List.length suns) by lia.
        apply Nat.Div0.mod_same.
      * apply Nat.eqb_neq in Hend. apply Nat.mod_small. lia.
  - apply Nat.eqb_neq in Hlast.
    rewrite Nat.mod_small, get_weather_storm_set by lia.
    split; [reflexivity |].
    replace (j + 1 =? List.length storms)%nat with false
      by (symmetry; apply Nat.eqb_neq; lia).
    destruct (nth (j + 1) storms (0, 0, 0, 0, 0, 0)) as [[[[[a b] c] d] e] f].
    reflexivity.
Qed.

Lemma world_change_weather_circles_storms_for_each_sun_witness :
  exists next,
    weather_control.world_change_weather (weather_control.listed 0 3)
      weather_control.sun_states weather_control.storm_states
    = Py.Ok (Some next)
    /\ weather_control.get_weather_storm next = (0.0, 0.0, 0.0, 0.0, 0.0, 5.0)
    /\ (weather_control.sun_altitude_angle next,
        weather_control.sun_azimuth_angle next)
       = (2.0, 268.0).
Proof.
  assert (Hsun : weather_control.get_weather_sun (weather_control.listed 0 3)
                 = nth 0 weather_control.sun_states (0, 0))
    by exact (listed_suns_rounded (45.0, 240.0) (or_introl eq_refl)).
  assert (Hstorm : weather_control.get_weather_storm
                     (weather_control.listed 0 3)
                   = nth 3 weather_control.storm_states (0, 0, 0, 0, 0, 0))
    by reflexivity.
  apply (world_change_weather_circles_storms_for_each_sun
           (weather_control.listed 0 3) weather_control.sun_states
           weather_control.storm_states 0 3).
  - simpl. lia.
  - intros k Hk. lia.
  - rewrite Hsun. apply (sun_states_distinct 0 0); lia.
  - simpl. lia.
  - intros k Hk. rewrite Hstorm, storm_states_distinct by lia.
    apply Nat.eqb_neq. lia.
  - rewrite Hstorm. apply (storm_states_distinct 3 3); lia.
Defined.

(** X27.  With the script's own lists, from a weather whose (rounded) sun
    is the [i]-th listed and whose storm is the [j]-th listed, [k] runs
    of [main] leave the storm listed at [(j + k) mod 4] and the sun
    listed at [(i + (j + k) / 4) mod 5]: the four storms are gone through
    under each of the five suns, and 20 runs come back to the start. *)
Theorem main_cycles_through_the_twenty_states
    (weather : weather_control.WeatherParameters) (i j k : nat) :
  (i < 5)%nat -> (j < 4)%nat ->
  weather_control.get_weather_sun weather
  = nth i weather_control.sun_states (0, 0) ->
  weather_control.get_weather_storm weather
  = nth j weather_control.storm_states (0, 0, 0, 0, 0, 0) ->
  weather_control.get_weather_sun (Nat.iter k weather_control.main weather)
  = nth ((i + (j + k) / 4) mod 5) weather_control.sun_states (0, 0)
  /\ weather_control.get_weather_storm
       (Nat.iter k weather_control.main weather)
     = nth ((j + k) mod 4) weather_control.storm_states (0, 0, 0, 0, 0, 0).
Proof.
  intros Hi Hj Hsun Hstorm.
  induction k as [| k [IHsun IHstorm]].
  - rewrite Nat.add_0_r, Nat.div_small, Nat.add_0_r, !Nat.mod_small by lia.
    split; assumption.
  - cbn [Nat.iter nat_rect].
    assert (Hq := Nat.div_mod_eq (j + k) 4).
    assert (Hr : ((j + k) mod 4 < 4)%nat)
      by (apply Nat.mod_upper_bound; discriminate).
    destruct (main_steps_to_the_next_state
                (Nat.iter k weather_control.main weather)
                ((i + (j + k) / 4) mod 5) ((j + k) mod 4))
      as [Hnext_sun Hnext_storm];
      [apply Nat.mod_upper_bound; discriminate | exact Hr
      | exact IHsun | exact IHstorm |].
    unfold Nat.iter in Hnext_sun, Hnext_storm.
    rewrite Hnext_sun, Hnext_storm.
    destruct ((j + k) mod 4 =? 3)%nat eqn:Hlast.
    + apply Nat.eqb_eq in Hlast.
      assert (Hdiv : ((j + S k) / 4 = S ((j + k) / 4))%nat)
        by (symmetry; apply (Nat.div_unique _ 4 _ 0); lia).
      assert (Hmod : ((j + S k) mod 4 = 0)%nat)
        by (symmetry; apply (Nat.mod_unique _ 4 (S ((j + k) / 4))); lia).
      rewrite Hdiv, Hmod, Hlast, Nat.Div0.add_mod_idemp_l.
      split; [| reflexivity].
      f_equal. f_equal. lia.
    + apply Nat.eqb_neq in Hlast.
      assert (Hdiv : ((j + S k) / 4 = (j + k) / 4)%nat)
        by (symmetry; apply (Nat.div_unique _ 4 _ (S ((j + k) mod 4))); lia).
      assert (Hmod : ((j + S k) mod 4 = S ((j + k) mod 4))%nat)
        by (symmetry; apply (Nat.mod_unique _ 4 ((j + k) / 4)); lia).
      rewrite Hdiv, Hmod.
      split; [reflexivity |].
      rewrite Nat.mod_small by lia. f_equal. lia.
Qed.

Lemma main_cycles_through_the_twenty_states_witness :
  weather_control.get_weather_sun
    (Nat.iter 20 weather_control.main (weather_control.listed 0 0))
  = (45.0, 240.0)
  /\ weather_control.get_weather_storm
       (Nat.iter 20 weather_control.main (weather_control.listed 0 0))
     = (0.0, 0.0, 0.0, 0.0, 0.0, 5.0).
Proof.
  apply (main_cycles_through_the_twenty_states
           (weather_control.listed 0 0) 0 0 20).
  - lia.
  - lia.
  - exact (listed_suns_rounded (45.0, 240.0) (or_introl eq_refl)).
  - reflexivity.
Defined.
